(** * dagster-xml-json-ex: the enrichment transform and the blocking check

    A shallow embedding of [pipeline_xml.py] and [pipeline_json.py]:

    - the harvest and transform tables, as records with the columns the
      source selects (a Polars null is [None]);
    - the Polars operations the transform is written with ([filter],
      [explode], [unnest], left [join], [group_by ... agg], [fill_null]);
    - [objects_transform], step by step as in the source;
    - the Polars expressions of the Pandera checks, as a small expression
      language with an evaluator that can fail, and the declared checks of
      [ObjectTransformSchema] written in it;
    - [check_objects_transform] and the two [main] drivers.

    Conventions.

    - Frames are typed: every row of a table is a record of the table's
      columns, and a list column keeps its struct type when all its lists
      are empty.  The list columns hold lists; the nested columns of the
      assembled frame are nullable until [fill_null].
    - A float is the rational it denotes.
    - The row order of a [join] without [maintain_order] and of a
      [group_by] without [maintain_order=True] is chosen by the engine
      ([Engine]); the order inside a group is that of the group's rows.
    - Of Pandera, the model keeps what [check_objects_transform] reads: the
      rows of [failure_cases], one per failing value of a column
      declaration and one per row on which a dataframe check is false.
      The JSON serialisation of a failing row is a parameter.
    - The harvest readers, the Parquet store and the JSON sink are outside:
      [main] is modelled from the harvested frames on, as the list of its
      steps. *)

From Stdlib Require Import List String Ascii Bool Arith ZArith QArith Lia Permutation.
From Stdlib Require Import DecimalString.
Import ListNotations.

Local Open Scope string_scope.
Local Open Scope list_scope.
Local Open Scope nat_scope.

(* ===================================================================== *)
(** * Tables *)
(* ===================================================================== *)

(** A nullable string column: join keys, labels, and every text field that
    [_text] or [el.get] can return as [None]. *)
Definition key := option string.

(** A row of the terminology table: [{term_id, term_type, label}]. *)
Module Term.
Record t := mk { term_id : key; term_type : key; label : key }.
End Term.

(** An element of [classification_ids]: [{type_id, term_id}]. *)
Module ClassificationRef.
Record t := mk { type_id : key; term_id : key }.
End ClassificationRef.

(** An element of the harvested [constituents] list. *)
Module Constituent.
Record t := mk {
  name : key; role : key; birth_year : option Z; nationality_id : key }.
End Constituent.

(** An element of [dimensions].  A float value is represented by the
    rational it denotes. *)
Module Dimension.
Record t := mk { type : key; value : Q; unit : key }.
End Dimension.

(** An element of [media]. *)
Module Media.
Record t := mk { type : key; url : key; caption : key }.
End Media.

(** A row of the harvested objects table ([_parse_object_xml]). *)
Module HarvestObject.
Record t := mk {
  object_id : key;
  title : key;
  date_made : option Z;
  credit_line : key;
  department : key;
  constituents : list Constituent.t;
  classification_ids : list ClassificationRef.t;
  dimensions : list Dimension.t;
  media : list Media.t }.
End HarvestObject.

(** An element of the enriched [classifications] list:
    [pl.struct("type_label", "term_label")]. *)
Module Classification.
Record t := mk { type_label : key; term_label : key }.
End Classification.

(** An element of the enriched [constituents] list:
    [pl.struct("name", "role", "birth_year", "nationality")]. *)
Module EnrichedConstituent.
Record t := mk {
  name : key; role : key; birth_year : option Z; nationality : key }.
End EnrichedConstituent.

(** The seven pass-through columns selected in the assembly step. *)
Module BaseRow.
Record t := mk {
  object_id : key;
  title : key;
  date_made : option Z;
  credit_line : key;
  department : key;
  dimensions : list Dimension.t;
  media : list Media.t }.
End BaseRow.

(** A row of the transform output. *)
Module TransformRow.
Record t := mk {
  object_id : key;
  title : key;
  date_made : option Z;
  credit_line : key;
  department : key;
  dimensions : list Dimension.t;
  media : list Media.t;
  classifications : list Classification.t;
  constituents : list EnrichedConstituent.t }.
End TransformRow.

(** The exploded and unnested classification rows:
    [{object_id, type_id, term_id}]. *)
Module FlatClassification.
Record t := mk { object_id : key; type_id : key; term_id : key }.
End FlatClassification.

(** The exploded and unnested constituent rows. *)
Module FlatConstituent.
Record t := mk {
  object_id : key;
  name : key; role : key; birth_year : option Z; nationality_id : key }.
End FlatConstituent.

(* ===================================================================== *)
(** * The Polars operations of the transform *)
(* ===================================================================== *)

(** Polars leaves the row order of a [join] called without [maintain_order]
    and of a [group_by] called without [maintain_order=True] unspecified;
    the source asks for neither and collects with [engine="streaming"].  An
    [Engine] fixes that order: at each plan node it returns the rows of the
    node in some order.  Every other operation keeps the order of its
    input. *)
Record Engine := {
  row_order : forall A : Type, nat -> list A -> list A;
  row_order_perm :
    forall (A : Type) (node : nat) (l : list A),
      Permutation (row_order A node l) l }.

Arguments row_order _ {A} _ _.

(** The engine that emits every node's rows in input order. *)
Definition in_order : Engine :=
  {| row_order := fun _ _ l => l;
     row_order_perm := fun _ _ l => Permutation_refl l |}.

(** An engine that emits the rows of plan node [n] last-first and keeps the
    input order at every other node. *)
Definition last_first_at (n : nat) : Engine :=
  {| row_order := fun A node l => if Nat.eqb node n then rev l else l;
     row_order_perm := fun A node l =>
       match Nat.eqb node n as b
         return Permutation (if b then rev l else l) l
       with
       | true => Permutation_sym (Permutation_rev l)
       | false => Permutation_refl l
       end |}.

(** The engine emits the rows of plan node [n] in input order. *)
Definition keeps_order (E : Engine) (n : nat) : Prop :=
  forall (A : Type) (l : list A), row_order E n l = l.

(** Join keys: a null key matches nothing, not even another null. *)
Definition join_key_eq (a b : key) : bool :=
  match a, b with
  | Some x, Some y => String.eqb x y
  | _, _ => false
  end.

(** Group keys: nulls fall into one group. *)
Definition group_key_eq (a b : key) : bool :=
  match a, b with
  | Some x, Some y => String.eqb x y
  | None, None => true
  | _, _ => false
  end.

Arguments join_key_eq : simpl never.
Arguments group_key_eq : simpl never.

Definition key_eq_dec (a b : key) : {a = b} + {a <> b}.
Proof. decide equality. apply string_dec. Defined.

Section Frames.

Variable E : Engine.

(** The right rows a left row of key [k] is joined with: each right row of
    equal key, or a single null when there is none. *)
Definition join_matches {R : Type} (rk : R -> key) (right : list R) (k : key)
  : list (option R) :=
  match filter (fun r => join_key_eq k (rk r)) right with
  | [] => [None]
  | ms => map Some ms
  end.

(** [left.join(right, on=k, how="left")]. *)
Definition join_left {L R : Type} (node : nat)
    (lk : L -> key) (rk : R -> key)
    (left : list L) (right : list R) : list (L * option R) :=
  row_order E node
    (flat_map (fun l => map (pair l) (join_matches rk right (lk l))) left).

(** [.explode(col)] on rows [(id, list)]: one row per element; an empty list
    gives one row with a null element. *)
Definition explode {X : Type}
    (rows : list (key * list X)) : list (key * option X) :=
  flat_map
    (fun r =>
       match snd r with
       | [] => [(fst r, None)]
       | xs => map (fun x => (fst r, Some x)) xs
       end)
    rows.

(** [.group_by(k).agg(struct.alias(col))]: one row per distinct key, with the
    values of the key's rows in the order they are met. *)
Definition group_by_agg {V : Type} (node : nat)
    (rows : list (key * V)) : list (key * list V) :=
  row_order E node
    (map
       (fun k => (k, map snd (filter (fun r => group_key_eq (fst r) k) rows)))
       (nodup key_eq_dec (map fst rows))).

(** [pl.col(c).fill_null([])]. *)
Definition fill_null {X : Type} (v : option (list X)) : list X :=
  match v with
  | Some l => l
  | None => []
  end.

(** [.unnest("classification_ids")]: a null struct gives null fields. *)
Definition unnest_classification_ids
    (r : key * option ClassificationRef.t) : FlatClassification.t :=
  match snd r with
  | Some c =>
      FlatClassification.mk (fst r)
        (ClassificationRef.type_id c) (ClassificationRef.term_id c)
  | None => FlatClassification.mk (fst r) None None
  end.

(** [.unnest("constituents")]. *)
Definition unnest_constituents
    (r : key * option Constituent.t) : FlatConstituent.t :=
  match snd r with
  | Some c =>
      FlatConstituent.mk (fst r)
        (Constituent.name c) (Constituent.role c)
        (Constituent.birth_year c) (Constituent.nationality_id c)
  | None => FlatConstituent.mk (fst r) None None None None
  end.

(** The label column a left join attaches: the matched row's, or null. *)
Definition joined_label (m : option (key * key)) : key :=
  match m with
  | Some r => snd r
  | None => None
  end.

(* --------------------------------------------------------------------- *)
(** ** [objects_transform] *)
(* --------------------------------------------------------------------- *)

Section Transform.

Variable harvest_terminology : list Term.t.
Variable harvest_objects : list HarvestObject.t.

Let terminology := harvest_terminology.
Let objects := harvest_objects.

(** [terminology.select(term_id.alias("type_id"), label.alias("type_label"))]:
    rows [(type_id, type_label)]. *)
Definition type_labels : list (key * key) :=
  map (fun t => (Term.term_id t, Term.label t)) terminology.

(** [terminology.select("term_id", label.alias("term_label"))]:
    rows [(term_id, term_label)]. *)
Definition term_labels : list (key * key) :=
  map (fun t => (Term.term_id t, Term.label t)) terminology.

Definition classifications_flat : list FlatClassification.t :=
  map unnest_classification_ids
    (explode
       (filter (fun r => 0 <? List.length (snd r))
          (map
             (fun o =>
                (HarvestObject.object_id o, HarvestObject.classification_ids o))
             objects))).

(** The two label joins and the [select]: the rows that enter the
    [group_by], as [(object_id, struct(type_label, term_label))]. *)
Definition classifications_joined : list (key * Classification.t) :=
  map
    (fun r =>
       (FlatClassification.object_id (fst (fst r)),
        Classification.mk (joined_label (snd (fst r))) (joined_label (snd r))))
    (join_left 2 (fun r => FlatClassification.term_id (fst r)) fst
       (join_left 1 FlatClassification.type_id fst
          classifications_flat type_labels)
       term_labels).

Definition classifications_nested : list (key * list Classification.t) :=
  group_by_agg 3 classifications_joined.

(** [terminology.filter(term_type == "nationality").select(...)]:
    rows [(nationality_id, nationality)]. *)
Definition nationality_lookup : list (key * key) :=
  map (fun t => (Term.term_id t, Term.label t))
    (filter (fun t => join_key_eq (Term.term_type t) (Some "nationality"))
       terminology).

Definition constituents_flat : list FlatConstituent.t :=
  map unnest_constituents
    (explode
       (filter (fun r => 0 <? List.length (snd r))
          (map
             (fun o => (HarvestObject.object_id o, HarvestObject.constituents o))
             objects))).

(** The nationality join and the [select]: the rows that enter the
    [group_by], as [(object_id, struct(name, role, birth_year, nationality))]. *)
Definition constituents_joined : list (key * EnrichedConstituent.t) :=
  map
    (fun r =>
       (FlatConstituent.object_id (fst r),
        EnrichedConstituent.mk
          (FlatConstituent.name (fst r)) (FlatConstituent.role (fst r))
          (FlatConstituent.birth_year (fst r)) (joined_label (snd r))))
    (join_left 4 FlatConstituent.nationality_id fst
       constituents_flat nationality_lookup).

Definition constituents_nested : list (key * list EnrichedConstituent.t) :=
  group_by_agg 5 constituents_joined.

(** [objects.select("object_id", ..., "media")]. *)
Definition base_rows : list BaseRow.t :=
  map
    (fun o =>
       BaseRow.mk
         (HarvestObject.object_id o) (HarvestObject.title o)
         (HarvestObject.date_made o) (HarvestObject.credit_line o)
         (HarvestObject.department o) (HarvestObject.dimensions o)
         (HarvestObject.media o))
    objects.

(** The assembled frame before [with_columns]: a nested column is null in
    the rows for which the join found no group. *)
Definition assembled
  : list (BaseRow.t * option (key * list Classification.t)
          * option (key * list EnrichedConstituent.t)) :=
  join_left 7 (fun r => BaseRow.object_id (fst r)) fst
    (join_left 6 BaseRow.object_id fst base_rows classifications_nested)
    constituents_nested.

(** [enriched], collected: the two [fill_null([])] close the assembly. *)
Definition objects_transform : list TransformRow.t :=
  map
    (fun r =>
       let b := fst (fst r) in
       TransformRow.mk
         (BaseRow.object_id b) (BaseRow.title b) (BaseRow.date_made b)
         (BaseRow.credit_line b) (BaseRow.department b)
         (BaseRow.dimensions b) (BaseRow.media b)
         (fill_null (option_map snd (snd (fst r))))
         (fill_null (option_map snd (snd r))))
    assembled.

End Transform.

End Frames.

(* ===================================================================== *)
(** * The transform, row by row *)
(* ===================================================================== *)

(** The values of the rows of key [k] in [rows]: what the group of [k]
    collects, and nothing when [k] is null or has no row. *)
Definition nested_for {V : Type} (rows : list (key * V)) (k : key) : list V :=
  map snd (filter (fun r => join_key_eq k (fst r)) rows).

(** The output row of a source row, given the rows that entered the two
    [group_by]s. *)
Definition enrich_row (E : Engine)
    (harvest_terminology : list Term.t)
    (harvest_objects : list HarvestObject.t)
    (o : HarvestObject.t) : TransformRow.t :=
  TransformRow.mk
    (HarvestObject.object_id o) (HarvestObject.title o)
    (HarvestObject.date_made o) (HarvestObject.credit_line o)
    (HarvestObject.department o) (HarvestObject.dimensions o)
    (HarvestObject.media o)
    (nested_for
       (classifications_joined E harvest_terminology harvest_objects)
       (HarvestObject.object_id o))
    (nested_for
       (constituents_joined E harvest_terminology harvest_objects)
       (HarvestObject.object_id o)).

(** The enriched elements one classification reference gives: one per pair
    of matching type row and matching term row. *)
Definition enrich_classification (harvest_terminology : list Term.t)
    (c : ClassificationRef.t) : list Classification.t :=
  flat_map
    (fun m_type =>
       map
         (fun m_term =>
            Classification.mk (joined_label m_type) (joined_label m_term))
         (join_matches fst (term_labels harvest_terminology)
            (ClassificationRef.term_id c)))
    (join_matches fst (type_labels harvest_terminology)
       (ClassificationRef.type_id c)).

(** The enriched elements one constituent gives: one per matching
    nationality row. *)
Definition enrich_constituent (harvest_terminology : list Term.t)
    (c : Constituent.t) : list EnrichedConstituent.t :=
  map
    (fun m =>
       EnrichedConstituent.mk
         (Constituent.name c) (Constituent.role c) (Constituent.birth_year c)
         (joined_label m))
    (join_matches fst (nationality_lookup harvest_terminology)
       (Constituent.nationality_id c)).

(** The number of terminology rows a key is joined with. *)
Definition term_matches (harvest_terminology : list Term.t) (k : key) : nat :=
  List.length
    (filter (fun t => join_key_eq k (Term.term_id t)) harvest_terminology).

(** The number of nationality rows a key is joined with. *)
Definition nationality_matches (harvest_terminology : list Term.t) (k : key)
  : nat :=
  List.length
    (filter
       (fun t =>
          join_key_eq (Term.term_type t) (Some "nationality")
          && join_key_eq k (Term.term_id t))
       harvest_terminology).

(** The lookup key is unique: no key is carried by two terminology rows. *)
Definition term_id_unique (harvest_terminology : list Term.t) : Prop :=
  forall k : key, term_matches harvest_terminology k <= 1.

(** The nationality of the enriched constituent [c] is resolved from the
    source element [e]: it is the label of a terminology row of type
    ["nationality"] whose [term_id] is the element's (non-null)
    [nationality_id], or it is null and there is no such row. *)
Definition nationality_resolved (harvest_terminology : list Term.t)
    (e : Constituent.t) (c : EnrichedConstituent.t) : Prop :=
  (exists tm,
      In tm harvest_terminology
      /\ Term.term_type tm = Some "nationality"
      /\ (exists x, Constituent.nationality_id e = Some x
                    /\ Term.term_id tm = Some x)
      /\ EnrichedConstituent.nationality c = Term.label tm)
  \/ (EnrichedConstituent.nationality c = None
      /\ forall tm x,
          In tm harvest_terminology ->
          Term.term_type tm = Some "nationality" ->
          Constituent.nationality_id e = Some x ->
          Term.term_id tm <> Some x).

(* ===================================================================== *)
(** * Sample harvests *)
(* ===================================================================== *)

(** Inputs in the shape of the repository's data: a small terminology, an
    object with everything resolved, [OBJ-003] (no [date_made], no
    constituents) and [OBJ-005] (a dimension of 0.5). *)
Module Sample.

Definition term (id type label : string) : Term.t :=
  Term.mk (Some id) (Some type) (Some label).

Definition terminology : list Term.t :=
  [ term "TYPE-1" "classification_type" "Medium";
    term "TERM-1" "medium" "Oil on canvas";
    term "NAT-1" "nationality" "Dutch" ].

(** [TERM-1] is carried by two rows. *)
Definition ambiguous_terminology : list Term.t :=
  terminology ++ [ term "TERM-1" "medium" "Tempera" ].

(** [NAT-1] is also the id of a row that is not a nationality. *)
Definition shared_id_terminology : list Term.t :=
  term "NAT-1" "medium" "Bronze" :: terminology.

Definition dimension (type : string) (value : Q) : Dimension.t :=
  Dimension.mk (Some type) value (Some "cm").

Definition image (url : string) : Media.t :=
  Media.mk (Some "primary") (Some url) (Some "front").

Definition obj_001 : HarvestObject.t :=
  HarvestObject.mk (Some "OBJ-001") (Some "The Night Watch") (Some 1642%Z)
    (Some "City of Amsterdam") (Some "Paintings")
    [ Constituent.mk (Some "Rembrandt") (Some "artist") (Some 1606%Z)
        (Some "NAT-1") ]
    [ ClassificationRef.mk (Some "TYPE-1") (Some "TERM-1") ]
    [ dimension "height" (363 # 1); dimension "width" (437 # 1) ]
    [ image "https://example.org/obj-001.jpg" ].

Definition obj_003 : HarvestObject.t :=
  HarvestObject.mk (Some "OBJ-003") (Some "Untitled") None
    (Some "Gift") (Some "Paintings")
    []
    [ ClassificationRef.mk (Some "TYPE-1") (Some "TERM-1") ]
    [ dimension "height" (50 # 1) ]
    [ image "https://example.org/obj-003.jpg" ].

Definition obj_005 : HarvestObject.t :=
  HarvestObject.mk (Some "OBJ-005") (Some "Miniature") (Some 1700%Z)
    (Some "Purchase") (Some "Paintings")
    [ Constituent.mk (Some "Anonymous") (Some "artist") None None ]
    [ ClassificationRef.mk (Some "TYPE-1") (Some "TERM-1") ]
    [ dimension "height" (1 # 2); dimension "width" (4 # 1) ]
    [ image "https://example.org/obj-005.jpg" ].

(** A second record that carries the id [OBJ-003], with one constituent. *)
Definition obj_003_bis : HarvestObject.t :=
  HarvestObject.mk (Some "OBJ-003") (Some "Untitled (verso)") None
    (Some "Gift") (Some "Paintings")
    [ Constituent.mk (Some "Unknown") (Some "maker") None None ]
    []
    [ dimension "height" (50 # 1) ]
    [ image "https://example.org/obj-003-verso.jpg" ].

(** A stand-in for the JSON serialisation of a row, for examples: the
    object id alone. *)
Definition json_encode (r : TransformRow.t) : string :=
  match TransformRow.object_id r with
  | Some id => id
  | None => "null"
  end.

(** A transform row with empty nested columns. *)
Definition bare_row : TransformRow.t :=
  TransformRow.mk (Some "OBJ-009") (Some "Sketch") None
    (Some "Gift") (Some "Drawings") [] [] [] [].

(** A record without [id] attribute, with a constituent and a reference. *)
Definition obj_anonymous : HarvestObject.t :=
  HarvestObject.mk None (Some "Fragment") None
    (Some "Found in collection") (Some "Sculpture")
    [ Constituent.mk (Some "Unknown") (Some "maker") None (Some "NAT-1") ]
    [ ClassificationRef.mk (Some "TYPE-1") (Some "TERM-1") ]
    [ dimension "height" (12 # 1) ]
    [ image "https://example.org/fragment.jpg" ].

(** A record whose reference names a term the terminology does not have,
    and whose type id is the id of the nationality row. *)
Definition obj_unresolved : HarvestObject.t :=
  HarvestObject.mk (Some "OBJ-010") (Some "Study") (Some 1650%Z)
    (Some "Bequest") (Some "Drawings")
    [ Constituent.mk (Some "Rembrandt") (Some "artist") (Some 1606%Z)
        (Some "NAT-1") ]
    [ ClassificationRef.mk (Some "NAT-1") (Some "TERM-404") ]
    [ dimension "height" (20 # 1) ]
    [ image "https://example.org/obj-010.jpg" ].

Definition objects : list HarvestObject.t := [obj_001; obj_003; obj_005].

End Sample.

(* ===================================================================== *)
(** * Polars expressions *)
(* ===================================================================== *)

(** The checks of [ObjectTransformSchema] are Polars expressions over the
    columns of the transform output.  They are kept as syntax and evaluated
    row by row over dynamically typed values, so that what an expression
    does on a column of the wrong shape (it raises) is part of the model. *)

#[local] Set Warnings "-register-all".

Inductive value :=
| VNull
| VBool (b : bool)
| VInt (z : Z)
| VFloat (q : Q)
| VStr (s : string)
| VList (l : list value)
| VStruct (fields : list (string * value)).

(** The exceptions an expression can raise when it is collected. *)
Inductive polars_error :=
| ColumnNotFoundError (name : string)
| StructFieldNotFoundError (name : string)
| InvalidOperationError.

Inductive result (A : Type) :=
| Ok (a : A)
| Raise (e : polars_error).

Arguments Ok {A} a.
Arguments Raise {A} e.

Definition bind {A B : Type} (m : result A) (k : A -> result B) : result B :=
  match m with
  | Ok a => k a
  | Raise e => Raise e
  end.

Notation "x <- m ;; k" := (bind m (fun x => k))
  (at level 61, m at next level, right associativity).

(** Evaluate [f] on every element, left to right; the first exception
    wins. *)
Fixpoint traverse {A B : Type} (f : A -> result B) (l : list A)
  : result (list B) :=
  match l with
  | [] => Ok []
  | x :: xs => y <- f x ;; ys <- traverse f xs ;; Ok (y :: ys)
  end.

Inductive expr :=
| Col (name : string)                  (* pl.col(name) *)
| Element                              (* pl.element() *)
| LitInt (z : Z)
| LitStr (s : string)
| ListLen (e : expr)                   (* .list.len() *)
| ListEval (e body : expr)             (* .list.eval(body) *)
| ListMin (e : expr)                   (* .list.min() *)
| ListMax (e : expr)                   (* .list.max() *)
| ListAny (e : expr)                   (* .list.any() *)
| ListAll (e : expr)                   (* .list.all() *)
| ListSum (e : expr)                   (* .list.sum() *)
| StructField (e : expr) (f : string)  (* .struct.field(f) *)
| StrStartsWith (e : expr) (p : string)(* .str.starts_with(p) *)
| StrLenChars (e : expr)               (* .str.len_chars() *)
| IsNotNull (e : expr)                 (* .is_not_null() *)
| Equal (a b : expr)                   (* a == b, a.eq(b) *)
| GreaterThan (a b : expr)             (* a > b, a.gt(b) *)
| LessThan (a b : expr)                (* a.lt(b) *)
| LessEq (a b : expr)                  (* a <= b *)
| Not (e : expr)                       (* ~e *)
| Or (a b : expr)                      (* a | b *)
| And (a b : expr).                    (* a & b *)

Fixpoint lookup_field (name : string) (fields : list (string * value))
  : option value :=
  match fields with
  | [] => None
  | (n, v) :: rest => if String.eqb name n then Some v else lookup_field name rest
  end.

Definition is_null (v : value) : bool :=
  match v with
  | VNull => true
  | _ => false
  end.

(** Aggregations skip nulls. *)
Definition drop_nulls (l : list value) : list value :=
  filter (fun v => negb (is_null v)) l.

Definition as_bool (v : value) : result bool :=
  match v with
  | VBool b => Ok b
  | _ => Raise InvalidOperationError
  end.

(** A number, as a rational: an integer operand is cast when it meets a
    float. *)
Definition as_number (v : value) : result Q :=
  match v with
  | VInt z => Ok (inject_Z z)
  | VFloat q => Ok q
  | _ => Raise InvalidOperationError
  end.

Definition Qlt_bool (a b : Q) : bool := negb (Qle_bool b a).

Definition Qmin_list (x : Q) (xs : list Q) : Q :=
  fold_left (fun m y => if Qle_bool y m then y else m) xs x.

Definition Zmin_list (x : Z) (xs : list Z) : Z := fold_left Z.min xs x.

Definition Zmax_list (x : Z) (xs : list Z) : Z := fold_left Z.max xs x.

Definition Qmax_list (x : Q) (xs : list Q) : Q :=
  fold_left (fun m y => if Qle_bool m y then y else m) xs x.

Definition as_int (v : value) : result Z :=
  match v with
  | VInt z => Ok z
  | _ => Raise InvalidOperationError
  end.

Definition as_float (v : value) : result Q :=
  match v with
  | VFloat q => Ok q
  | _ => Raise InvalidOperationError
  end.

(** [.list.min()] and [.list.max()] of a list of integers or of floats:
    null when the list has no non-null element. *)
Definition list_extremum (zagg : Z -> list Z -> Z) (qagg : Q -> list Q -> Q)
    (l : list value) : result value :=
  match drop_nulls l with
  | [] => Ok VNull
  | VInt z :: rest => zs <- traverse as_int rest ;; Ok (VInt (zagg z zs))
  | VFloat q :: rest => qs <- traverse as_float rest ;; Ok (VFloat (qagg q qs))
  | _ => Raise InvalidOperationError
  end.

(** A comparison of two scalars: null when either side is null. *)
Definition compare_numbers (op : Q -> Q -> bool) (a b : value)
  : result value :=
  match a, b with
  | VNull, _ | _, VNull => Ok VNull
  | _, _ => x <- as_number a ;; y <- as_number b ;; Ok (VBool (op x y))
  end.

Definition equal_values (a b : value) : result value :=
  match a, b with
  | VNull, _ | _, VNull => Ok VNull
  | VStr s, VStr t => Ok (VBool (String.eqb s t))
  | VBool x, VBool y => Ok (VBool (Bool.eqb x y))
  | _, _ => compare_numbers Qeq_bool a b
  end.

(** Kleene disjunction and conjunction on nullable booleans. *)
Definition or_values (a b : value) : result value :=
  match a, b with
  | VBool x, VBool y => Ok (VBool (x || y))
  | VBool true, VNull | VNull, VBool true => Ok (VBool true)
  | VBool false, VNull | VNull, VBool false | VNull, VNull => Ok VNull
  | _, _ => Raise InvalidOperationError
  end.

Definition and_values (a b : value) : result value :=
  match a, b with
  | VBool x, VBool y => Ok (VBool (x && y))
  | VBool false, VNull | VNull, VBool false => Ok (VBool false)
  | VBool true, VNull | VNull, VBool true | VNull, VNull => Ok VNull
  | _, _ => Raise InvalidOperationError
  end.

(** On a list column a null list gives null; anything else that is not a
    list raises. *)
Definition on_list (v : value) (k : list value -> result value)
  : result value :=
  match v with
  | VNull => Ok VNull
  | VList l => k l
  | _ => Raise InvalidOperationError
  end.

(** [eval row elem e]: the value of [e] on the row [row]; [elem] is the
    current element inside a [list.eval]. *)
Fixpoint eval (row : list (string * value)) (elem : option value) (e : expr)
  : result value :=
  match e with
  | Col name =>
      match lookup_field name row with
      | Some v => Ok v
      | None => Raise (ColumnNotFoundError name)
      end
  | Element =>
      match elem with
      | Some v => Ok v
      | None => Raise (ColumnNotFoundError "")
      end
  | LitInt z => Ok (VInt z)
  | LitStr s => Ok (VStr s)
  | ListLen e =>
      v <- eval row elem e ;;
      on_list v (fun l => Ok (VInt (Z.of_nat (List.length l))))
  | ListEval e body =>
      v <- eval row elem e ;;
      on_list v
        (fun l =>
           vs <- traverse (fun x => eval row (Some x) body) l ;; Ok (VList vs))
  | ListMin e =>
      v <- eval row elem e ;; on_list v (list_extremum Zmin_list Qmin_list)
  | ListMax e =>
      v <- eval row elem e ;; on_list v (list_extremum Zmax_list Qmax_list)
  | ListAny e =>
      v <- eval row elem e ;;
      on_list v
        (fun l =>
           bs <- traverse as_bool (drop_nulls l) ;;
           Ok (VBool (existsb (fun b => b) bs)))
  | ListAll e =>
      v <- eval row elem e ;;
      on_list v
        (fun l =>
           bs <- traverse as_bool (drop_nulls l) ;;
           Ok (VBool (forallb (fun b => b) bs)))
  | ListSum e =>
      v <- eval row elem e ;;
      on_list v
        (fun l =>
           bs <- traverse as_bool (drop_nulls l) ;;
           Ok (VInt (Z.of_nat (List.length (filter (fun b => b) bs)))))
  | StructField e f =>
      v <- eval row elem e ;;
      match v with
      | VNull => Ok VNull
      | VStruct fields =>
          match lookup_field f fields with
          | Some x => Ok x
          | None => Raise (StructFieldNotFoundError f)
          end
      | _ => Raise InvalidOperationError
      end
  | StrStartsWith e p =>
      v <- eval row elem e ;;
      match v with
      | VNull => Ok VNull
      | VStr s => Ok (VBool (String.prefix p s))
      | _ => Raise InvalidOperationError
      end
  | StrLenChars e =>
      v <- eval row elem e ;;
      match v with
      | VNull => Ok VNull
      | VStr s => Ok (VInt (Z.of_nat (String.length s)))
      | _ => Raise InvalidOperationError
      end
  | IsNotNull e =>
      v <- eval row elem e ;; Ok (VBool (negb (is_null v)))
  | Equal a b =>
      x <- eval row elem a ;; y <- eval row elem b ;; equal_values x y
  | GreaterThan a b =>
      x <- eval row elem a ;; y <- eval row elem b ;;
      compare_numbers (fun p q => Qlt_bool q p) x y
  | LessThan a b =>
      x <- eval row elem a ;; y <- eval row elem b ;;
      compare_numbers Qlt_bool x y
  | LessEq a b =>
      x <- eval row elem a ;; y <- eval row elem b ;;
      compare_numbers Qle_bool x y
  | Not e =>
      v <- eval row elem e ;;
      match v with
      | VNull => Ok VNull
      | VBool b => Ok (VBool (negb b))
      | _ => Raise InvalidOperationError
      end
  | Or a b =>
      x <- eval row elem a ;; y <- eval row elem b ;; or_values x y
  | And a b =>
      x <- eval row elem a ;; y <- eval row elem b ;; and_values x y
  end.

(* ===================================================================== *)
(** * Column types *)
(* ===================================================================== *)

(** The Polars data types of the frames; every type is nullable. *)
Inductive dtype :=
| Boolean
| Int64
| Float64
| Utf8
| List_ (inner : dtype)
| Struct (fields : list (string * dtype)).

(** [has_dtype v t]: the value [v] belongs to a column of type [t]. *)
Fixpoint has_dtype (v : value) (t : dtype) {struct v} : bool :=
  match v, t with
  | VNull, _ => true
  | VBool _, Boolean => true
  | VInt _, Int64 => true
  | VFloat _, Float64 => true
  | VStr _, Utf8 => true
  | VList l, List_ inner => forallb (fun x => has_dtype x inner) l
  | VStruct fs, Struct ts =>
      (fix fields_typed (fs : list (string * value))
           (ts : list (string * dtype)) {struct fs} : bool :=
         match fs, ts with
         | [], [] => true
         | (n, x) :: fs', (m, t') :: ts' =>
             String.eqb n m && has_dtype x t' && fields_typed fs' ts'
         | _, _ => false
         end) fs ts
  | _, _ => false
  end.

Fixpoint lookup_dtype (name : string) (fields : list (string * dtype))
  : option dtype :=
  match fields with
  | [] => None
  | (n, t) :: rest => if String.eqb name n then Some t else lookup_dtype name rest
  end.

Definition is_numeric (t : dtype) : bool :=
  match t with
  | Int64 | Float64 => true
  | _ => false
  end.

(** The type of an expression over columns [cols], inside a [list.eval]
    over elements of type [elem] when there is one; [None] when the
    expression is ill-typed. *)
Fixpoint infer (cols : list (string * dtype)) (elem : option dtype) (e : expr)
  : option dtype :=
  match e with
  | Col name => lookup_dtype name cols
  | Element => elem
  | LitInt _ => Some Int64
  | LitStr _ => Some Utf8
  | ListLen e =>
      match infer cols elem e with
      | Some (List_ _) => Some Int64
      | _ => None
      end
  | ListEval e body =>
      match infer cols elem e with
      | Some (List_ inner) =>
          match infer cols (Some inner) body with
          | Some t => Some (List_ t)
          | None => None
          end
      | _ => None
      end
  | ListMin e | ListMax e =>
      match infer cols elem e with
      | Some (List_ Int64) => Some Int64
      | Some (List_ Float64) => Some Float64
      | _ => None
      end
  | ListAny e | ListAll e =>
      match infer cols elem e with
      | Some (List_ Boolean) => Some Boolean
      | _ => None
      end
  | ListSum e =>
      match infer cols elem e with
      | Some (List_ Boolean) => Some Int64
      | _ => None
      end
  | StructField e f =>
      match infer cols elem e with
      | Some (Struct ts) => lookup_dtype f ts
      | _ => None
      end
  | StrStartsWith e _ =>
      match infer cols elem e with
      | Some Utf8 => Some Boolean
      | _ => None
      end
  | StrLenChars e =>
      match infer cols elem e with
      | Some Utf8 => Some Int64
      | _ => None
      end
  | IsNotNull e =>
      match infer cols elem e with
      | Some _ => Some Boolean
      | None => None
      end
  | Equal a b =>
      match infer cols elem a, infer cols elem b with
      | Some Utf8, Some Utf8 | Some Boolean, Some Boolean => Some Boolean
      | Some ta, Some tb =>
          if is_numeric ta && is_numeric tb then Some Boolean else None
      | _, _ => None
      end
  | GreaterThan a b | LessThan a b | LessEq a b =>
      match infer cols elem a, infer cols elem b with
      | Some ta, Some tb =>
          if is_numeric ta && is_numeric tb then Some Boolean else None
      | _, _ => None
      end
  | Not e =>
      match infer cols elem e with
      | Some Boolean => Some Boolean
      | _ => None
      end
  | Or a b | And a b =>
      match infer cols elem a, infer cols elem b with
      | Some Boolean, Some Boolean => Some Boolean
      | _, _ => None
      end
  end.

(** The schema of the transform output. *)
Definition transform_schema : list (string * dtype) :=
  [ ("object_id", Utf8);
    ("title", Utf8);
    ("date_made", Int64);
    ("credit_line", Utf8);
    ("department", Utf8);
    ("dimensions",
      List_ (Struct [("type", Utf8); ("value", Float64); ("unit", Utf8)]));
    ("media",
      List_ (Struct [("type", Utf8); ("url", Utf8); ("caption", Utf8)]));
    ("classifications",
      List_ (Struct [("type_label", Utf8); ("term_label", Utf8)]));
    ("constituents",
      List_
        (Struct
           [("name", Utf8); ("role", Utf8); ("birth_year", Int64);
            ("nationality", Utf8)])) ].

(** The row [row] has the columns of [cols], at their types. *)
Definition row_has_schema (row : list (string * value))
    (cols : list (string * dtype)) : Prop :=
  forall name t,
    lookup_dtype name cols = Some t ->
    exists v, lookup_field name row = Some v /\ has_dtype v t = true.

(** The current element, when the expression is typed inside a
    [list.eval], is there and has the element type. *)
Definition elem_has_dtype (elem : option value) (et : option dtype) : Prop :=
  forall t, et = Some t -> exists v, elem = Some v /\ has_dtype v t = true.

(* ===================================================================== *)
(** * The transform output as a frame of values *)
(* ===================================================================== *)

Definition of_key (k : key) : value :=
  match k with
  | Some s => VStr s
  | None => VNull
  end.

Definition of_int (z : option Z) : value :=
  match z with
  | Some n => VInt n
  | None => VNull
  end.

Definition dimension_value (d : Dimension.t) : value :=
  VStruct
    [ ("type", of_key (Dimension.type d));
      ("value", VFloat (Dimension.value d));
      ("unit", of_key (Dimension.unit d)) ].

Definition media_value (m : Media.t) : value :=
  VStruct
    [ ("type", of_key (Media.type m));
      ("url", of_key (Media.url m));
      ("caption", of_key (Media.caption m)) ].

Definition classification_value (c : Classification.t) : value :=
  VStruct
    [ ("type_label", of_key (Classification.type_label c));
      ("term_label", of_key (Classification.term_label c)) ].

Definition constituent_value (c : EnrichedConstituent.t) : value :=
  VStruct
    [ ("name", of_key (EnrichedConstituent.name c));
      ("role", of_key (EnrichedConstituent.role c));
      ("birth_year", of_int (EnrichedConstituent.birth_year c));
      ("nationality", of_key (EnrichedConstituent.nationality c)) ].

(** A row of the transform output, column by column. *)
Definition row_value (r : TransformRow.t) : list (string * value) :=
  [ ("object_id", of_key (TransformRow.object_id r));
    ("title", of_key (TransformRow.title r));
    ("date_made", of_int (TransformRow.date_made r));
    ("credit_line", of_key (TransformRow.credit_line r));
    ("department", of_key (TransformRow.department r));
    ("dimensions", VList (map dimension_value (TransformRow.dimensions r)));
    ("media", VList (map media_value (TransformRow.media r)));
    ("classifications",
      VList (map classification_value (TransformRow.classifications r)));
    ("constituents",
      VList (map constituent_value (TransformRow.constituents r))) ].

(** The least dimension value of a row: null when it has no dimension. *)
Definition least_dimension (r : TransformRow.t) : value :=
  match TransformRow.dimensions r with
  | [] => VNull
  | d :: ds =>
      VFloat (Qmin_list (Dimension.value d) (map Dimension.value ds))
  end.

(* ===================================================================== *)
(** * [ObjectTransformSchema] *)
(* ===================================================================== *)

(** A [@pa.dataframe_check]: its name and the expression it selects. *)
Record Check := { check_name : string; check_expr : expr }.

(** The built-in checks a [pa.Field] can carry. *)
Inductive field_check :=
| StrLengthMin (min_value : nat)        (* str_length={"min_value": n} *)
| Ge (bound : Z)                        (* ge=bound *)
| Le (bound : Z).                       (* le=bound *)

(** A column declaration of the schema. *)
Record Field := {
  field_name : string;
  field_get : TransformRow.t -> value;
  nullable : bool;
  unique : bool;
  field_checks : list field_check }.

Module ObjectTransformSchema.

Definition object_id : Field :=
  {| field_name := "object_id";
     field_get := fun r => of_key (TransformRow.object_id r);
     nullable := false; unique := true; field_checks := [] |}.

Definition title : Field :=
  {| field_name := "title";
     field_get := fun r => of_key (TransformRow.title r);
     nullable := false; unique := false;
     field_checks := [StrLengthMin 1] |}.

Definition date_made : Field :=
  {| field_name := "date_made";
     field_get := fun r => of_int (TransformRow.date_made r);
     nullable := true; unique := false;
     field_checks := [Ge 0; Le 2100] |}.

Definition credit_line : Field :=
  {| field_name := "credit_line";
     field_get := fun r => of_key (TransformRow.credit_line r);
     nullable := false; unique := false; field_checks := [] |}.

Definition department : Field :=
  {| field_name := "department";
     field_get := fun r => of_key (TransformRow.department r);
     nullable := false; unique := false; field_checks := [] |}.

Definition list_field (name : string) (get : TransformRow.t -> list value)
  : Field :=
  {| field_name := name;
     field_get := fun r => VList (get r);
     nullable := false; unique := false; field_checks := [] |}.

Definition dimensions : Field :=
  list_field "dimensions"
    (fun r => map dimension_value (TransformRow.dimensions r)).

Definition media : Field :=
  list_field "media" (fun r => map media_value (TransformRow.media r)).

Definition classifications : Field :=
  list_field "classifications"
    (fun r => map classification_value (TransformRow.classifications r)).

Definition constituents : Field :=
  list_field "constituents"
    (fun r => map constituent_value (TransformRow.constituents r)).

Definition fields : list Field :=
  [ object_id; title; date_made; credit_line; department;
    dimensions; media; classifications; constituents ].

(** [pl.col(c).list.len().gt(0)] *)
Definition has_items (c : string) : expr :=
  GreaterThan (ListLen (Col c)) (LitInt 0).

(** [pl.col(c).list.eval(pl.element().struct.field(f) == s)] *)
Definition field_equals (c f s : string) : expr :=
  ListEval (Col c) (Equal (StructField Element f) (LitStr s)).

Definition has_constituents : Check :=
  {| check_name := "has_at_least_one_constituent";
     check_expr := has_items "constituents" |}.

Definition has_media : Check :=
  {| check_name := "has_at_least_one_image";
     check_expr := has_items "media" |}.

Definition dimension_values_positive : Check :=
  {| check_name := "all_dimension_values_gt_1";
     check_expr :=
       GreaterThan
         (ListMin (ListEval (Col "dimensions") (StructField Element "value")))
         (LitInt 1) |}.

Definition has_height : Check :=
  {| check_name := "has_height_dimension";
     check_expr := ListAny (field_equals "dimensions" "type" "height") |}.

Definition units_consistent : Check :=
  {| check_name := "all_units_are_cm";
     check_expr := ListAll (field_equals "dimensions" "unit" "cm") |}.

Definition urls_are_https : Check :=
  {| check_name := "all_urls_are_https";
     check_expr :=
       ListAll
         (ListEval (Col "media")
            (StrStartsWith (StructField Element "url") "https://")) |}.

Definition has_primary_image : Check :=
  {| check_name := "has_primary_image";
     check_expr :=
       Equal (ListSum (field_equals "media" "type" "primary")) (LitInt 1) |}.

Definition constituent_names_not_empty : Check :=
  {| check_name := "no_empty_constituent_names";
     check_expr :=
       let names_ok :=
         ListAll
           (ListEval (Col "constituents")
              (GreaterThan (StrLenChars (StructField Element "name"))
                 (LitInt 0))) in
       Or (Not (has_items "constituents")) names_ok |}.

Definition has_artist : Check :=
  {| check_name := "has_at_least_one_artist";
     check_expr :=
       let has_artist_role :=
         ListAny (field_equals "constituents" "role" "artist") in
       Or (Not (has_items "constituents")) has_artist_role |}.

Definition classification_labels_resolved : Check :=
  {| check_name := "no_null_labels_in_classifications";
     check_expr :=
       let no_nulls :=
         ListAll
           (ListEval (Col "classifications")
              (IsNotNull (StructField Element "term_label"))) in
       Or (Not (has_items "classifications")) no_nulls |}.

Definition sculpture_has_depth : Check :=
  {| check_name := "sculpture_must_have_depth";
     check_expr :=
       let is_sculpture := Equal (Col "department") (LitStr "Sculpture") in
       let has_depth := ListAny (field_equals "dimensions" "type" "depth") in
       Or (Not is_sculpture) has_depth |}.

Definition birth_before_creation : Check :=
  {| check_name := "constituent_born_before_artwork";
     check_expr :=
       let latest_birth :=
         ListMax
           (ListEval (Col "constituents") (StructField Element "birth_year")) in
       let both_known :=
         And (IsNotNull (Col "date_made")) (IsNotNull latest_birth) in
       let valid_where_known := LessThan latest_birth (Col "date_made") in
       Or (Not both_known) valid_where_known |}.

(** The declared dataframe checks, in the order of the class body. *)
Definition checks : list Check :=
  [ has_constituents; has_media; dimension_values_positive; has_height;
    units_consistent; urls_are_https; has_primary_image;
    constituent_names_not_empty; has_artist; classification_labels_resolved;
    sculpture_has_depth; birth_before_creation ].

(** The schema's name, which Pandera reports as the column of a
    dataframe-level failure. *)
Definition name : string := "ObjectTransformSchema".

End ObjectTransformSchema.

(* ===================================================================== *)
(** * Pandera validation and [check_objects_transform] *)
(* ===================================================================== *)

(** A row of the [failure_cases] frame of [SchemaErrors]: the three columns
    the source reads, and the row index. *)
Module FailureCase.
Record t := mk {
  column : key;
  check : key;
  failure_case : key;
  index : option nat }.
End FailureCase.

(** An entry of the list [check_objects_transform] returns. *)
Module ErrorRecord.
Record t := mk { column : key; check : key; failure_case : string }.
End ErrorRecord.

Definition decimal (z : Z) : string := NilZero.string_of_int (Z.to_int z).

(** The name under which Pandera reports a built-in check. *)
Definition field_check_name (c : field_check) : string :=
  match c with
  | StrLengthMin n => "str_length(" ++ decimal (Z.of_nat n) ++ ", None)"
  | Ge z => "greater_than_or_equal_to(" ++ decimal z ++ ")"
  | Le z => "less_than_or_equal_to(" ++ decimal z ++ ")"
  end.

(** A built-in check on a non-null value. *)
Definition field_check_holds (c : field_check) (v : value) : bool :=
  match c, v with
  | StrLengthMin n, VStr s => n <=? String.length s
  | Ge z, VInt x => (z <=? x)%Z
  | Le z, VInt x => (x <=? z)%Z
  | _, _ => true
  end.

(** Equality of the scalar cells of a column, nulls alike. *)
Definition scalar_eqb (a b : value) : bool :=
  match a, b with
  | VNull, VNull => true
  | VStr s, VStr t => String.eqb s t
  | VInt x, VInt y => Z.eqb x y
  | VBool x, VBool y => Bool.eqb x y
  | _, _ => false
  end.

(** A failing scalar, cast to a string cell. *)
Definition scalar_failure_case (v : value) : key :=
  match v with
  | VStr s => Some s
  | VInt z => Some (decimal z)
  | _ => None
  end.

(** The message Pandera reports for a check that raised. *)
Definition error_message (e : polars_error) : string :=
  match e with
  | ColumnNotFoundError name => "ColumnNotFoundError(" ++ name ++ ")"
  | StructFieldNotFoundError name => "StructFieldNotFoundError(" ++ name ++ ")"
  | InvalidOperationError => "InvalidOperationError()"
  end.

Definition enumerate {A : Type} (l : list A) : list (nat * A) :=
  combine (seq 0 (List.length l)) l.

(** The output of a dataframe check on one row: a nullable boolean. *)
Definition check_output (c : Check) (r : TransformRow.t)
  : result (option bool) :=
  v <- eval (row_value r) None (check_expr c) ;;
  match v with
  | VBool b => Ok (Some b)
  | VNull => Ok None
  | _ => Raise InvalidOperationError
  end.

(** The failure cases of a column declaration: nulls in a column that is
    not nullable, duplicated values in a unique column, and the non-null
    values that fail a built-in check. *)
Definition field_failure_cases (f : Field) (rows : list TransformRow.t)
  : list FailureCase.t :=
  let cells := map (field_get f) rows in
  let case_of check ir :=
    FailureCase.mk (Some (field_name f)) (Some check)
      (scalar_failure_case (snd ir)) (Some (fst ir)) in
  (if nullable f then []
   else map (case_of "not_nullable")
          (filter (fun ir => is_null (snd ir)) (enumerate cells)))
  ++ (if unique f
      then map (case_of "field_uniqueness")
             (filter
                (fun ir =>
                   1 <? List.length (filter (scalar_eqb (snd ir)) cells))
                (enumerate cells))
      else [])
  ++ flat_map
       (fun c =>
          map (case_of (field_check_name c))
            (filter
               (fun ir =>
                  negb (is_null (snd ir))
                  && negb (field_check_holds c (snd ir)))
               (enumerate cells)))
       (field_checks f).

Section Validate.

(** [struct.json_encode] of a row, with which Pandera serialises the rows
    that fail a dataframe check. *)
Variable json_encode : TransformRow.t -> string.

(** The failure cases of a dataframe check: the rows on which it is false,
    serialised as JSON (a null output passes); a check that raises is
    reported as one failure carrying the message. *)
Definition check_failure_cases (c : Check) (rows : list TransformRow.t)
  : list FailureCase.t :=
  match traverse (check_output c) rows with
  | Raise e =>
      [ FailureCase.mk (Some ObjectTransformSchema.name) (Some (check_name c))
          (Some (error_message e)) None ]
  | Ok outputs =>
      flat_map
        (fun x =>
           match snd (snd x) with
           | Some false =>
               [ FailureCase.mk (Some ObjectTransformSchema.name)
                   (Some (check_name c))
                   (Some (json_encode (fst (snd x)))) (Some (fst x)) ]
           | _ => []
           end)
        (enumerate (combine rows outputs))
  end.

(** [ObjectTransformSchema.validate(df, lazy=True)]: the failure cases of
    every column declaration and of every dataframe check; [SchemaErrors]
    is raised when there is one. *)
Definition validate (rows : list TransformRow.t) : list FailureCase.t :=
  flat_map (fun f => field_failure_cases f rows) ObjectTransformSchema.fields
  ++ flat_map (fun c => check_failure_cases c rows)
       ObjectTransformSchema.checks.

(** [str(x)] of a string cell or [None]. *)
Definition py_str (x : key) : string :=
  match x with
  | Some s => s
  | None => "None"
  end.

(** The record appended for a row of [failure_cases]. *)
Definition error_record (row : FailureCase.t) : ErrorRecord.t :=
  ErrorRecord.mk (FailureCase.column row) (FailureCase.check row)
    (substring 0 80 (py_str (FailureCase.failure_case row))).

Definition check_objects_transform (objects_transform : list TransformRow.t)
  : bool * list ErrorRecord.t :=
  match validate objects_transform with
  | [] => (true, [])
  | failure_cases => (false, map error_record failure_cases)
  end.

End Validate.

(** Some declared check fails on the table: a dataframe check is false on a
    row, or a column declaration has a failure case. *)
Definition some_check_fails (rows : list TransformRow.t) : Prop :=
  (exists c r,
      In c ObjectTransformSchema.checks /\ In r rows
      /\ check_output c r = Ok (Some false))
  \/ (exists f,
         In f ObjectTransformSchema.fields /\ field_failure_cases f rows <> []).

(** A nullable boolean cell. *)
Definition of_obool (b : option bool) : value :=
  match b with
  | Some x => VBool x
  | None => VNull
  end.

(** The non-null booleans of a column of per-element outcomes. *)
Definition known_outcomes {A : Type} (p : A -> option bool) (l : list A)
  : list bool :=
  flat_map (fun x => match p x with Some b => [b] | None => [] end) l.

(** Disjunction of nullable booleans, as [or_values] computes it. *)
Definition kleene_or (x y : option bool) : option bool :=
  match x, y with
  | Some true, _ | _, Some true => Some true
  | Some false, Some false => Some false
  | _, _ => None
  end.

(** The known birth years of a row's constituents, in order. *)
Definition known_birth_years (r : TransformRow.t) : list Z :=
  flat_map
    (fun c =>
       match EnrichedConstituent.birth_year c with
       | Some b => [b]
       | None => []
       end)
    (TransformRow.constituents r).

(** The latest known birth year of a row's constituents. *)
Definition latest_birth_year (r : TransformRow.t) : option Z :=
  match known_birth_years r with
  | [] => None
  | b :: bs => Some (Zmax_list b bs)
  end.

(** The cell [k] holds the string [s]. *)
Definition key_is (s : string) (k : key) : bool :=
  match k with
  | Some x => String.eqb x s
  | None => false
  end.

(** A check fails on a row: its output there is [False]. *)
Definition check_fails (c : Check) (r : TransformRow.t) : Prop :=
  check_output c r = Ok (Some false).

(* ===================================================================== *)
(** * The simulated materialisation: [main] *)
(* ===================================================================== *)

(** What [main] prints in its Validate step. *)
Inductive report_line :=
| AllChecksPassed
| FailedChecks (n : nat)                            (* FAILED - n check(s): *)
| FailedCheck (column check : key)                  (* [column] check *)
| MissingConstituents (ids : list key)
| BadDimension (object_id : key) (bad_vals : list Q)
| BlockingNote.  (* (In Dagster, blocking=True would prevent objects_output) *)

(** The steps of a run, in the order they happen.  Of the progress printed
    by [main] only the validation report is kept. *)
Inductive event :=
| Harvested (terminology_df : list Term.t) (objects_df : list HarvestObject.t)
| Transformed (transform_df : list TransformRow.t)
| Validated (passed : bool) (report : list report_line)
| OutputWritten (output_path : string) (records : list TransformRow.t).

Inductive exception :=
| PolarsError (e : polars_error)
| IndexError.

(** A run: its steps, and the exception that ended it, if any. *)
Record Run := { events : list event; raised : option exception }.

(** [df.filter(e)]: the rows on which [e] is true. *)
Definition filter_rows (e : expr) (rows : list TransformRow.t)
  : result (list TransformRow.t) :=
  keep <-
    traverse
      (fun r =>
         v <- eval (row_value r) None e ;;
         match v with
         | VBool b => Ok b
         | VNull => Ok false
         | _ => Raise InvalidOperationError
         end)
      rows ;;
  Ok (map fst (filter snd (combine rows keep))).

(** The deduplication loop: the first error of each [(column, check)]. *)
Fixpoint unique_errors (seen : list (key * key)) (errors : list ErrorRecord.t)
  : list ErrorRecord.t :=
  match errors with
  | [] => []
  | err :: rest =>
      let k := (ErrorRecord.column err, ErrorRecord.check err) in
      if existsb
           (fun s => group_key_eq (fst s) (fst k) && group_key_eq (snd s) (snd k))
           seen
      then unique_errors seen rest
      else err :: unique_errors (k :: seen) rest
  end.

(** The [else] branch of the Validate step. *)
Definition failure_report (transform_df : list TransformRow.t)
    (errors : list ErrorRecord.t) : result (list report_line) :=
  let unique := unique_errors [] errors in
  missing_constituents <-
    filter_rows (Equal (ListLen (Col "constituents")) (LitInt 0))
      transform_df ;;
  bad_dimensions <-
    filter_rows
      (LessEq
         (ListMin (ListEval (Col "dimensions") (StructField Element "value")))
         (LitInt 1))
      transform_df ;;
  Ok ([FailedChecks (List.length unique)]
      ++ map
           (fun err =>
              FailedCheck (ErrorRecord.column err) (ErrorRecord.check err))
           unique
      ++ (if 0 <? List.length missing_constituents
          then [MissingConstituents
                  (map TransformRow.object_id missing_constituents)]
          else [])
      ++ map
           (fun row =>
              BadDimension (TransformRow.object_id row)
                (filter (fun v => Qle_bool v 1)
                   (map Dimension.value (TransformRow.dimensions row))))
           bad_dimensions
      ++ [BlockingNote]).

Section Materialise.

Variable E : Engine.
Variable json_encode : TransformRow.t -> string.

(** The path [objects_output] writes to. *)
Variable output_path : string.

(** [objects_output]: one JSON record per row, written to [output_path]. *)
Definition write_objects_output (objects_transform_df : list TransformRow.t)
  : event :=
  OutputWritten output_path objects_transform_df.

(** The body of both [main]s, from the harvested frames on. *)
Definition materialise (terminology_df : list Term.t)
    (objects_df : list HarvestObject.t) : Run :=
  (* --- Harvest, Transform --- *)
  let transform_df := objects_transform E terminology_df objects_df in
  let before :=
    [Harvested terminology_df objects_df; Transformed transform_df] in
  (* --- Validate --- *)
  let '(passed, errors) := check_objects_transform json_encode transform_df in
  let report :=
    if passed then Ok [AllChecksPassed]
    else failure_report transform_df errors in
  match report with
  | Raise e => {| events := before; raised := Some (PolarsError e) |}
  | Ok lines =>
      (* --- Output --- *)
      let done :=
        before ++ [Validated passed lines; write_objects_output transform_df] in
      (* sample = transform_df.filter(object_id == "OBJ-004").to_dicts()[0] *)
      match
        filter_rows (Equal (Col "object_id") (LitStr "OBJ-004")) transform_df
      with
      | Raise e => {| events := done; raised := Some (PolarsError e) |}
      | Ok [] => {| events := done; raised := Some IndexError |}
      | Ok (_ :: _) => {| events := done; raised := None |}
      end
  end.

End Materialise.

Module pipeline_xml.

Definition objects_output := write_objects_output "output/xml/objects.json".

Definition main (E : Engine) (json_encode : TransformRow.t -> string)
    (harvest_terminology : list Term.t)
    (harvest_objects : list HarvestObject.t) : Run :=
  materialise E json_encode "output/xml/objects.json"
    harvest_terminology harvest_objects.

End pipeline_xml.

Module pipeline_json.

Definition objects_output := write_objects_output "output/json/objects.json".

Definition main (E : Engine) (json_encode : TransformRow.t -> string)
    (harvest_terminology : list Term.t)
    (harvest_objects : list HarvestObject.t) : Run :=
  materialise E json_encode "output/json/objects.json"
    harvest_terminology harvest_objects.

End pipeline_json.

(** The run executed its output stage. *)
Definition output_executed (run : Run) : Prop :=
  exists path records, In (OutputWritten path records) (events run).

(** The run's validation reported failure. *)
Definition validation_failed (run : Run) : Prop :=
  exists report, In (Validated false report) (events run).

(* ===================================================================== *)
(** * Views of the transform used in its properties *)
(* ===================================================================== *)

(** The pass-through columns of an output row. *)
Definition base_of_row (r : TransformRow.t) : BaseRow.t :=
  BaseRow.mk
    (TransformRow.object_id r) (TransformRow.title r)
    (TransformRow.date_made r) (TransformRow.credit_line r)
    (TransformRow.department r) (TransformRow.dimensions r)
    (TransformRow.media r).

(** The label [lbl] is what a left join on [k] against the whole
    terminology table attaches: the label of a row whose [term_id] is [k],
    or null when no row has it. *)
Definition label_resolved (harvest_terminology : list Term.t)
    (k : key) (lbl : key) : Prop :=
  (exists tm x,
      In tm harvest_terminology
      /\ k = Some x /\ Term.term_id tm = Some x
      /\ lbl = Term.label tm)
  \/ (lbl = None
      /\ forall tm x,
          In tm harvest_terminology -> k = Some x ->
          Term.term_id tm <> Some x).

(** The label of the first row of a lookup table with key [k], null when
    there is none. *)
Definition lookup_label (table : list (key * key)) (k : key) : key :=
  match find (fun row => join_key_eq k (fst row)) table with
  | Some row => snd row
  | None => None
  end.

(** The nested elements an object keeps: all of them when it has an
    [object_id], none when it has not. *)
Definition joined_back {X : Type} (o : HarvestObject.t) (l : list X)
  : list X :=
  match HarvestObject.object_id o with
  | Some _ => l
  | None => []
  end.

(** Element-wise enrichment of a harvested object: every reference and
    every constituent gets the labels looked up for its keys. *)
Definition enrich_object (harvest_terminology : list Term.t)
    (o : HarvestObject.t) : TransformRow.t :=
  TransformRow.mk
    (HarvestObject.object_id o) (HarvestObject.title o)
    (HarvestObject.date_made o) (HarvestObject.credit_line o)
    (HarvestObject.department o) (HarvestObject.dimensions o)
    (HarvestObject.media o)
    (joined_back o
       (map
          (fun c =>
             Classification.mk
               (lookup_label (type_labels harvest_terminology)
                  (ClassificationRef.type_id c))
               (lookup_label (term_labels harvest_terminology)
                  (ClassificationRef.term_id c)))
          (HarvestObject.classification_ids o)))
    (joined_back o
       (map
          (fun c =>
             EnrichedConstituent.mk
               (Constituent.name c) (Constituent.role c)
               (Constituent.birth_year c)
               (lookup_label (nationality_lookup harvest_terminology)
                  (Constituent.nationality_id c)))
          (HarvestObject.constituents o))).

(** The rows [main] lists under "Missing constituents". *)
Definition missing_constituents_rows (rows : list TransformRow.t)
  : list TransformRow.t :=
  filter (fun r => List.length (TransformRow.constituents r) =? 0) rows.

(** The values [main] prints for a row with a bad dimension. *)
Definition bad_values (r : TransformRow.t) : list Q :=
  filter (fun v => Qle_bool v 1)
    (map Dimension.value (TransformRow.dimensions r)).

(** The rows [main] prints a "Bad dimension" line for. *)
Definition bad_dimension_rows (rows : list TransformRow.t)
  : list TransformRow.t :=
  filter
    (fun r =>
       existsb (fun d => Qle_bool (Dimension.value d) 1)
         (TransformRow.dimensions r))
    rows.

(** The key of the deduplication loop: the pair of an error's [column] and
    [check]. *)
Definition error_key (err : ErrorRecord.t) : key * key :=
  (ErrorRecord.column err, ErrorRecord.check err).

(** What the column declarations of [ObjectTransformSchema] ask of a row:
    [object_id], [title], [credit_line] and [department] are not null,
    [title] has at least one character, and [date_made], when known, lies
    between 0 and 2100. *)
Definition row_valid (r : TransformRow.t) : Prop :=
  TransformRow.object_id r <> None
  /\ (exists s, TransformRow.title r = Some s /\ 1 <= String.length s)
  /\ (forall y, TransformRow.date_made r = Some y -> (0 <= y <= 2100)%Z)
  /\ TransformRow.credit_line r <> None
  /\ TransformRow.department r <> None.

(** What they ask of a table: every row is valid and no [object_id] is
    repeated. *)
Definition columns_valid (rows : list TransformRow.t) : Prop :=
  (forall r, In r rows -> row_valid r)
  /\ NoDup (map TransformRow.object_id rows).

(** A row with the two labels no check reads blanked: the [type_label] of
    its classifications and the [nationality] of its constituents. *)
Definition without_unchecked_labels (r : TransformRow.t) : TransformRow.t :=
  TransformRow.mk
    (TransformRow.object_id r) (TransformRow.title r)
    (TransformRow.date_made r) (TransformRow.credit_line r)
    (TransformRow.department r) (TransformRow.dimensions r)
    (TransformRow.media r)
    (map (fun c => Classification.mk None (Classification.term_label c))
       (TransformRow.classifications r))
    (map
       (fun c =>
          EnrichedConstituent.mk
            (EnrichedConstituent.name c) (EnrichedConstituent.role c)
            (EnrichedConstituent.birth_year c) None)
       (TransformRow.constituents r)).

(* ===================================================================== *)
(** * The test script [scripts/test_pandera_nested.py]: its harness *)
(* ===================================================================== *)

Module test_pandera_nested.

Definition PASS : string := "PASS".
Definition FAIL : string := "FAIL".
Definition ERROR : string := "ERROR".

(** What a call [fn()] of a test function does: it returns a pair
    [(status, detail)], or it raises an exception. *)
Inductive outcome :=
| Returns (status detail : string)
| Raises (type_name message : string).

(** An entry of the global list [results]. *)
Definition result_row : Type := string * string * string.

Definition row_status (row : result_row) : string := snd (fst row).

Definition newline : string := String (ascii_of_nat 10) EmptyString.

(** What [main] prints for the results, and how it ends. *)
Inductive printed :=
| ResultLine (icon name detail : string)
| Summary (pass_count fail_count error_count : nat).

Inductive ending :=
| SystemExit (code : Z)
| KeyError (key : string).

Section Harness.

(** [traceback.format_exc()] for an exception of the given type and
    message. *)
Variable format_exc : string -> string -> string.

(** [run_test(name, fn)], on the global [results]. *)
Definition run_test (name : string) (fn : unit -> outcome)
    (results : list result_row) : list result_row :=
  match fn tt with
  | Returns status detail => results ++ [(name, status, detail)]
  | Raises type_name message =>
      results
      ++ [(name, ERROR,
           (type_name ++ ": " ++ message ++ newline
            ++ format_exc type_name message)%string)]
  end.

(** The row a test leaves in [results]. *)
Definition result_of (name : string) (fn : unit -> outcome) : result_row :=
  match fn tt with
  | Returns status detail => (name, status, detail)
  | Raises type_name message =>
      (name, ERROR,
       (type_name ++ ": " ++ message ++ newline
        ++ format_exc type_name message)%string)
  end.

(** The calls of [run_test] at module level, in order. *)
Definition run_tests (tests : list (string * (unit -> outcome)))
  : list result_row :=
  fold_left (fun results t => run_test (fst t) (snd t) results) tests [].

End Harness.

(** The lookup in the icon dictionary: a missing key raises. *)
Definition icon (status : string) : option string :=
  if String.eqb status "PASS" then Some "[OK]  "
  else if String.eqb status "FAIL" then Some "[FAIL]"
  else if String.eqb status "ERROR" then Some "[ERR] "
  else None.

(** [sum(1 for _, s, _ in results if s == status)] *)
Definition count_status (status : string) (results : list result_row) : nat :=
  List.length (filter (fun row => String.eqb (row_status row) status) results).

(** The printing loop: it stops at the first status without icon. *)
Fixpoint print_results (results : list result_row)
  : list printed * option string :=
  match results with
  | [] => ([], None)
  | (name, status, detail) :: rest =>
      match icon status with
      | None => ([], Some status)
      | Some i =>
          let '(lines, stop) := print_results rest in
          (ResultLine i name detail :: lines, stop)
      end
  end.

(** [main()]: the result lines, the summary, and [sys.exit]. *)
Definition main (results : list result_row) : list printed * ending :=
  let pass_count := count_status PASS results in
  let fail_count := count_status FAIL results in
  let error_count := count_status ERROR results in
  match print_results results with
  | (lines, Some key) => (lines, KeyError key)
  | (lines, None) =>
      (lines ++ [Summary pass_count fail_count error_count],
       SystemExit (if 0 <? error_count then 1 else 0))
  end.

(** The test raised, or it returned the status ["ERROR"]. *)
Definition is_error (fn : unit -> outcome) : bool :=
  match fn tt with
  | Returns status _ => String.eqb status ERROR
  | Raises _ _ => true
  end.

(** The status the test returned, if any, has an icon. *)
Definition known_status (fn : unit -> outcome) : bool :=
  match fn tt with
  | Returns status _ =>
      match icon status with
      | Some _ => true
      | None => false
      end
  | Raises _ _ => true
  end.

End test_pandera_nested.

(* ===================================================================== *)
(** * Properties of the Polars operations *)
(* ===================================================================== *)

Section ListFacts.

Context {A B : Type}.

Lemma Permutation_filter_compat (p : A -> bool) (l l' : list A) :
  Permutation l l' -> Permutation (filter p l) (filter p l').
Proof.
  induction 1 as [| x l l' _ IH | x y l | l l' l'' _ IH1 _ IH2]; simpl.
  - constructor.
  - destruct (p x); [constructor |]; exact IH.
  - destruct (p x), (p y); try apply Permutation_refl.
    apply perm_swap.
  - eapply Permutation_trans; eassumption.
Qed.

Lemma filter_flat_map (p : B -> bool) (f : A -> list B) (l : list A) :
  filter p (flat_map f l) = flat_map (fun x => filter p (f x)) l.
Proof.
  induction l as [| x l IH]; simpl; [reflexivity |].
  now rewrite filter_app, IH.
Qed.

Lemma map_flat_map {C : Type} (g : B -> C) (f : A -> list B) (l : list A) :
  map g (flat_map f l) = flat_map (fun x => map g (f x)) l.
Proof.
  induction l as [| x l IH]; simpl; [reflexivity |].
  now rewrite map_app, IH.
Qed.

Lemma flat_map_flat_map {C : Type} (g : B -> list C) (f : A -> list B)
    (l : list A) :
  flat_map g (flat_map f l) = flat_map (fun x => flat_map g (f x)) l.
Proof.
  induction l as [| x l IH]; simpl; [reflexivity |].
  now rewrite flat_map_app, IH.
Qed.

Lemma flat_map_singleton (f : A -> B) (l : list A) :
  flat_map (fun x => [f x]) l = map f l.
Proof.
  induction l as [| x l IH]; simpl; [reflexivity | now rewrite IH].
Qed.

Lemma filter_all_true (p : A -> bool) (l : list A) :
  (forall x, In x l -> p x = true) -> filter p l = l.
Proof.
  induction l as [| x l IH]; simpl; intros H; [reflexivity |].
  rewrite (H x (or_introl eq_refl)), IH; auto.
Qed.

Lemma filter_all_false (p : A -> bool) (l : list A) :
  (forall x, In x l -> p x = false) -> filter p l = [].
Proof.
  induction l as [| x l IH]; simpl; intros H; [reflexivity |].
  rewrite (H x (or_introl eq_refl)), IH; auto.
Qed.

Lemma flat_map_all_nil (f : A -> list B) (l : list A) :
  (forall x, In x l -> f x = []) -> flat_map f l = [].
Proof.
  induction l as [| x l IH]; simpl; intros H; [reflexivity |].
  rewrite (H x (or_introl eq_refl)), IH; auto.
Qed.

End ListFacts.

Section KeyFacts.

Lemma join_key_eq_true (a b : key) :
  join_key_eq a b = true -> exists x, a = Some x /\ b = Some x.
Proof.
  destruct a as [x |], b as [y |]; unfold join_key_eq; try discriminate.
  intros H. apply String.eqb_eq in H. subst y. now exists x.
Qed.

Lemma join_key_eq_refl (x : string) : join_key_eq (Some x) (Some x) = true.
Proof. unfold join_key_eq. apply String.eqb_refl. Qed.

Lemma group_key_eq_join (x : string) (b : key) :
  group_key_eq b (Some x) = join_key_eq (Some x) b.
Proof.
  destruct b as [y |]; unfold group_key_eq, join_key_eq;
    [apply String.eqb_sym | reflexivity].
Qed.

Lemma join_key_eq_iff (x : string) (b : key) :
  join_key_eq (Some x) b = true <-> b = Some x.
Proof.
  split.
  - intros H. apply join_key_eq_true in H as (y & Hy & ->). congruence.
  - intros ->. apply join_key_eq_refl.
Qed.

End KeyFacts.

Section JoinFacts.

Variable E : Engine.
Context {L R : Type}.

Lemma join_matches_length (rk : R -> key) (right : list R) (k : key) :
  List.length (join_matches rk right k)
  = Nat.max 1 (List.length (filter (fun r => join_key_eq k (rk r)) right)).
Proof.
  unfold join_matches.
  destruct (filter _ right) as [| r ms]; simpl; [reflexivity |].
  now rewrite length_map.
Qed.

Lemma join_matches_in (rk : R -> key) (right : list R) (k : key)
    (m : option R) :
  In m (join_matches rk right k) ->
  (m = None /\ forall r, In r right -> join_key_eq k (rk r) = false)
  \/ (exists r, m = Some r /\ In r right /\ join_key_eq k (rk r) = true).
Proof.
  unfold join_matches.
  destruct (filter _ right) as [| r ms] eqn:Hf.
  - intros [<- | []]. left. split; [reflexivity |].
    intros r Hr. destruct (join_key_eq k (rk r)) eqn:Hk; [| reflexivity].
    assert (Hin : In r (filter (fun r => join_key_eq k (rk r)) right))
      by (apply filter_In; auto).
    rewrite Hf in Hin. destruct Hin.
  - intros Hin. right. apply in_map_iff in Hin as (r' & <- & Hr').
    rewrite <- Hf in Hr'. apply filter_In in Hr' as [Hr' Hk].
    now exists r'.
Qed.

Lemma join_left_perm (node : nat) (lk : L -> key) (rk : R -> key)
    (left : list L) (right : list R) :
  Permutation (join_left E node lk rk left right)
    (flat_map (fun l => map (pair l) (join_matches rk right (lk l))) left).
Proof. apply row_order_perm. Qed.

End JoinFacts.

Section GroupFacts.

Variable E : Engine.
Context {V : Type}.

Lemma group_by_agg_keys_nodup (node : nat) (rows : list (key * V)) :
  NoDup (map fst (group_by_agg E node rows)).
Proof.
  unfold group_by_agg.
  eapply Permutation_NoDup.
  - apply Permutation_sym, Permutation_map, row_order_perm.
  - rewrite map_map. simpl. rewrite map_id. apply NoDup_nodup.
Qed.

Lemma group_by_agg_in (node : nat) (rows : list (key * V))
    (g : key * list V) :
  In g (group_by_agg E node rows) <->
  In (fst g) (map fst rows)
  /\ snd g = map snd (filter (fun r => group_key_eq (fst r) (fst g)) rows).
Proof.
  unfold group_by_agg. split.
  - intros H.
    apply (Permutation_in _ (row_order_perm E _ node _)) in H.
    apply in_map_iff in H as (k & <- & Hk). simpl.
    apply nodup_In in Hk. auto.
  - intros [Hk Hv].
    apply (Permutation_in _ (Permutation_sym (row_order_perm E _ node _))).
    apply in_map_iff. exists (fst g). split.
    + rewrite <- Hv. now destruct g.
    + now apply nodup_In.
Qed.

(** Under unique keys a join key selects at most one row. *)
Lemma filter_unique_key (G : list (key * list V)) (x : string) :
  NoDup (map fst G) ->
  (filter (fun g => join_key_eq (Some x) (fst g)) G = []
   /\ ~ In (Some x) (map fst G))
  \/ (exists g, filter (fun g => join_key_eq (Some x) (fst g)) G = [g]
              /\ In g G /\ fst g = Some x).
Proof.
  induction G as [| g G IH]; simpl; intros Hnd.
  - left. auto.
  - inversion Hnd as [| ? ? Hnotin Hnd']; subst.
    destruct (join_key_eq (Some x) (fst g)) eqn:Hk.
    + right. apply join_key_eq_iff in Hk.
      exists g. repeat split; auto.
      f_equal. apply filter_all_false. intros g' Hg'.
      destruct (join_key_eq (Some x) (fst g')) eqn:Hk'; [| reflexivity].
      apply join_key_eq_iff in Hk'. exfalso. apply Hnotin.
      rewrite Hk, <- Hk'. now apply in_map.
    + destruct (IH Hnd') as [[Hf Hn] | (g' & Hf & Hin & Hg')].
      * left. split; [exact Hf |].
        intros [Heq | Hin]; [| now apply Hn].
        rewrite Heq, join_key_eq_refl in Hk. discriminate.
      * right. exists g'. auto.
Qed.

(** Joining the groups back on the key gives each left row exactly one
    match, whose filled nested column holds the values of the key's rows. *)
Lemma join_matches_group_by_agg (node : nat) (rows : list (key * V))
    (k : key) :
  exists m,
    join_matches fst (group_by_agg E node rows) k = [m]
    /\ fill_null (option_map snd m) = nested_for rows k.
Proof.
  unfold join_matches, nested_for.
  destruct k as [x |].
  - destruct (filter_unique_key (group_by_agg E node rows) x
                (group_by_agg_keys_nodup node rows))
      as [[Hf Hn] | (g & Hf & Hin & Hg)]; rewrite Hf.
    + exists None. split; [reflexivity |]. simpl.
      rewrite filter_all_false; [reflexivity |].
      intros r Hr.
      destruct (join_key_eq (Some x) (fst r)) eqn:Hk; [| reflexivity].
      apply join_key_eq_iff in Hk. exfalso. apply Hn.
      assert (Hg : In (Some x, map snd (filter (fun r => group_key_eq (fst r) (Some x)) rows))
                     (group_by_agg E node rows)).
      { apply group_by_agg_in. simpl. split; [| reflexivity].
        rewrite <- Hk. now apply in_map. }
      apply (in_map fst) in Hg. exact Hg.
    + exists (Some g). split; [reflexivity |]. simpl.
      apply group_by_agg_in in Hin as [_ Hv]. rewrite Hv, Hg.
      f_equal. apply filter_ext. intros r. apply group_key_eq_join.
  - exists None. split.
    + rewrite filter_all_false; [reflexivity | intros; reflexivity].
    + simpl. rewrite filter_all_false; [reflexivity | intros; reflexivity].
Qed.

End GroupFacts.

Section TransformShape.

Variable E : Engine.
Variable harvest_terminology : list Term.t.
Variable harvest_objects : list HarvestObject.t.

Let finish
    (r : BaseRow.t * option (key * list Classification.t)
         * option (key * list EnrichedConstituent.t)) : TransformRow.t :=
  let b := fst (fst r) in
  TransformRow.mk
    (BaseRow.object_id b) (BaseRow.title b) (BaseRow.date_made b)
    (BaseRow.credit_line b) (BaseRow.department b)
    (BaseRow.dimensions b) (BaseRow.media b)
    (fill_null (option_map snd (snd (fst r))))
    (fill_null (option_map snd (snd r))).

Let cls_nested := classifications_nested E harvest_terminology harvest_objects.
Let cst_nested := constituents_nested E harvest_terminology harvest_objects.

(** The assembly without the engine's reordering is one output row per
    source row. *)
Lemma assembled_rows :
  map finish
    (flat_map
       (fun l =>
          map (pair l)
            (join_matches fst cst_nested (BaseRow.object_id (fst l))))
       (flat_map
          (fun b =>
             map (pair b) (join_matches fst cls_nested (BaseRow.object_id b)))
          (base_rows harvest_objects)))
  = map (enrich_row E harvest_terminology harvest_objects) harvest_objects.
Proof.
  unfold base_rows.
  rewrite flat_map_flat_map, map_flat_map, flat_map_concat_map, map_map,
    <- flat_map_concat_map.
  rewrite <- flat_map_singleton. apply flat_map_ext. intros o.
  subst cls_nested cst_nested.
  unfold classifications_nested, constituents_nested. cbn [BaseRow.object_id].
  destruct (join_matches_group_by_agg E 3
              (classifications_joined E harvest_terminology harvest_objects)
              (HarvestObject.object_id o)) as (m1 & -> & H1).
  cbn [map flat_map fst app BaseRow.object_id].
  destruct (join_matches_group_by_agg E 5
              (constituents_joined E harvest_terminology harvest_objects)
              (HarvestObject.object_id o)) as (m2 & -> & H2).
  cbn [map app]. unfold finish, enrich_row. cbn [fst snd].
  rewrite H1, H2. reflexivity.
Qed.

Lemma objects_transform_perm :
  Permutation (objects_transform E harvest_terminology harvest_objects)
    (map (enrich_row E harvest_terminology harvest_objects) harvest_objects).
Proof.
  rewrite <- assembled_rows.
  unfold objects_transform, assembled, join_left.
  apply Permutation_map.
  etransitivity; [apply row_order_perm |].
  apply Permutation_flat_map. apply row_order_perm.
Qed.

End TransformShape.

Section ExplodeFacts.

Context {X : Type}.

Lemma explode_nonempty (rows : list (key * list X)) :
  explode (filter (fun r => 0 <? List.length (snd r)) rows)
  = flat_map (fun r => map (fun x => (fst r, Some x)) (snd r)) rows.
Proof.
  unfold explode.
  induction rows as [| [k xs] rows IH]; [reflexivity |].
  cbn [filter flat_map snd fst].
  destruct xs as [| x xs]; cbn [List.length Nat.ltb Nat.leb]; [exact IH |].
  cbn [flat_map snd fst]. f_equal. exact IH.
Qed.

Lemma nested_for_constant_key {V : Type} (k k0 : key) (l : list (key * V)) :
  (forall r, In r l -> fst r = k0) ->
  nested_for l k = if join_key_eq k k0 then map snd l else [].
Proof.
  intros H. unfold nested_for.
  destruct (join_key_eq k k0) eqn:Hk.
  - rewrite filter_all_true; [reflexivity |].
    intros r Hr. now rewrite (H r Hr).
  - rewrite filter_all_false; [reflexivity |].
    intros r Hr. now rewrite (H r Hr).
Qed.

Lemma nested_for_flat_map {S V : Type} (k : key) (f : S -> list (key * V))
    (l : list S) :
  nested_for (flat_map f l) k = flat_map (fun s => nested_for (f s) k) l.
Proof.
  unfold nested_for. now rewrite filter_flat_map, map_flat_map.
Qed.

Lemma nested_for_perm {V : Type} (k : key) (l l' : list (key * V)) :
  Permutation l l' -> Permutation (nested_for l k) (nested_for l' k).
Proof.
  intros H. unfold nested_for.
  now apply Permutation_map, Permutation_filter_compat.
Qed.

End ExplodeFacts.

Section FlatFrames.

Variable harvest_terminology : list Term.t.
Variable harvest_objects : list HarvestObject.t.

Lemma classifications_flat_rows :
  classifications_flat harvest_objects
  = flat_map
      (fun o =>
         map
           (fun c =>
              FlatClassification.mk (HarvestObject.object_id o)
                (ClassificationRef.type_id c) (ClassificationRef.term_id c))
           (HarvestObject.classification_ids o))
      harvest_objects.
Proof.
  unfold classifications_flat.
  rewrite explode_nonempty, map_flat_map, flat_map_concat_map, map_map,
    <- flat_map_concat_map.
  apply flat_map_ext. intros o. cbn [fst snd].
  rewrite map_map. reflexivity.
Qed.

Lemma constituents_flat_rows :
  constituents_flat harvest_objects
  = flat_map
      (fun o =>
         map
           (fun c =>
              FlatConstituent.mk (HarvestObject.object_id o)
                (Constituent.name c) (Constituent.role c)
                (Constituent.birth_year c) (Constituent.nationality_id c))
           (HarvestObject.constituents o))
      harvest_objects.
Proof.
  unfold constituents_flat.
  rewrite explode_nonempty, map_flat_map, flat_map_concat_map, map_map,
    <- flat_map_concat_map.
  apply flat_map_ext. intros o. cbn [fst snd].
  rewrite map_map. reflexivity.
Qed.

End FlatFrames.

Section NestedColumns.

Variable E : Engine.
Variable harvest_terminology : list Term.t.
Variable harvest_objects : list HarvestObject.t.

(** The rows entering the classification [group_by], up to order. *)
Lemma classifications_joined_perm :
  Permutation (classifications_joined E harvest_terminology harvest_objects)
    (flat_map
       (fun o =>
          map (pair (HarvestObject.object_id o))
            (flat_map (enrich_classification harvest_terminology)
               (HarvestObject.classification_ids o)))
       harvest_objects).
Proof.
  unfold classifications_joined.
  etransitivity.
  { apply Permutation_map. etransitivity; [apply join_left_perm |].
    apply Permutation_flat_map. apply join_left_perm. }
  rewrite classifications_flat_rows.
  rewrite !flat_map_flat_map, map_flat_map.
  apply Permutation_refl'. apply flat_map_ext. intros o.
  induction (HarvestObject.classification_ids o) as [| c cs IH];
    [reflexivity |].
  cbn [map flat_map]. rewrite !map_app, IH. f_equal.
  unfold enrich_classification. cbn [FlatClassification.type_id].
  induction (join_matches fst (type_labels harvest_terminology)
               (ClassificationRef.type_id c)) as [| m ms IHm];
    [reflexivity |].
  cbn [map flat_map]. rewrite !map_app, IHm. f_equal.
  cbn [fst FlatClassification.term_id].
  rewrite !map_map. reflexivity.
Qed.

(** The rows entering the constituent [group_by], up to order. *)
Lemma constituents_joined_perm :
  Permutation (constituents_joined E harvest_terminology harvest_objects)
    (flat_map
       (fun o =>
          map (pair (HarvestObject.object_id o))
            (flat_map (enrich_constituent harvest_terminology)
               (HarvestObject.constituents o)))
       harvest_objects).
Proof.
  unfold constituents_joined.
  etransitivity.
  { apply Permutation_map. apply join_left_perm. }
  rewrite constituents_flat_rows.
  rewrite !flat_map_flat_map, map_flat_map.
  apply Permutation_refl'. apply flat_map_ext. intros o.
  induction (HarvestObject.constituents o) as [| c cs IH]; [reflexivity |].
  cbn [map flat_map]. rewrite !map_app, IH. f_equal.
  unfold enrich_constituent. cbn [FlatConstituent.nationality_id].
  rewrite !map_map. reflexivity.
Qed.

Lemma nested_for_object_rows {V : Type} (k : key)
    (f : HarvestObject.t -> list V) :
  nested_for
    (flat_map (fun o => map (pair (HarvestObject.object_id o)) (f o))
       harvest_objects) k
  = flat_map
      (fun o => if join_key_eq k (HarvestObject.object_id o) then f o else [])
      harvest_objects.
Proof.
  rewrite nested_for_flat_map. apply flat_map_ext. intros o.
  rewrite (nested_for_constant_key k (HarvestObject.object_id o)).
  - rewrite map_map. cbn [snd]. now rewrite map_id.
  - intros r Hr. apply in_map_iff in Hr as (v & <- & _). reflexivity.
Qed.

(** The nested classifications of key [k]: the enriched elements of the
    source rows of that key, up to order. *)
Lemma nested_classifications (k : key) :
  Permutation
    (nested_for
       (classifications_joined E harvest_terminology harvest_objects) k)
    (flat_map
       (fun o =>
          if join_key_eq k (HarvestObject.object_id o)
          then flat_map (enrich_classification harvest_terminology)
                 (HarvestObject.classification_ids o)
          else [])
       harvest_objects).
Proof.
  rewrite <- nested_for_object_rows.
  apply nested_for_perm, classifications_joined_perm.
Qed.

(** The nested constituents of key [k], likewise. *)
Lemma nested_constituents (k : key) :
  Permutation
    (nested_for
       (constituents_joined E harvest_terminology harvest_objects) k)
    (flat_map
       (fun o =>
          if join_key_eq k (HarvestObject.object_id o)
          then flat_map (enrich_constituent harvest_terminology)
                 (HarvestObject.constituents o)
          else [])
       harvest_objects).
Proof.
  rewrite <- nested_for_object_rows.
  apply nested_for_perm, constituents_joined_perm.
Qed.

End NestedColumns.

Section TransformRows.

Variable E : Engine.
Variable harvest_terminology : list Term.t.
Variable harvest_objects : list HarvestObject.t.

Lemma in_objects_transform (r : TransformRow.t) :
  In r (objects_transform E harvest_terminology harvest_objects) <->
  exists o,
    In o harvest_objects
    /\ r = enrich_row E harvest_terminology harvest_objects o.
Proof.
  split.
  - intros H.
    apply (Permutation_in _
             (objects_transform_perm E harvest_terminology harvest_objects))
      in H.
    apply in_map_iff in H as (o & <- & Ho). now exists o.
  - intros (o & Ho & ->).
    apply (Permutation_in _
             (Permutation_sym
                (objects_transform_perm E harvest_terminology harvest_objects))).
    now apply in_map.
Qed.

Lemma objects_transform_ordered :
  keeps_order E 6 -> keeps_order E 7 ->
  objects_transform E harvest_terminology harvest_objects
  = map (enrich_row E harvest_terminology harvest_objects) harvest_objects.
Proof.
  intros H6 H7. rewrite <- assembled_rows.
  unfold objects_transform, assembled, join_left.
  now rewrite H7, H6.
Qed.

End TransformRows.

Section FanOut.

Variable harvest_terminology : list Term.t.

Lemma term_labels_matches (k : key) :
  List.length
    (filter (fun r : key * key => join_key_eq k (fst r))
       (term_labels harvest_terminology))
  = term_matches harvest_terminology k.
Proof.
  unfold term_labels, term_matches.
  now rewrite filter_map_swap, length_map.
Qed.

Lemma type_labels_matches (k : key) :
  List.length
    (filter (fun r : key * key => join_key_eq k (fst r))
       (type_labels harvest_terminology))
  = term_matches harvest_terminology k.
Proof. apply term_labels_matches. Qed.

Lemma nationality_lookup_matches (k : key) :
  List.length
    (filter (fun r : key * key => join_key_eq k (fst r))
       (nationality_lookup harvest_terminology))
  = nationality_matches harvest_terminology k.
Proof.
  unfold nationality_lookup, nationality_matches.
  rewrite filter_map_swap, length_map. cbn [fst].
  induction harvest_terminology as [| tm l IH]; [reflexivity |].
  cbn [filter].
  destruct (join_key_eq (Term.term_type tm) (Some "nationality"));
    cbn [filter andb]; [| exact IH].
  destruct (join_key_eq k (Term.term_id tm)); cbn [List.length]; now rewrite IH.
Qed.

Lemma nationality_matches_le (k : key) :
  nationality_matches harvest_terminology k
  <= term_matches harvest_terminology k.
Proof.
  unfold nationality_matches, term_matches.
  induction harvest_terminology as [| tm l IH]; [constructor |].
  cbn [filter].
  destruct (join_key_eq (Term.term_type tm) (Some "nationality")),
    (join_key_eq k (Term.term_id tm)); cbn [andb List.length]; lia.
Qed.

Lemma enrich_classification_length (c : ClassificationRef.t) :
  List.length (enrich_classification harvest_terminology c)
  = Nat.max 1 (term_matches harvest_terminology (ClassificationRef.type_id c))
    * Nat.max 1 (term_matches harvest_terminology (ClassificationRef.term_id c)).
Proof.
  unfold enrich_classification.
  rewrite <- type_labels_matches, <- term_labels_matches,
    <- !join_matches_length.
  induction (join_matches fst (type_labels harvest_terminology)
               (ClassificationRef.type_id c)) as [| m ms IH];
    [reflexivity |].
  cbn [flat_map List.length]. rewrite length_app, length_map, IH. lia.
Qed.

Lemma enrich_constituent_length (c : Constituent.t) :
  List.length (enrich_constituent harvest_terminology c)
  = Nat.max 1
      (nationality_matches harvest_terminology (Constituent.nationality_id c)).
Proof.
  unfold enrich_constituent.
  now rewrite length_map, join_matches_length, nationality_lookup_matches.
Qed.

Lemma length_flat_map_sum {A B : Type} (f : A -> list B) (l : list A) :
  List.length (flat_map f l) = list_sum (map (fun x => List.length (f x)) l).
Proof.
  induction l as [| x l IH]; [reflexivity |].
  change (List.length (f x ++ flat_map f l)
          = List.length (f x) + list_sum (map (fun x => List.length (f x)) l)).
  now rewrite length_app, IH.
Qed.

Lemma list_sum_ones {A : Type} (f : A -> nat) (l : list A) :
  (forall x, In x l -> f x = 1) -> list_sum (map f l) = List.length l.
Proof.
  induction l as [| x l IH]; intros H; [reflexivity |].
  change (f x + list_sum (map f l) = S (List.length l)).
  rewrite (H x (or_introl eq_refl)). cbn [Nat.add]. f_equal.
  apply IH. intros y Hy. apply H. now right.
Qed.

End FanOut.

Section UniqueObjects.

Variable harvest_objects : list HarvestObject.t.

Lemma unique_object_row (o o' : HarvestObject.t) :
  NoDup (map HarvestObject.object_id harvest_objects) ->
  In o harvest_objects -> In o' harvest_objects ->
  HarvestObject.object_id o = HarvestObject.object_id o' -> o = o'.
Proof.
  induction harvest_objects as [| a l IH]; intros Hnd Ho Ho' Heq; [easy |].
  cbn [map] in Hnd. inversion Hnd as [| ? ? Hnotin Hnd']; subst.
  destruct Ho as [-> | Ho], Ho' as [-> | Ho']; auto.
  - exfalso. apply Hnotin. rewrite Heq. now apply in_map.
  - exfalso. apply Hnotin. rewrite <- Heq. now apply in_map.
Qed.

Lemma flat_map_unique_object {V : Type} (f : HarvestObject.t -> list V)
    (o : HarvestObject.t) (x : string) :
  NoDup (map HarvestObject.object_id harvest_objects) ->
  In o harvest_objects ->
  HarvestObject.object_id o = Some x ->
  flat_map
    (fun o' =>
       if join_key_eq (Some x) (HarvestObject.object_id o') then f o' else [])
    harvest_objects
  = f o.
Proof.
  induction harvest_objects as [| a l IH]; intros Hnd Ho Hx; [easy |].
  cbn [map] in Hnd. inversion Hnd as [| ? ? Hnotin Hnd']; subst.
  cbn [flat_map].
  destruct Ho as [-> | Ho].
  - rewrite Hx, join_key_eq_refl.
    rewrite flat_map_all_nil; [apply app_nil_r |].
    intros o' Ho'.
    destruct (join_key_eq (Some x) (HarvestObject.object_id o')) eqn:Hk;
      [| reflexivity].
    apply join_key_eq_iff in Hk. exfalso. apply Hnotin.
    rewrite Hx, <- Hk. now apply in_map.
  - destruct (join_key_eq (Some x) (HarvestObject.object_id a)) eqn:Hk.
    + apply join_key_eq_iff in Hk. exfalso. apply Hnotin.
      rewrite Hk, <- Hx. now apply in_map.
    + cbn [app]. now apply IH.
Qed.

End UniqueObjects.

Section RowsOfAnObject.

Variable E : Engine.
Variable harvest_terminology : list Term.t.
Variable harvest_objects : list HarvestObject.t.

Let out := objects_transform E harvest_terminology harvest_objects.

Lemma enrich_row_in (o : HarvestObject.t) :
  In o harvest_objects ->
  In (enrich_row E harvest_terminology harvest_objects o) out.
Proof. intros Ho. apply in_objects_transform. now exists o. Qed.

(** The nested columns of an output row hold the enriched elements of the
    source rows joined to it, up to order. *)
Lemma row_nested_columns (r : TransformRow.t) :
  In r out ->
  Permutation (TransformRow.classifications r)
    (flat_map
       (fun o =>
          if join_key_eq (TransformRow.object_id r) (HarvestObject.object_id o)
          then flat_map (enrich_classification harvest_terminology)
                 (HarvestObject.classification_ids o)
          else [])
       harvest_objects)
  /\ Permutation (TransformRow.constituents r)
       (flat_map
          (fun o =>
             if join_key_eq (TransformRow.object_id r)
                  (HarvestObject.object_id o)
             then flat_map (enrich_constituent harvest_terminology)
                    (HarvestObject.constituents o)
             else [])
          harvest_objects).
Proof.
  intros Hr. apply in_objects_transform in Hr as (o & Ho & ->).
  cbn [enrich_row TransformRow.classifications TransformRow.constituents
       TransformRow.object_id].
  split; [apply nested_classifications | apply nested_constituents].
Qed.

(** Under unique object ids, the nested columns of the output row of a
    source row hold the enriched elements of that row, up to order. *)
Lemma unique_row_nested_columns (o : HarvestObject.t) (x : string)
    (r : TransformRow.t) :
  NoDup (map HarvestObject.object_id harvest_objects) ->
  In o harvest_objects ->
  HarvestObject.object_id o = Some x ->
  In r out ->
  TransformRow.object_id r = Some x ->
  Permutation (TransformRow.classifications r)
    (flat_map (enrich_classification harvest_terminology)
       (HarvestObject.classification_ids o))
  /\ Permutation (TransformRow.constituents r)
       (flat_map (enrich_constituent harvest_terminology)
          (HarvestObject.constituents o)).
Proof.
  intros Hnd Ho Hx Hr Hrx.
  destruct (row_nested_columns r Hr) as [Hc Hk].
  rewrite Hrx in Hc, Hk.
  rewrite (flat_map_unique_object harvest_objects _ o x Hnd Ho Hx) in Hc.
  rewrite (flat_map_unique_object harvest_objects _ o x Hnd Ho Hx) in Hk.
  now split.
Qed.

(** An output row has no constituent when no source row joined to it has
    one; likewise for classifications. *)
Lemma row_constituents_empty (r : TransformRow.t) :
  In r out ->
  (forall o,
      In o harvest_objects ->
      join_key_eq (TransformRow.object_id r) (HarvestObject.object_id o) = true ->
      HarvestObject.constituents o = []) ->
  TransformRow.constituents r = [].
Proof.
  intros Hr Hall. destruct (row_nested_columns r Hr) as [_ Hk].
  rewrite flat_map_all_nil in Hk;
    [now apply Permutation_sym, Permutation_nil in Hk |].
  intros o Ho. destruct (join_key_eq _ _) eqn:Hj; [| reflexivity].
  now rewrite (Hall o Ho Hj).
Qed.

Lemma row_classifications_empty (r : TransformRow.t) :
  In r out ->
  (forall o,
      In o harvest_objects ->
      join_key_eq (TransformRow.object_id r) (HarvestObject.object_id o) = true ->
      HarvestObject.classification_ids o = []) ->
  TransformRow.classifications r = [].
Proof.
  intros Hr Hall. destruct (row_nested_columns r Hr) as [Hc _].
  rewrite flat_map_all_nil in Hc;
    [now apply Permutation_sym, Permutation_nil in Hc |].
  intros o Ho. destruct (join_key_eq _ _) eqn:Hj; [| reflexivity].
  now rewrite (Hall o Ho Hj).
Qed.

End RowsOfAnObject.

Section Resolution.

Variable harvest_terminology : list Term.t.

Lemma in_nationality_lookup (row : key * key) :
  In row (nationality_lookup harvest_terminology) <->
  exists tm,
    In tm harvest_terminology
    /\ Term.term_type tm = Some "nationality"
    /\ row = (Term.term_id tm, Term.label tm).
Proof.
  unfold nationality_lookup. rewrite in_map_iff. split.
  - intros (tm & <- & Htm). apply filter_In in Htm as [Htm Hty].
    apply join_key_eq_true in Hty as (y & Hy & Hn).
    exists tm. repeat split; auto. congruence.
  - intros (tm & Htm & Hty & ->). exists tm. split; [reflexivity |].
    apply filter_In. split; [exact Htm |].
    rewrite Hty. apply join_key_eq_refl.
Qed.

Lemma enrich_constituent_resolved (e : Constituent.t)
    (c : EnrichedConstituent.t) :
  In c (enrich_constituent harvest_terminology e) ->
  EnrichedConstituent.name c = Constituent.name e
  /\ EnrichedConstituent.role c = Constituent.role e
  /\ EnrichedConstituent.birth_year c = Constituent.birth_year e
  /\ nationality_resolved harvest_terminology e c.
Proof.
  unfold enrich_constituent. intros Hc.
  apply in_map_iff in Hc as (m & <- & Hm). cbn.
  repeat split.
  apply join_matches_in in Hm as [[-> Hnone] | (row & -> & Hrow & Hk)].
  - right. split; [reflexivity |].
    intros tm x Htm Hty Hx Hid.
    specialize (Hnone (Term.term_id tm, Term.label tm)).
    rewrite Hx, Hid in Hnone. cbn [fst] in Hnone.
    rewrite join_key_eq_refl in Hnone.
    enough (true = false) by discriminate. apply Hnone.
    apply in_nationality_lookup. exists tm.
    split; [exact Htm | split; [exact Hty | now rewrite Hid]].
  - left. apply in_nationality_lookup in Hrow as (tm & Htm & Hty & ->).
    cbn [fst] in Hk. apply join_key_eq_true in Hk as (x & Hx & Hid).
    exists tm. repeat split; auto. now exists x.
Qed.

Lemma enrich_constituent_nonempty (e : Constituent.t) :
  exists c, In c (enrich_constituent harvest_terminology e).
Proof.
  unfold enrich_constituent, join_matches.
  destruct (filter _ (nationality_lookup harvest_terminology)) as [| row ms].
  - eexists. left. reflexivity.
  - eexists. left. reflexivity.
Qed.

End Resolution.

Lemma term_id_unique_of_NoDup (harvest_terminology : list Term.t) :
  NoDup (map Term.term_id harvest_terminology) ->
  term_id_unique harvest_terminology.
Proof.
  unfold term_id_unique, term_matches.
  induction harvest_terminology as [| tm l IH]; intros Hnd k;
    [cbn; lia |].
  cbn [map] in Hnd. inversion Hnd as [| ? ? Hnotin Hnd']; subst.
  cbn [filter].
  destruct (join_key_eq k (Term.term_id tm)) eqn:Hk; [| now apply IH].
  rewrite filter_all_false; [constructor |].
  intros tm' Htm'.
  destruct (join_key_eq k (Term.term_id tm')) eqn:Hk'; [| reflexivity].
  apply join_key_eq_true in Hk as (x & Hx0 & Hx).
  apply join_key_eq_true in Hk' as (x' & Hx1 & Hx').
  exfalso. apply Hnotin. rewrite Hx.
  replace (Some x) with (Term.term_id tm') by congruence.
  now apply in_map.
Qed.

(* ===================================================================== *)
(** * The transform: join policy, completeness, empty lists, order *)
(* ===================================================================== *)

(** C3 (as the code has it).  [objects_transform] makes no uniqueness check
    on [term_id]: whatever the terminology table, the source row of a
    unique, non-null [object_id] has its output row, and each of its
    elements is repeated once per matching terminology row (once when there
    is none).  The length of [classifications] is the sum over the
    references of [max 1 (type matches) * max 1 (term matches)], the length
    of [constituents] the sum over the constituents of
    [max 1 (nationality matches)]. *)
Theorem join_fans_out_on_ambiguous_keys
    (E : Engine) (harvest_terminology : list Term.t)
    (harvest_objects : list HarvestObject.t)
    (o : HarvestObject.t) (x : string) :
  NoDup (map HarvestObject.object_id harvest_objects) ->
  In o harvest_objects ->
  HarvestObject.object_id o = Some x ->
  exists r,
    In r (objects_transform E harvest_terminology harvest_objects)
    /\ TransformRow.object_id r = Some x
    /\ List.length (TransformRow.classifications r)
       = list_sum
           (map
              (fun c =>
                 Nat.max 1
                   (term_matches harvest_terminology
                      (ClassificationRef.type_id c))
                 * Nat.max 1
                     (term_matches harvest_terminology
                        (ClassificationRef.term_id c)))
              (HarvestObject.classification_ids o))
    /\ List.length (TransformRow.constituents r)
       = list_sum
           (map
              (fun c =>
                 Nat.max 1
                   (nationality_matches harvest_terminology
                      (Constituent.nationality_id c)))
              (HarvestObject.constituents o)).
Proof.
  intros Hnd Ho Hx.
  exists (enrich_row E harvest_terminology harvest_objects o).
  assert (Hin := enrich_row_in E harvest_terminology harvest_objects o Ho).
  split; [exact Hin |]. split; [exact Hx |].
  destruct (unique_row_nested_columns E harvest_terminology harvest_objects
              o x _ Hnd Ho Hx Hin Hx) as [Hc Hk].
  rewrite (Permutation_length Hc), (Permutation_length Hk).
  rewrite !length_flat_map_sum. split.
  - f_equal. apply map_ext. intros c. apply enrich_classification_length.
  - f_equal. apply map_ext. intros c. apply enrich_constituent_length.
Qed.

Lemma join_fans_out_on_ambiguous_keys_witness :
  NoDup (map HarvestObject.object_id Sample.objects)
  /\ In Sample.obj_001 Sample.objects
  /\ HarvestObject.object_id Sample.obj_001 = Some "OBJ-001"
  /\ exists r,
      In r (objects_transform in_order Sample.ambiguous_terminology
              Sample.objects)
      /\ TransformRow.object_id r = Some "OBJ-001"
      /\ List.length (TransformRow.classifications r) = 2
      /\ List.length (TransformRow.constituents r) = 1.
Proof.
  assert (Hnd : NoDup (map HarvestObject.object_id Sample.objects)).
  { cbn. repeat constructor; cbn; intuition discriminate. }
  assert (Hin : In Sample.obj_001 Sample.objects) by (left; reflexivity).
  split; [exact Hnd |]. split; [exact Hin |]. split; [reflexivity |].
  exact (join_fans_out_on_ambiguous_keys in_order Sample.ambiguous_terminology
           Sample.objects Sample.obj_001 "OBJ-001" Hnd Hin eq_refl).
Defined.

(** C3 (as stated) fails: on a terminology table in which [TERM-1] is the
    [term_id] of two rows, [objects_transform] returns a joined table, with
    the reference to [TERM-1] enriched twice. *)
Lemma ambiguous_lookup_is_joined :
  ~ term_id_unique Sample.ambiguous_terminology
  /\ map TransformRow.classifications
       (objects_transform in_order Sample.ambiguous_terminology
          [Sample.obj_001])
     = [ [ Classification.mk (Some "Medium") (Some "Oil on canvas");
           Classification.mk (Some "Medium") (Some "Tempera") ] ].
Proof.
  split.
  - intros H. specialize (H (Some "TERM-1")). vm_compute in H. lia.
  - vm_compute. reflexivity.
Qed.

(** C4 (amended).  When the lookup key [term_id] is unique in the
    terminology table and [object_id] is unique in the harvested objects,
    the source row of a non-null [object_id] has an output row with that
    [object_id], and every such output row has as many [classifications] as
    the source row has [classification_ids] and as many [constituents] as
    the source row has. *)
Theorem join_completeness
    (E : Engine) (harvest_terminology : list Term.t)
    (harvest_objects : list HarvestObject.t)
    (o : HarvestObject.t) (x : string) :
  term_id_unique harvest_terminology ->
  NoDup (map HarvestObject.object_id harvest_objects) ->
  In o harvest_objects ->
  HarvestObject.object_id o = Some x ->
  (exists r,
      In r (objects_transform E harvest_terminology harvest_objects)
      /\ TransformRow.object_id r = Some x)
  /\ forall r,
      In r (objects_transform E harvest_terminology harvest_objects) ->
      TransformRow.object_id r = Some x ->
      List.length (TransformRow.classifications r)
      = List.length (HarvestObject.classification_ids o)
      /\ List.length (TransformRow.constituents r)
         = List.length (HarvestObject.constituents o).
Proof.
  intros Hu Hnd Ho Hx. split.
  - exists (enrich_row E harvest_terminology harvest_objects o).
    split; [now apply enrich_row_in | exact Hx].
  - intros r Hr Hrx.
    destruct (unique_row_nested_columns E harvest_terminology harvest_objects
                o x r Hnd Ho Hx Hr Hrx) as [Hc Hk].
    rewrite (Permutation_length Hc), (Permutation_length Hk).
    rewrite !length_flat_map_sum. split.
    + apply list_sum_ones. intros c _.
      rewrite enrich_classification_length.
      pose proof (Hu (ClassificationRef.type_id c)).
      pose proof (Hu (ClassificationRef.term_id c)). nia.
    + apply list_sum_ones. intros c _.
      rewrite enrich_constituent_length.
      pose proof (Hu (Constituent.nationality_id c)).
      pose proof (nationality_matches_le harvest_terminology
                    (Constituent.nationality_id c)). lia.
Qed.

Lemma join_completeness_witness :
  term_id_unique Sample.terminology
  /\ NoDup (map HarvestObject.object_id Sample.objects)
  /\ In Sample.obj_005 Sample.objects
  /\ HarvestObject.object_id Sample.obj_005 = Some "OBJ-005"
  /\ (exists r,
         In r (objects_transform in_order Sample.terminology Sample.objects)
         /\ TransformRow.object_id r = Some "OBJ-005")
  /\ forall r,
      In r (objects_transform in_order Sample.terminology Sample.objects) ->
      TransformRow.object_id r = Some "OBJ-005" ->
      List.length (TransformRow.classifications r)
      = List.length (HarvestObject.classification_ids Sample.obj_005)
      /\ List.length (TransformRow.constituents r)
         = List.length (HarvestObject.constituents Sample.obj_005).
Proof.
  assert (Hu : term_id_unique Sample.terminology).
  { apply term_id_unique_of_NoDup. cbn.
    repeat constructor; cbn; intuition discriminate. }
  assert (Hnd : NoDup (map HarvestObject.object_id Sample.objects)).
  { cbn. repeat constructor; cbn; intuition discriminate. }
  assert (Hin : In Sample.obj_005 Sample.objects)
    by (right; right; left; reflexivity).
  split; [exact Hu |]. split; [exact Hnd |]. split; [exact Hin |].
  split; [reflexivity |].
  exact (join_completeness in_order Sample.terminology Sample.objects
           Sample.obj_005 "OBJ-005" Hu Hnd Hin eq_refl).
Defined.

(** C4 (as stated) fails: with [TERM-1] carried by two terminology rows, the
    output row of [OBJ-001] has two classifications for the one reference of
    the source row. *)
Lemma join_completeness_fails_on_ambiguous_keys :
  ~ (forall (E : Engine) (harvest_terminology : list Term.t)
       (harvest_objects : list HarvestObject.t)
       (o : HarvestObject.t) (r : TransformRow.t),
        In o harvest_objects ->
        In r (objects_transform E harvest_terminology harvest_objects) ->
        TransformRow.object_id r = HarvestObject.object_id o ->
        List.length (TransformRow.classifications r)
        = List.length (HarvestObject.classification_ids o)
        /\ List.length (TransformRow.constituents r)
           = List.length (HarvestObject.constituents o)).
Proof.
  intros H.
  destruct (H in_order Sample.ambiguous_terminology [Sample.obj_001]
              Sample.obj_001
              (enrich_row in_order Sample.ambiguous_terminology
                 [Sample.obj_001] Sample.obj_001))
    as [Hc _].
  - left; reflexivity.
  - apply enrich_row_in. left; reflexivity.
  - reflexivity.
  - vm_compute in Hc. discriminate.
Qed.

(** C5 (amended).  A source row has an output row with its [object_id].
    When its [constituents] list is empty, and so is that of every other
    source row that joins on the same [object_id], every output row with
    that [object_id] has [constituents = []]; likewise for
    [classification_ids] and [classifications].  The nested output columns
    are lists: [fill_null([])] has replaced the nulls of the left joins. *)
Theorem empty_list_invariant
    (E : Engine) (harvest_terminology : list Term.t)
    (harvest_objects : list HarvestObject.t) (o : HarvestObject.t) :
  In o harvest_objects ->
  (exists r,
      In r (objects_transform E harvest_terminology harvest_objects)
      /\ TransformRow.object_id r = HarvestObject.object_id o)
  /\ (HarvestObject.constituents o = [] ->
      (forall o',
          In o' harvest_objects ->
          join_key_eq (HarvestObject.object_id o) (HarvestObject.object_id o')
          = true ->
          HarvestObject.constituents o' = []) ->
      forall r,
        In r (objects_transform E harvest_terminology harvest_objects) ->
        TransformRow.object_id r = HarvestObject.object_id o ->
        TransformRow.constituents r = [])
  /\ (HarvestObject.classification_ids o = [] ->
      (forall o',
          In o' harvest_objects ->
          join_key_eq (HarvestObject.object_id o) (HarvestObject.object_id o')
          = true ->
          HarvestObject.classification_ids o' = []) ->
      forall r,
        In r (objects_transform E harvest_terminology harvest_objects) ->
        TransformRow.object_id r = HarvestObject.object_id o ->
        TransformRow.classifications r = []).
Proof.
  intros Ho. split; [| split].
  - exists (enrich_row E harvest_terminology harvest_objects o).
    split; [now apply enrich_row_in | reflexivity].
  - intros _ Hall r Hr Hid.
    apply (row_constituents_empty E harvest_terminology harvest_objects r Hr).
    rewrite Hid. exact Hall.
  - intros _ Hall r Hr Hid.
    apply (row_classifications_empty E harvest_terminology harvest_objects r Hr).
    rewrite Hid. exact Hall.
Qed.

Lemma empty_list_invariant_witness :
  In Sample.obj_003 Sample.objects
  /\ HarvestObject.constituents Sample.obj_003 = []
  /\ forall r,
      In r (objects_transform in_order Sample.terminology Sample.objects) ->
      TransformRow.object_id r = Some "OBJ-003" ->
      TransformRow.constituents r = [].
Proof.
  assert (Hin : In Sample.obj_003 Sample.objects)
    by (right; left; reflexivity).
  split; [exact Hin |]. split; [reflexivity |].
  apply (proj1 (proj2 (empty_list_invariant in_order Sample.terminology
                         Sample.objects Sample.obj_003 Hin)));
    [reflexivity |].
  intros o' [<- | [<- | [<- | []]]]; cbn; intros H;
    (reflexivity || discriminate).
Defined.

(** C5 (as stated) fails: when two source rows carry the id [OBJ-003], one
    with no constituent and one with a constituent, both output rows have
    the constituent. *)
Lemma empty_list_invariant_fails_on_shared_object_id :
  ~ (forall (E : Engine) (harvest_terminology : list Term.t)
       (harvest_objects : list HarvestObject.t)
       (o : HarvestObject.t) (r : TransformRow.t),
        In o harvest_objects ->
        HarvestObject.constituents o = [] ->
        In r (objects_transform E harvest_terminology harvest_objects) ->
        TransformRow.object_id r = HarvestObject.object_id o ->
        TransformRow.constituents r = []).
Proof.
  intros H.
  assert (Hr : In (enrich_row in_order Sample.terminology
                     [Sample.obj_003; Sample.obj_003_bis] Sample.obj_003)
                 (objects_transform in_order Sample.terminology
                    [Sample.obj_003; Sample.obj_003_bis])).
  { apply enrich_row_in. left; reflexivity. }
  specialize (H in_order Sample.terminology
                [Sample.obj_003; Sample.obj_003_bis] Sample.obj_003 _
                (or_introl eq_refl) eq_refl Hr eq_refl).
  vm_compute in H. discriminate.
Qed.

(** C9 (amended).  The [object_id] values of the transform output are those
    of the harvested objects, one output row per source row, in some order;
    when the engine emits the rows of the two assembling joins (plan nodes
    6 and 7) in left-row order, the sequence is that of the harvested
    objects. *)
Theorem output_object_ids
    (E : Engine) (harvest_terminology : list Term.t)
    (harvest_objects : list HarvestObject.t) :
  Permutation
    (map TransformRow.object_id
       (objects_transform E harvest_terminology harvest_objects))
    (map HarvestObject.object_id harvest_objects)
  /\ (keeps_order E 6 -> keeps_order E 7 ->
      map TransformRow.object_id
        (objects_transform E harvest_terminology harvest_objects)
      = map HarvestObject.object_id harvest_objects).
Proof.
  split.
  - etransitivity.
    + apply Permutation_map, objects_transform_perm.
    + rewrite map_map. apply Permutation_refl.
  - intros H6 H7. rewrite objects_transform_ordered by assumption.
    rewrite map_map. reflexivity.
Qed.

Lemma output_object_ids_witness :
  keeps_order (last_first_at 3) 6
  /\ keeps_order (last_first_at 3) 7
  /\ map TransformRow.object_id
       (objects_transform (last_first_at 3) Sample.terminology Sample.objects)
     = [Some "OBJ-001"; Some "OBJ-003"; Some "OBJ-005"].
Proof.
  assert (H6 : keeps_order (last_first_at 3) 6) by (intros A l; reflexivity).
  assert (H7 : keeps_order (last_first_at 3) 7) by (intros A l; reflexivity).
  split; [exact H6 |]. split; [exact H7 |].
  exact (proj2 (output_object_ids (last_first_at 3) Sample.terminology
                  Sample.objects) H6 H7).
Defined.

(** C9 (as stated) fails: the source calls [join] without [maintain_order],
    and an engine that emits the rows of the last join last-first returns
    the objects in the opposite order. *)
Lemma output_order_is_the_engine_s :
  ~ (forall (E : Engine) (harvest_terminology : list Term.t)
       (harvest_objects : list HarvestObject.t),
        map TransformRow.object_id
          (objects_transform E harvest_terminology harvest_objects)
        = map HarvestObject.object_id harvest_objects).
Proof.
  intros H.
  specialize (H (last_first_at 7) Sample.terminology Sample.objects).
  vm_compute in H. discriminate.
Qed.

(** C10.  Nationalities are resolved against the terminology rows of type
    ["nationality"] only.  Every constituent of an output row comes from a
    constituent of a source row with the same [object_id], with its [name],
    [role] and [birth_year], and its [nationality] is the label of a
    terminology row of type ["nationality"] whose [term_id] is the
    element's [nationality_id], or null when there is no such row; and
    every constituent of a source row with a non-null [object_id] has such
    an element in an output row with that [object_id]. *)
Theorem nationality_resolution
    (E : Engine) (harvest_terminology : list Term.t)
    (harvest_objects : list HarvestObject.t) :
  (forall r c,
      In r (objects_transform E harvest_terminology harvest_objects) ->
      In c (TransformRow.constituents r) ->
      exists o e,
        In o harvest_objects
        /\ HarvestObject.object_id o = TransformRow.object_id r
        /\ In e (HarvestObject.constituents o)
        /\ EnrichedConstituent.name c = Constituent.name e
        /\ EnrichedConstituent.role c = Constituent.role e
        /\ EnrichedConstituent.birth_year c = Constituent.birth_year e
        /\ nationality_resolved harvest_terminology e c)
  /\ (forall o e x,
         In o harvest_objects ->
         HarvestObject.object_id o = Some x ->
         In e (HarvestObject.constituents o) ->
         exists r c,
           In r (objects_transform E harvest_terminology harvest_objects)
           /\ TransformRow.object_id r = Some x
           /\ In c (TransformRow.constituents r)
           /\ EnrichedConstituent.name c = Constituent.name e
           /\ EnrichedConstituent.role c = Constituent.role e
           /\ EnrichedConstituent.birth_year c = Constituent.birth_year e
           /\ nationality_resolved harvest_terminology e c).
Proof.
  split.
  - intros r c Hr Hc.
    destruct (row_nested_columns E harvest_terminology harvest_objects r Hr)
      as [_ Hk].
    apply (Permutation_in _ Hk) in Hc.
    apply in_flat_map in Hc as (o & Ho & Hc).
    destruct (join_key_eq _ _) eqn:Hj; [| destruct Hc].
    apply join_key_eq_true in Hj as (x & Hrx & Hox).
    apply in_flat_map in Hc as (e & He & Hc).
    apply enrich_constituent_resolved in Hc as (Hn & Hro & Hb & Hres).
    exists o, e. repeat split; auto. congruence.
  - intros o e x Ho Hx He.
    destruct (enrich_constituent_nonempty harvest_terminology e) as (c & Hc).
    set (r := enrich_row E harvest_terminology harvest_objects o).
    assert (Hr : In r (objects_transform E harvest_terminology harvest_objects))
      by now apply enrich_row_in.
    exists r, c.
    destruct (row_nested_columns E harvest_terminology harvest_objects r Hr)
      as [_ Hk].
    destruct (enrich_constituent_resolved harvest_terminology e c Hc)
      as (Hn & Hro & Hb & Hres).
    repeat split; auto.
    apply (Permutation_in _ (Permutation_sym Hk)).
    apply in_flat_map. exists o. split; [exact Ho |].
    subst r. cbn [enrich_row TransformRow.object_id].
    rewrite Hx, join_key_eq_refl.
    apply in_flat_map. now exists e.
Qed.

Lemma nationality_resolution_witness :
  exists r c,
    In r (objects_transform in_order Sample.shared_id_terminology
            Sample.objects)
    /\ TransformRow.object_id r = Some "OBJ-001"
    /\ In c (TransformRow.constituents r)
    /\ EnrichedConstituent.name c = Some "Rembrandt"
    /\ nationality_resolved Sample.shared_id_terminology
         (Constituent.mk (Some "Rembrandt") (Some "artist") (Some 1606%Z)
            (Some "NAT-1"))
         c.
Proof.
  destruct (proj2 (nationality_resolution in_order
                     Sample.shared_id_terminology Sample.objects)
              Sample.obj_001
              (Constituent.mk (Some "Rembrandt") (Some "artist")
                 (Some 1606%Z) (Some "NAT-1"))
              "OBJ-001"
              (or_introl eq_refl) eq_refl (or_introl eq_refl))
    as (r & c & Hr & Hid & Hc & Hn & _ & _ & Hres).
  exists r, c. auto.
Defined.

(** The id [NAT-1] is shared with a row of type ["medium"]; the constituent
    of [OBJ-001] is Dutch all the same, and not bronze. *)
Example nationality_ignores_other_term_types :
  map (fun r => map EnrichedConstituent.nationality (TransformRow.constituents r))
    (objects_transform in_order Sample.shared_id_terminology [Sample.obj_001])
  = [[Some "Dutch"]].
Proof. vm_compute. reflexivity. Qed.

(* ===================================================================== *)
(** * Properties of the evaluator *)
(* ===================================================================== *)

Section TraverseFacts.

Context {A B : Type}.

Lemma traverse_all_ok (f : A -> result B) (h : A -> B) (l : list A) :
  (forall x, In x l -> f x = Ok (h x)) -> traverse f l = Ok (map h l).
Proof.
  induction l as [| x l IH]; intros H; [reflexivity |].
  cbn [traverse map]. rewrite (H x (or_introl eq_refl)). cbn [bind].
  rewrite IH; [reflexivity |]. intros y Hy. apply H. now right.
Qed.

Lemma traverse_map {C : Type} (g : C -> A) (f : A -> result B) (l : list C) :
  traverse f (map g l) = traverse (fun x => f (g x)) l.
Proof.
  induction l as [| x l IH]; [reflexivity |].
  cbn [traverse map]. now rewrite IH.
Qed.

Lemma traverse_ok_nth (f : A -> result B) (l : list A) (ys : list B)
    (i : nat) (x : A) :
  traverse f l = Ok ys -> nth_error l i = Some x ->
  exists y, f x = Ok y /\ nth_error ys i = Some y.
Proof.
  revert ys i. induction l as [| a l IH]; intros ys i; cbn [traverse].
  - intros _ H. destruct i; discriminate.
  - destruct (f a) as [y | e] eqn:Hfa; cbn [bind]; [| discriminate].
    destruct (traverse f l) as [ys' | e]; cbn [bind]; [| discriminate].
    intros H Hn. inversion H; subst ys.
    destruct i as [| i]; cbn [nth_error] in *.
    + inversion Hn; subst. now exists y.
    + now apply IH.
Qed.

End TraverseFacts.

Section EnumerateFacts.

Context {A : Type}.

Lemma in_combine_seq (s : nat) (l : list A) (i : nat) (x : A) :
  In (i, x) (combine (seq s (List.length l)) l)
  <-> s <= i /\ nth_error l (i - s) = Some x.
Proof.
  revert s. induction l as [| a l IH]; intros s; cbn [List.length seq combine].
  - split; [intros [] | intros [_ H]]. destruct (i - s); discriminate.
  - cbn [In]. rewrite IH. split.
    + intros [H | [Hs Hn]].
      * inversion H; subst. split; [lia |].
        now rewrite Nat.sub_diag.
      * split; [lia |].
        replace (i - s) with (S (i - S s)) by lia. exact Hn.
    + intros [Hs Hn].
      destruct (Nat.eq_dec i s) as [-> | Hne].
      * left. rewrite Nat.sub_diag in Hn. cbn in Hn. congruence.
      * right. split; [lia |].
        replace (i - s) with (S (i - S s)) in Hn by lia. exact Hn.
Qed.

Lemma in_enumerate (l : list A) (i : nat) (x : A) :
  In (i, x) (enumerate l) <-> nth_error l i = Some x.
Proof.
  unfold enumerate. rewrite in_combine_seq, Nat.sub_0_r.
  split; [now intros [_ H] | intros H; split; [lia | exact H]].
Qed.

Lemma nth_error_combine {B : Type} (l : list A) (l' : list B) (i : nat)
    (x : A) (y : B) :
  nth_error (combine l l') i = Some (x, y)
  <-> nth_error l i = Some x /\ nth_error l' i = Some y.
Proof.
  revert l' i. induction l as [| a l IH]; intros l' i.
  - cbn. split; [destruct i; discriminate | intros [H _]].
    destruct i; discriminate.
  - destruct l' as [| b l'].
    + cbn. split; [destruct i; discriminate | intros [_ H]].
      destruct i; discriminate.
    + destruct i as [| i]; cbn [combine nth_error].
      * split; [intros H; inversion H; auto | intros [H1 H2]; congruence].
      * apply IH.
Qed.

End EnumerateFacts.

Section NumberFacts.

Lemma Qle_bool_inject_Z (a b : Z) :
  Qle_bool (inject_Z a) (inject_Z b) = (a <=? b)%Z.
Proof. unfold Qle_bool. cbn. now rewrite !Z.mul_1_r. Qed.

Lemma Qlt_bool_inject_Z (a b : Z) :
  Qlt_bool (inject_Z a) (inject_Z b) = (a <? b)%Z.
Proof.
  unfold Qlt_bool. rewrite Qle_bool_inject_Z.
  now rewrite Z.ltb_antisym.
Qed.

Lemma Qlt_bool_false (a b : Q) : Qlt_bool a b = false <-> (b <= a)%Q.
Proof.
  unfold Qlt_bool. rewrite negb_false_iff. apply Qle_bool_iff.
Qed.

Lemma Qmin_list_le_head (x : Q) (xs : list Q) : (Qmin_list x xs <= x)%Q.
Proof.
  unfold Qmin_list. revert x.
  induction xs as [| y ys IH]; intros x; cbn [fold_left]; [apply Qle_refl |].
  destruct (Qle_bool y x) eqn:Hyx.
  - eapply Qle_trans; [apply IH |]. now apply Qle_bool_iff.
  - apply IH.
Qed.

Lemma Qmin_list_in (x : Q) (xs : list Q) : In (Qmin_list x xs) (x :: xs).
Proof.
  unfold Qmin_list. revert x.
  induction xs as [| y ys IH]; intros x; cbn [fold_left]; [now left |].
  destruct (Qle_bool y x).
  - destruct (IH y) as [H | H]; [right; left; exact H | right; right; exact H].
  - destruct (IH x) as [H | H]; [left; exact H | right; right; exact H].
Qed.

Lemma Qmin_list_le (x : Q) (xs : list Q) (y : Q) :
  In y (x :: xs) -> (Qmin_list x xs <= y)%Q.
Proof.
  unfold Qmin_list. revert x.
  induction xs as [| z zs IH]; intros x; cbn [fold_left].
  - intros [<- | []]. apply Qle_refl.
  - intros Hy. destruct (Qle_bool z x) eqn:Hzx.
    + destruct Hy as [Hy | [Hy | Hy]].
      * rewrite <- Hy.
        eapply Qle_trans; [apply (Qmin_list_le_head z zs) |].
        now apply Qle_bool_iff.
      * rewrite <- Hy. apply (Qmin_list_le_head z zs).
      * apply IH. now right.
    + destruct Hy as [Hy | [Hy | Hy]].
      * rewrite <- Hy. apply (Qmin_list_le_head x zs).
      * rewrite <- Hy.
        eapply Qle_trans; [apply (Qmin_list_le_head x zs) |].
        apply Qlt_le_weak. apply Qnot_le_lt. intros Hle.
        apply Qle_bool_iff in Hle. congruence.
      * apply IH. now right.
Qed.

(** The least element is at most [b] exactly when some element is. *)
Lemma Qmin_list_le_iff (x : Q) (xs : list Q) (b : Q) :
  (Qmin_list x xs <= b)%Q <-> exists y, In y (x :: xs) /\ (y <= b)%Q.
Proof.
  split.
  - intros H. exists (Qmin_list x xs). split; [apply Qmin_list_in | exact H].
  - intros (y & Hy & Hle).
    apply Qle_trans with y; [apply Qmin_list_le; exact Hy | exact Hle].
Qed.

End NumberFacts.

Section TypeSoundness.

Lemma has_dtype_null (t : dtype) : has_dtype VNull t = true.
Proof. destruct t; reflexivity. Qed.

Lemma has_dtype_struct_lookup (fs : list (string * value))
    (ts : list (string * dtype)) (f : string) (t : dtype) :
  has_dtype (VStruct fs) (Struct ts) = true ->
  lookup_dtype f ts = Some t ->
  exists x, lookup_field f fs = Some x /\ has_dtype x t = true.
Proof.
  revert ts. induction fs as [| [n x] fs IH]; intros [| [m t'] ts];
    cbn; try discriminate.
  intros H Hl. apply andb_prop in H as [H Hrest].
  apply andb_prop in H as [Hnm Hx]. apply String.eqb_eq in Hnm. subst m.
  destruct (String.eqb f n).
  - inversion Hl; subst. now exists x.
  - apply (IH ts); assumption.
Qed.

Lemma drop_nulls_typed (t : dtype) (l : list value) :
  forallb (fun x => has_dtype x t) l = true ->
  Forall (fun x => has_dtype x t = true /\ is_null x = false) (drop_nulls l).
Proof.
  unfold drop_nulls. intros H. apply Forall_forall. intros x Hx.
  apply filter_In in Hx as [Hx Hn].
  split; [| now apply negb_true_iff].
  rewrite forallb_forall in H. now apply H.
Qed.

Lemma traverse_forall {A B : Type} (f : A -> result B) (l : list A) :
  Forall (fun x => exists y, f x = Ok y) l -> exists ys, traverse f l = Ok ys.
Proof.
  induction 1 as [| x l (y & Hy) _ (ys & Hys)]; cbn [traverse].
  - now exists [].
  - rewrite Hy, Hys. cbn [bind]. now exists (y :: ys).
Qed.

Lemma traverse_as_bool (l : list value) :
  forallb (fun x => has_dtype x Boolean) l = true ->
  exists bs, traverse as_bool (drop_nulls l) = Ok bs.
Proof.
  intros H. apply traverse_forall.
  eapply Forall_impl; [| apply (drop_nulls_typed _ _ H)].
  intros x [Ht Hn]. destruct x; try discriminate. now eexists.
Qed.

Lemma list_extremum_typed (zagg : Z -> list Z -> Z) (qagg : Q -> list Q -> Q)
    (t : dtype) (l : list value) :
  is_numeric t = true ->
  forallb (fun x => has_dtype x t) l = true ->
  exists v, list_extremum zagg qagg l = Ok v /\ has_dtype v t = true.
Proof.
  intros Hnum H. unfold list_extremum.
  pose proof (drop_nulls_typed _ _ H) as Hall.
  destruct (drop_nulls l) as [| x rest].
  - exists VNull. split; [reflexivity | apply has_dtype_null].
  - inversion Hall as [| ? ? [Hx Hxn] Hrest]; subst.
    destruct t; try discriminate.
    + destruct x; try discriminate.
      destruct (traverse_forall as_int rest) as (zs & ->).
      { eapply Forall_impl; [| exact Hrest].
        intros y [Hy Hyn]. destruct y; try discriminate. now eexists. }
      cbn [bind]. now eexists.
    + destruct x; try discriminate.
      destruct (traverse_forall as_float rest) as (qs & ->).
      { eapply Forall_impl; [| exact Hrest].
        intros y [Hy Hyn]. destruct y; try discriminate. now eexists. }
      cbn [bind]. now eexists.
Qed.

Lemma compare_numbers_typed (op : Q -> Q -> bool) (x y : value)
    (ta tb : dtype) :
  is_numeric ta && is_numeric tb = true ->
  has_dtype x ta = true -> has_dtype y tb = true ->
  exists v, compare_numbers op x y = Ok v /\ has_dtype v Boolean = true.
Proof.
  intros Hn Hx Hy. apply andb_prop in Hn as [Ha Hb].
  destruct ta; try discriminate; destruct tb; try discriminate;
    destruct x; try discriminate; destruct y; try discriminate;
    cbn; eexists; split; reflexivity.
Qed.

Variable cols : list (string * dtype).
Variable row : list (string * value).
Hypothesis row_ok : row_has_schema row cols.

(** A well-typed expression does not raise on a row of the schema, and its
    value has the inferred type. *)
Lemma eval_sound (e : expr) :
  forall (et : option dtype) (elem : option value) (t : dtype),
    elem_has_dtype elem et ->
    infer cols et e = Some t ->
    exists v, eval row elem e = Ok v /\ has_dtype v t = true.
Proof.
  induction e; intros et elem t Helem Hinf; cbn [infer eval] in *.
  - (* Col *)
    destruct (row_ok _ _ Hinf) as (v & -> & Hv). now exists v.
  - (* Element *)
    destruct (Helem _ Hinf) as (v & -> & Hv). now exists v.
  - inversion Hinf; subst. now eexists.
  - inversion Hinf; subst. now eexists.
  - (* ListLen *)
    destruct (infer cols et e) as [[] |] eqn:He; try discriminate.
    inversion Hinf; subst.
    destruct (IHe _ _ _ Helem He) as (v & -> & Hv). cbn [bind].
    destruct v; try discriminate; cbn; now eexists.
  - (* ListEval *)
    destruct (infer cols et e1) as [[] |] eqn:He1; try discriminate.
    destruct (infer cols (Some inner) e2) as [t2 |] eqn:He2; try discriminate.
    inversion Hinf; subst.
    destruct (IHe1 _ _ _ Helem He1) as (v & -> & Hv). cbn [bind].
    destruct v; try discriminate; cbn [on_list].
    + exists VNull. split; reflexivity.
    + cbn [has_dtype] in Hv.
      assert (Hvs : exists vs,
                 traverse (fun x => eval row (Some x) e2) l = Ok vs
                 /\ forallb (fun x => has_dtype x t2) vs = true).
      { induction l as [| x l IHl]; cbn [traverse].
        - now exists [].
        - cbn [forallb] in Hv. apply andb_prop in Hv as [Hx Hl].
          destruct (IHe2 (Some inner) (Some x) t2) as (y & -> & Hy).
          { intros t' Ht'. inversion Ht'; subst. now exists x. }
          { exact He2. }
          destruct (IHl Hl) as (ys & -> & Hys). cbn [bind].
          exists (y :: ys). split; [reflexivity |].
          cbn [forallb]. now rewrite Hy, Hys. }
      destruct Hvs as (vs & -> & Hvs). cbn [bind].
      exists (VList vs). split; [reflexivity | exact Hvs].
  - (* ListMin *)
    destruct (infer cols et e) as [[| | | | [] |] |] eqn:He; try discriminate;
      inversion Hinf; subst;
      destruct (IHe _ _ _ Helem He) as (v & -> & Hv); cbn [bind];
      (destruct v; try discriminate; cbn [on_list];
       [ exists VNull; split; reflexivity
       | now apply list_extremum_typed ]).
  - (* ListMax *)
    destruct (infer cols et e) as [[| | | | [] |] |] eqn:He; try discriminate;
      inversion Hinf; subst;
      destruct (IHe _ _ _ Helem He) as (v & -> & Hv); cbn [bind];
      (destruct v; try discriminate; cbn [on_list];
       [ exists VNull; split; reflexivity
       | now apply list_extremum_typed ]).
  - (* ListAny *)
    destruct (infer cols et e) as [[| | | | [] |] |] eqn:He; try discriminate.
    inversion Hinf; subst.
    destruct (IHe _ _ _ Helem He) as (v & -> & Hv). cbn [bind].
    destruct v; try discriminate; cbn [on_list].
    + exists VNull. split; reflexivity.
    + destruct (traverse_as_bool l Hv) as (bs & ->). cbn [bind]. now eexists.
  - (* ListAll *)
    destruct (infer cols et e) as [[| | | | [] |] |] eqn:He; try discriminate.
    inversion Hinf; subst.
    destruct (IHe _ _ _ Helem He) as (v & -> & Hv). cbn [bind].
    destruct v; try discriminate; cbn [on_list].
    + exists VNull. split; reflexivity.
    + destruct (traverse_as_bool l Hv) as (bs & ->). cbn [bind]. now eexists.
  - (* ListSum *)
    destruct (infer cols et e) as [[| | | | [] |] |] eqn:He; try discriminate.
    inversion Hinf; subst.
    destruct (IHe _ _ _ Helem He) as (v & -> & Hv). cbn [bind].
    destruct v; try discriminate; cbn [on_list].
    + exists VNull. split; reflexivity.
    + destruct (traverse_as_bool l Hv) as (bs & ->). cbn [bind]. now eexists.
  - (* StructField *)
    destruct (infer cols et e) as [[] |] eqn:He; try discriminate.
    destruct (IHe _ _ _ Helem He) as (v & -> & Hv). cbn [bind].
    destruct v; try discriminate.
    + exists VNull. split; [reflexivity | apply has_dtype_null].
    + destruct (has_dtype_struct_lookup _ _ _ _ Hv Hinf) as (x & -> & Hx).
      now exists x.
  - (* StrStartsWith *)
    destruct (infer cols et e) as [[] |] eqn:He; try discriminate.
    inversion Hinf; subst.
    destruct (IHe _ _ _ Helem He) as (v & -> & Hv). cbn [bind].
    destruct v; try discriminate; now eexists.
  - (* StrLenChars *)
    destruct (infer cols et e) as [[] |] eqn:He; try discriminate.
    inversion Hinf; subst.
    destruct (IHe _ _ _ Helem He) as (v & -> & Hv). cbn [bind].
    destruct v; try discriminate; now eexists.
  - (* IsNotNull *)
    destruct (infer cols et e) as [t0 |] eqn:He; try discriminate.
    inversion Hinf; subst.
    destruct (IHe _ _ _ Helem He) as (v & -> & Hv). cbn [bind].
    now eexists.
  - (* Equal *)
    destruct (infer cols et e1) as [ta |] eqn:He1; try discriminate.
    destruct (infer cols et e2) as [tb |] eqn:He2;
      [| destruct ta; discriminate].
    destruct (IHe1 _ _ _ Helem He1) as (x & -> & Hx).
    destruct (IHe2 _ _ _ Helem He2) as (y & -> & Hy). cbn [bind].
    destruct ta; destruct tb; try discriminate; inversion Hinf; subst;
      destruct x; try discriminate; destruct y; try discriminate;
      cbn; eexists; split; reflexivity.
  - (* GreaterThan *)
    destruct (infer cols et e1) as [ta |] eqn:He1; try discriminate.
    destruct (infer cols et e2) as [tb |] eqn:He2; try discriminate.
    destruct (is_numeric ta && is_numeric tb) eqn:Hn; try discriminate.
    inversion Hinf; subst.
    destruct (IHe1 _ _ _ Helem He1) as (x & -> & Hx).
    destruct (IHe2 _ _ _ Helem He2) as (y & -> & Hy). cbn [bind].
    eapply compare_numbers_typed; eassumption.
  - (* LessThan *)
    destruct (infer cols et e1) as [ta |] eqn:He1; try discriminate.
    destruct (infer cols et e2) as [tb |] eqn:He2; try discriminate.
    destruct (is_numeric ta && is_numeric tb) eqn:Hn; try discriminate.
    inversion Hinf; subst.
    destruct (IHe1 _ _ _ Helem He1) as (x & -> & Hx).
    destruct (IHe2 _ _ _ Helem He2) as (y & -> & Hy). cbn [bind].
    eapply compare_numbers_typed; eassumption.
  - (* LessEq *)
    destruct (infer cols et e1) as [ta |] eqn:He1; try discriminate.
    destruct (infer cols et e2) as [tb |] eqn:He2; try discriminate.
    destruct (is_numeric ta && is_numeric tb) eqn:Hn; try discriminate.
    inversion Hinf; subst.
    destruct (IHe1 _ _ _ Helem He1) as (x & -> & Hx).
    destruct (IHe2 _ _ _ Helem He2) as (y & -> & Hy). cbn [bind].
    eapply compare_numbers_typed; eassumption.
  - (* Not *)
    destruct (infer cols et e) as [[] |] eqn:He; try discriminate.
    inversion Hinf; subst.
    destruct (IHe _ _ _ Helem He) as (v & -> & Hv). cbn [bind].
    destruct v; try discriminate; now eexists.
  - (* Or *)
    destruct (infer cols et e1) as [[] |] eqn:He1; try discriminate.
    destruct (infer cols et e2) as [[] |] eqn:He2; try discriminate.
    inversion Hinf; subst.
    destruct (IHe1 _ _ _ Helem He1) as (x & -> & Hx).
    destruct (IHe2 _ _ _ Helem He2) as (y & -> & Hy). cbn [bind].
    destruct x as [| [] | | | | |]; try discriminate;
      destruct y as [| [] | | | | |]; try discriminate;
      cbn; eexists; split; reflexivity.
  - (* And *)
    destruct (infer cols et e1) as [[] |] eqn:He1; try discriminate.
    destruct (infer cols et e2) as [[] |] eqn:He2; try discriminate.
    inversion Hinf; subst.
    destruct (IHe1 _ _ _ Helem He1) as (x & -> & Hx).
    destruct (IHe2 _ _ _ Helem He2) as (y & -> & Hy). cbn [bind].
    destruct x as [| [] | | | | |]; try discriminate;
      destruct y as [| [] | | | | |]; try discriminate;
      cbn; eexists; split; reflexivity.
Qed.

End TypeSoundness.

Section TransformFrameTyped.

Lemma has_dtype_of_key (k : key) : has_dtype (of_key k) Utf8 = true.
Proof. destruct k; reflexivity. Qed.

Lemma has_dtype_of_int (z : option Z) : has_dtype (of_int z) Int64 = true.
Proof. destruct z; reflexivity. Qed.

Lemma has_dtype_list_map {A : Type} (f : A -> value) (t : dtype)
    (l : list A) :
  (forall x, has_dtype (f x) t = true) ->
  has_dtype (VList (map f l)) (List_ t) = true.
Proof.
  intros H. cbn [has_dtype]. apply forallb_forall.
  intros v Hv. apply in_map_iff in Hv as (x & <- & _). apply H.
Qed.

Lemma dimension_value_typed (d : Dimension.t) :
  has_dtype (dimension_value d)
    (Struct [("type", Utf8); ("value", Float64); ("unit", Utf8)]) = true.
Proof.
  destruct d as [[t |] v [u |]]; reflexivity.
Qed.

Lemma media_value_typed (m : Media.t) :
  has_dtype (media_value m)
    (Struct [("type", Utf8); ("url", Utf8); ("caption", Utf8)]) = true.
Proof.
  destruct m as [[t |] [u |] [c |]]; reflexivity.
Qed.

Lemma classification_value_typed (c : Classification.t) :
  has_dtype (classification_value c)
    (Struct [("type_label", Utf8); ("term_label", Utf8)]) = true.
Proof.
  destruct c as [[t |] [u |]]; reflexivity.
Qed.

Lemma constituent_value_typed (c : EnrichedConstituent.t) :
  has_dtype (constituent_value c)
    (Struct
       [("name", Utf8); ("role", Utf8); ("birth_year", Int64);
        ("nationality", Utf8)]) = true.
Proof.
  destruct c as [[n |] [r |] [b |] [a |]]; reflexivity.
Qed.

(** Every row of the transform output has the transform schema. *)
Lemma row_value_typed (r : TransformRow.t) :
  row_has_schema (row_value r) transform_schema.
Proof.
  intros name t H. unfold transform_schema in H. cbn [lookup_dtype] in H.
  repeat
    match type of H with
    | context [String.eqb name ?s] =>
        destruct (String.eqb_spec name s) as [-> | _];
        [ inversion H; subst; eexists; split; [reflexivity |] |]
    end;
    try discriminate.
  - apply has_dtype_of_key.
  - apply has_dtype_of_key.
  - apply has_dtype_of_int.
  - apply has_dtype_of_key.
  - apply has_dtype_of_key.
  - apply has_dtype_list_map, dimension_value_typed.
  - apply has_dtype_list_map, media_value_typed.
  - apply has_dtype_list_map, classification_value_typed.
  - apply has_dtype_list_map, constituent_value_typed.
Qed.

(** A Boolean expression over the transform schema gives a nullable
    boolean on every row. *)
Lemma eval_boolean (e : expr) (r : TransformRow.t) :
  infer transform_schema None e = Some Boolean ->
  eval (row_value r) None e = Ok VNull
  \/ exists b, eval (row_value r) None e = Ok (VBool b).
Proof.
  intros H.
  destruct (eval_sound transform_schema (row_value r) (row_value_typed r)
              e None None Boolean) as (v & Hv & Ht).
  - intros t Ht. discriminate.
  - exact H.
  - destruct v; try discriminate; [left | right; eexists]; exact Hv.
Qed.

Lemma checks_typed (c : Check) :
  In c ObjectTransformSchema.checks ->
  infer transform_schema None (check_expr c) = Some Boolean.
Proof.
  intros H. cbn in H.
  repeat (destruct H as [<- | H]; [reflexivity |]). destruct H.
Qed.

(** No declared check raises, on any row. *)
Lemma check_output_total (c : Check) (r : TransformRow.t) :
  In c ObjectTransformSchema.checks ->
  exists o, check_output c r = Ok o.
Proof.
  intros Hc. unfold check_output.
  destruct (eval_boolean (check_expr c) r (checks_typed c Hc))
    as [-> | (b & ->)]; cbn [bind]; now eexists.
Qed.

Lemma filter_rows_total (e : expr) (rows : list TransformRow.t) :
  infer transform_schema None e = Some Boolean ->
  exists kept, filter_rows e rows = Ok kept.
Proof.
  intros H. unfold filter_rows.
  destruct (traverse_forall
              (fun r =>
                 v <- eval (row_value r) None e ;;
                 match v with
                 | VBool b => Ok b
                 | VNull => Ok false
                 | _ => Raise InvalidOperationError
                 end) rows) as (keep & ->).
  - apply Forall_forall. intros r _.
    destruct (eval_boolean e r H) as [-> | (b & ->)]; cbn [bind]; now eexists.
  - cbn [bind]. now eexists.
Qed.

End TransformFrameTyped.

(* ===================================================================== *)
(** * Properties of the validation *)
(* ===================================================================== *)

Lemma substring_length_le (n : nat) (s : string) :
  String.length (substring 0 n s) <= n.
Proof.
  revert s. induction n as [| n IH]; intros s.
  - destruct s; cbn; lia.
  - destruct s as [| c s]; cbn [substring String.length]; [lia |].
    specialize (IH s). lia.
Qed.

Section ValidationFacts.

Variable json_encode : TransformRow.t -> string.

Let schema_name := Some ObjectTransformSchema.name.

(** The failure case Pandera builds for the row [r], at index [i], that
    fails the check [c]. *)
Let failure_of (c : Check) (i : nat) (r : TransformRow.t) : FailureCase.t :=
  FailureCase.mk schema_name (Some (check_name c)) (Some (json_encode r))
    (Some i).

Lemma check_outputs_total (c : Check) (rows : list TransformRow.t) :
  In c ObjectTransformSchema.checks ->
  exists outputs, traverse (check_output c) rows = Ok outputs.
Proof.
  intros Hc. apply traverse_forall, Forall_forall.
  intros r _. now apply check_output_total.
Qed.

Lemma in_check_failure_cases (c : Check) (rows : list TransformRow.t)
    (fc : FailureCase.t) :
  In c ObjectTransformSchema.checks ->
  In fc (check_failure_cases json_encode c rows) <->
  exists i r,
    nth_error rows i = Some r
    /\ check_output c r = Ok (Some false)
    /\ fc = failure_of c i r.
Proof.
  intros Hc. unfold check_failure_cases.
  destruct (check_outputs_total c rows Hc) as (outputs & Hout).
  rewrite Hout. rewrite in_flat_map. split.
  - intros ([i [r o]] & Hin & Hfc). cbn [fst snd] in Hfc.
    apply in_enumerate, nth_error_combine in Hin as [Hr Ho].
    destruct (traverse_ok_nth _ _ _ _ _ Hout Hr) as (o' & Hcheck & Ho').
    assert (o' = o) by congruence. subst o'.
    destruct o as [[] |]; try contradiction.
    destruct Hfc as [<- | []]. now exists i, r.
  - intros (i & r & Hr & Hcheck & ->).
    destruct (traverse_ok_nth _ _ _ _ _ Hout Hr) as (o & Hcheck' & Ho).
    assert (o = Some false) by congruence. subst o.
    exists (i, (r, Some false)). split.
    + apply in_enumerate, nth_error_combine. now split.
    + cbn [fst snd]. left. reflexivity.
Qed.

Lemma in_validate_check_case (c : Check) (rows : list TransformRow.t)
    (fc : FailureCase.t) :
  In c ObjectTransformSchema.checks ->
  In fc (check_failure_cases json_encode c rows) ->
  In fc (validate json_encode rows).
Proof.
  intros Hc Hfc. unfold validate. apply in_or_app. right.
  apply in_flat_map. now exists c.
Qed.

Lemma in_validate_field_case (f : Field) (rows : list TransformRow.t)
    (fc : FailureCase.t) :
  In f ObjectTransformSchema.fields ->
  In fc (field_failure_cases f rows) ->
  In fc (validate json_encode rows).
Proof.
  intros Hf Hfc. unfold validate. apply in_or_app. left.
  apply in_flat_map. now exists f.
Qed.

(** The verdict and the report, from Pandera's failure cases. *)
Lemma check_objects_transform_report (rows : list TransformRow.t) :
  snd (check_objects_transform json_encode rows)
  = map error_record (validate json_encode rows)
  /\ (fst (check_objects_transform json_encode rows) = true
      <-> validate json_encode rows = []).
Proof.
  unfold check_objects_transform.
  destruct (validate json_encode rows) as [| fc fcs]; cbn [fst snd map].
  - split; [reflexivity | tauto].
  - split; [reflexivity |]. split; discriminate.
Qed.

Lemma check_objects_transform_failed (rows : list TransformRow.t)
    (fc : FailureCase.t) :
  In fc (validate json_encode rows) ->
  check_objects_transform json_encode rows
  = (false, map error_record (validate json_encode rows)).
Proof.
  unfold check_objects_transform.
  destruct (validate json_encode rows); [intros [] | reflexivity].
Qed.

Lemma error_record_bounded (fc : FailureCase.t) :
  String.length (ErrorRecord.failure_case (error_record fc)) <= 80.
Proof. apply substring_length_le. Qed.

(** A dataframe check that is false on a row of the table is reported:
    the verdict is [False] and the list holds the record of the row. *)
Lemma failing_check_reported (c : Check) (rows : list TransformRow.t)
    (i : nat) (r : TransformRow.t) :
  In c ObjectTransformSchema.checks ->
  nth_error rows i = Some r ->
  check_output c r = Ok (Some false) ->
  exists failures,
    check_objects_transform json_encode rows = (false, failures)
    /\ In (ErrorRecord.mk schema_name (Some (check_name c))
             (substring 0 80 (json_encode r)))
         failures.
Proof.
  intros Hc Hr Hcheck.
  assert (Hfc : In (failure_of c i r) (validate json_encode rows)).
  { apply (in_validate_check_case c); [exact Hc |].
    apply in_check_failure_cases; [exact Hc |]. now exists i, r. }
  rewrite (check_objects_transform_failed rows _ Hfc).
  eexists. split; [reflexivity |].
  apply in_map_iff. exists (failure_of c i r). split; [reflexivity | exact Hfc].
Qed.

End ValidationFacts.

Section CheckSemantics.

Lemma Zltb_0_of_nat (n : nat) : (0 <? Z.of_nat n)%Z = (0 <? n).
Proof. destruct n; reflexivity. Qed.

(** [has_at_least_one_constituent] is the length test. *)
Lemma has_constituents_output (r : TransformRow.t) :
  check_output ObjectTransformSchema.has_constituents r
  = Ok (Some (0 <? List.length (TransformRow.constituents r))).
Proof.
  unfold check_output. cbn.
  now rewrite length_map, Qlt_bool_inject_Z, Zltb_0_of_nat.
Qed.

Lemma drop_nulls_floats {A : Type} (f : A -> Q) (l : list A) :
  drop_nulls (map (fun x => VFloat (f x)) l) = map (fun x => VFloat (f x)) l.
Proof.
  unfold drop_nulls. apply filter_all_true.
  intros v Hv. apply in_map_iff in Hv as (x & <- & _). reflexivity.
Qed.

Lemma eval_least_dimension (r : TransformRow.t) :
  eval (row_value r) None
    (ListMin (ListEval (Col "dimensions") (StructField Element "value")))
  = Ok (least_dimension r).
Proof.
  cbn [eval]. change (lookup_field "dimensions" (row_value r))
    with (Some (VList (map dimension_value (TransformRow.dimensions r)))).
  cbn [bind on_list]. rewrite traverse_map.
  rewrite (traverse_all_ok _ (fun d => VFloat (Dimension.value d)))
    by reflexivity.
  cbn [bind on_list]. unfold list_extremum, least_dimension.
  rewrite drop_nulls_floats.
  destruct (TransformRow.dimensions r) as [| d ds]; [reflexivity |].
  cbn [map]. rewrite traverse_map.
  rewrite (traverse_all_ok _ Dimension.value) by reflexivity.
  reflexivity.
Qed.

(** [all_dimension_values_gt_1]: null without dimensions, else whether the
    least value exceeds 1. *)
Lemma dimension_values_positive_output (r : TransformRow.t) :
  check_output ObjectTransformSchema.dimension_values_positive r
  = Ok match TransformRow.dimensions r with
       | [] => None
       | d :: ds =>
           Some (Qlt_bool 1
                   (Qmin_list (Dimension.value d) (map Dimension.value ds)))
       end.
Proof.
  unfold check_output.
  cbn [check_expr ObjectTransformSchema.dimension_values_positive].
  remember (ListMin (ListEval (Col "dimensions") (StructField Element "value")))
    as least eqn:Hleast.
  cbn [eval]. subst least. rewrite eval_least_dimension.
  unfold least_dimension.
  destruct (TransformRow.dimensions r); reflexivity.
Qed.

(** The check fails exactly on the rows with a dimension of at most 1. *)
Lemma dimension_values_positive_fails (r : TransformRow.t) :
  check_output ObjectTransformSchema.dimension_values_positive r
  = Ok (Some false)
  <-> exists d,
      In d (TransformRow.dimensions r) /\ (Dimension.value d <= 1)%Q.
Proof.
  rewrite dimension_values_positive_output.
  destruct (TransformRow.dimensions r) as [| d ds].
  - split; [discriminate | intros (d & [] & _)].
  - split.
    + intros H. inversion H as [Hlt]. apply Qlt_bool_false in Hlt.
      apply Qmin_list_le_iff in Hlt as (y & Hy & Hle).
      change (Dimension.value d :: map Dimension.value ds)
        with (map Dimension.value (d :: ds)) in Hy.
      apply in_map_iff in Hy as (d' & <- & Hd'). now exists d'.
    + intros (d' & Hd' & Hle). do 2 f_equal.
      apply Qlt_bool_false, Qmin_list_le_iff.
      exists (Dimension.value d'). split; [| exact Hle].
      change (Dimension.value d :: map Dimension.value ds)
        with (map Dimension.value (d :: ds)).
      now apply in_map.
Qed.

(** The guarded checks pass on an empty list. *)
Lemma constituent_names_not_empty_on_empty (r : TransformRow.t) :
  TransformRow.constituents r = [] ->
  check_output ObjectTransformSchema.constituent_names_not_empty r
  = Ok (Some true).
Proof.
  intros H. unfold check_output, row_value. rewrite H. reflexivity.
Qed.

Lemma has_artist_on_empty (r : TransformRow.t) :
  TransformRow.constituents r = [] ->
  check_output ObjectTransformSchema.has_artist r = Ok (Some true).
Proof.
  intros H. unfold check_output, row_value. rewrite H. reflexivity.
Qed.

Lemma classification_labels_resolved_on_empty (r : TransformRow.t) :
  TransformRow.classifications r = [] ->
  check_output ObjectTransformSchema.classification_labels_resolved r
  = Ok (Some true).
Proof.
  intros H. unfold check_output, row_value. rewrite H. reflexivity.
Qed.

End CheckSemantics.

Section ReportFacts.

Lemma group_key_eq_iff (a b : key) : group_key_eq a b = true <-> a = b.
Proof.
  destruct a as [x |], b as [y |]; unfold group_key_eq;
    try (split; [discriminate | congruence]); try tauto.
  rewrite String.eqb_eq. split; congruence.
Qed.

(** Every error has its [(column, check)] in the deduplicated list, unless
    it was seen before. *)
Lemma unique_errors_covers (seen : list (key * key))
    (errors : list ErrorRecord.t) (err : ErrorRecord.t) :
  In err errors ->
  In (ErrorRecord.column err, ErrorRecord.check err) seen
  \/ exists err',
      In err' (unique_errors seen errors)
      /\ ErrorRecord.column err' = ErrorRecord.column err
      /\ ErrorRecord.check err' = ErrorRecord.check err.
Proof.
  revert seen. induction errors as [| e errors IH]; intros seen; [intros [] |].
  intros [-> | Hin]; cbn [unique_errors].
  - destruct (existsb _ seen) eqn:Hseen.
    + left. apply existsb_exists in Hseen as ([c k] & Hs & Heq).
      cbn [fst snd] in Heq. apply andb_prop in Heq as [Hc Hk].
      apply group_key_eq_iff in Hc, Hk. subst. exact Hs.
    + right. exists err. split; [now left | split; reflexivity].
  - destruct (existsb _ seen) eqn:Hseen.
    + destruct (IH seen Hin) as [H | (err' & H & Hc & Hk)]; [now left |].
      right. now exists err'.
    + destruct (IH ((ErrorRecord.column e, ErrorRecord.check e) :: seen) Hin)
        as [[Heq | H] | (err' & H & Hc & Hk)].
      * right. inversion Heq. exists e. split; [now left | split; congruence].
      * now left.
      * right. exists err'. split; [now right | split; assumption].
Qed.

Lemma filter_rows_in (e : expr) (rows kept : list TransformRow.t) (i : nat)
    (r : TransformRow.t) :
  filter_rows e rows = Ok kept ->
  nth_error rows i = Some r ->
  eval (row_value r) None e = Ok (VBool true) ->
  In r kept.
Proof.
  unfold filter_rows. intros Hf Hr He.
  destruct (traverse _ rows) as [keep |] eqn:Hkeep; [| discriminate].
  cbn [bind] in Hf. inversion Hf; subst kept.
  destruct (traverse_ok_nth _ _ _ _ _ Hkeep Hr) as (b & Hb & Hnth).
  rewrite He in Hb. cbn [bind] in Hb. inversion Hb; subst b.
  change r with (fst (r, true)). apply in_map. apply filter_In. split.
  - eapply nth_error_In. apply nth_error_combine. split; eassumption.
  - reflexivity.
Qed.

(** The failure branch of the Validate step never raises; it lists every
    failed [(column, check)], and the offending values of every row whose
    least dimension is at most 1. *)
Lemma failure_report_lines (rows : list TransformRow.t)
    (errors : list ErrorRecord.t) :
  exists report,
    failure_report rows errors = Ok report
    /\ In BlockingNote report
    /\ (forall err,
           In err errors ->
           In (FailedCheck (ErrorRecord.column err) (ErrorRecord.check err))
             report)
    /\ (forall i r d,
           nth_error rows i = Some r ->
           In d (TransformRow.dimensions r) ->
           (Dimension.value d <= 1)%Q ->
           In (BadDimension (TransformRow.object_id r)
                 (filter (fun v => Qle_bool v 1)
                    (map Dimension.value (TransformRow.dimensions r))))
             report).
Proof.
  unfold failure_report.
  destruct (filter_rows_total
              (Equal (ListLen (Col "constituents")) (LitInt 0)) rows eq_refl)
    as (missing & ->).
  pose proof (filter_rows_in
                (LessEq
                   (ListMin
                      (ListEval (Col "dimensions") (StructField Element "value")))
                   (LitInt 1)) rows) as Hin.
  destruct (filter_rows_total
              (LessEq
                 (ListMin
                    (ListEval (Col "dimensions") (StructField Element "value")))
                 (LitInt 1)) rows eq_refl)
    as (bad & Hbad).
  rewrite Hbad. cbn [bind]. eexists. split; [reflexivity |].
  split; [| split].
  - apply in_or_app. right. apply in_or_app. right. apply in_or_app. right.
    apply in_or_app. right. now left.
  - intros err Herr. apply in_or_app. right. apply in_or_app. left.
    destruct (unique_errors_covers [] errors err Herr)
      as [[] | (err' & H & Hc & Hk)].
    apply in_map_iff. exists err'. split; [now rewrite Hc, Hk | exact H].
  - intros i r d Hr Hd Hle.
    apply in_or_app. right. apply in_or_app. right. apply in_or_app. right.
    apply in_or_app. left.
    apply in_map_iff. exists r. split; [reflexivity |].
    apply (Hin bad i r Hbad Hr).
    remember (ListMin (ListEval (Col "dimensions") (StructField Element "value")))
      as least eqn:Hleast.
    cbn [eval]. subst least. rewrite eval_least_dimension.
    unfold least_dimension.
    destruct (TransformRow.dimensions r) as [| d0 ds] eqn:Hdims;
      [destruct Hd |].
    cbn. do 2 f_equal. apply Qle_bool_iff, Qmin_list_le_iff.
    exists (Dimension.value d). split; [| exact Hle].
    change (Dimension.value d0 :: map Dimension.value ds)
      with (map Dimension.value (d0 :: ds)).
    now apply in_map.
Qed.

End ReportFacts.

Section MaterialiseFacts.

Variable E : Engine.
Variable json_encode : TransformRow.t -> string.

(** Both [main]s run the four steps in order; the output step follows the
    check whatever its verdict. *)
Lemma materialise_events (output_path : string)
    (terminology_df : list Term.t) (objects_df : list HarvestObject.t) :
  let transform_df := objects_transform E terminology_df objects_df in
  let verdict := check_objects_transform json_encode transform_df in
  exists report,
    events (materialise E json_encode output_path terminology_df objects_df)
    = [ Harvested terminology_df objects_df;
        Transformed transform_df;
        Validated (fst verdict) report;
        OutputWritten output_path transform_df ]
    /\ (fst verdict = true -> report = [AllChecksPassed])
    /\ (fst verdict = false -> In BlockingNote report).
Proof.
  intros transform_df verdict. unfold materialise.
  fold transform_df. fold verdict.
  destruct verdict as [passed errors]. cbn [fst].
  destruct passed.
  - exists [AllChecksPassed].
    destruct (filter_rows _ transform_df) as [[| ? ?] | ?]; cbn [events];
      (split; [reflexivity | split; [reflexivity | discriminate]]).
  - destruct (failure_report_lines transform_df errors)
      as (report & -> & Hnote & _).
    exists report.
    destruct (filter_rows _ transform_df) as [[| ? ?] | ?]; cbn [events];
      (split; [reflexivity | split; [discriminate | intros _; exact Hnote]]).
Qed.

End MaterialiseFacts.

(* ===================================================================== *)
(** * The validation and the run: scenarios, guards, report, blocking *)
(* ===================================================================== *)

(** C1 (amended).  In every run of either [main] the four steps happen in
    order, and [objects_output] executes after the check whatever its
    verdict: it writes the whole transform output.  When the check fails,
    the report ends with the note that in Dagster [blocking=True] would
    prevent [objects_output]. *)
Theorem output_follows_the_check
    (E : Engine) (json_encode : TransformRow.t -> string)
    (harvest_terminology : list Term.t)
    (harvest_objects : list HarvestObject.t) :
  let transform_df :=
    objects_transform E harvest_terminology harvest_objects in
  let passed := fst (check_objects_transform json_encode transform_df) in
  (exists report,
      events (pipeline_xml.main E json_encode harvest_terminology
                harvest_objects)
      = [ Harvested harvest_terminology harvest_objects;
          Transformed transform_df;
          Validated passed report;
          OutputWritten "output/xml/objects.json" transform_df ]
      /\ (passed = false -> In BlockingNote report))
  /\ (exists report,
         events (pipeline_json.main E json_encode harvest_terminology
                   harvest_objects)
         = [ Harvested harvest_terminology harvest_objects;
             Transformed transform_df;
             Validated passed report;
             OutputWritten "output/json/objects.json" transform_df ]
         /\ (passed = false -> In BlockingNote report)).
Proof.
  intros transform_df passed. split.
  - destruct (materialise_events E json_encode "output/xml/objects.json"
                harvest_terminology harvest_objects) as (report & Hev & _ & Hn).
    exists report. split; [exact Hev | exact Hn].
  - destruct (materialise_events E json_encode "output/json/objects.json"
                harvest_terminology harvest_objects) as (report & Hev & _ & Hn).
    exists report. split; [exact Hev | exact Hn].
Qed.

(** C1 (as stated) fails: on the sample harvest the check fails ([OBJ-003]
    has no constituent) and the run writes the output all the same,
    whatever the serialisation of the failing rows. *)
Lemma failed_check_does_not_block_output :
  ~ exists json_encode,
      let run :=
        pipeline_xml.main in_order json_encode Sample.terminology
          Sample.objects in
      validation_failed run -> ~ output_executed run.
Proof.
  intros (json_encode & H). cbv zeta in H.
  destruct (materialise_events in_order json_encode "output/xml/objects.json"
              Sample.terminology Sample.objects) as (report & Hev & _).
  cbv zeta in Hev.
  destruct (failing_check_reported json_encode
              ObjectTransformSchema.has_constituents
              (objects_transform in_order Sample.terminology Sample.objects)
              1
              (enrich_row in_order Sample.terminology Sample.objects
                 Sample.obj_003))
    as (failures & Hfail & _).
  { left. reflexivity. }
  { reflexivity. }
  { reflexivity. }
  rewrite Hfail in Hev. cbn [fst] in Hev.
  apply H.
  - exists report. unfold pipeline_xml.main. rewrite Hev.
    right. right. left. reflexivity.
  - eexists _, _. unfold pipeline_xml.main. rewrite Hev.
    right. right. right. left. reflexivity.
Qed.

Section CheckNames.

Variables json_encode json_encode' : TransformRow.t -> string.

(** Which checks are reported does not depend on how the failing rows are
    serialised. *)
Lemma check_failure_cases_checks (c : Check) (rows : list TransformRow.t) :
  map FailureCase.check (check_failure_cases json_encode c rows)
  = map FailureCase.check (check_failure_cases json_encode' c rows).
Proof.
  unfold check_failure_cases.
  destruct (traverse (check_output c) rows) as [outputs | e]; [| reflexivity].
  induction (enumerate (combine rows outputs)) as [| [i [r o]] l IH];
    [reflexivity |].
  cbn [flat_map fst snd]. rewrite !map_app, IH. f_equal.
  destruct o as [[] |]; reflexivity.
Qed.

Lemma validate_checks (rows : list TransformRow.t) :
  map FailureCase.check (validate json_encode rows)
  = map FailureCase.check (validate json_encode' rows).
Proof.
  unfold validate. rewrite !map_app. f_equal.
  induction ObjectTransformSchema.checks as [| c cs IH]; [reflexivity |].
  cbn [flat_map]. rewrite !map_app, IH. f_equal.
  apply check_failure_cases_checks.
Qed.

End CheckNames.

(** C2 (amended).  When the harvested object [OBJ-003] has no [date_made]
    and no constituent (and no other source row with that id has one), the
    validation of the transform output returns [passed = False] and its
    report holds the failure of [has_at_least_one_constituent] for the row
    of [OBJ-003]; [has_at_least_one_artist], guarded by a non-empty list,
    is true on the rows of [OBJ-003] and has no failure case there. *)
Theorem scenario_A
    (E : Engine) (json_encode : TransformRow.t -> string)
    (harvest_terminology : list Term.t)
    (harvest_objects : list HarvestObject.t) (o : HarvestObject.t) :
  In o harvest_objects ->
  HarvestObject.object_id o = Some "OBJ-003" ->
  HarvestObject.date_made o = None ->
  HarvestObject.constituents o = [] ->
  (forall o',
      In o' harvest_objects ->
      HarvestObject.object_id o' = Some "OBJ-003" ->
      HarvestObject.constituents o' = []) ->
  let transform_df :=
    objects_transform E harvest_terminology harvest_objects in
  exists failures,
    check_objects_transform json_encode transform_df = (false, failures)
    /\ (exists r,
           In r transform_df
           /\ TransformRow.object_id r = Some "OBJ-003"
           /\ TransformRow.date_made r = None
           /\ In (ErrorRecord.mk (Some "ObjectTransformSchema")
                    (Some "has_at_least_one_constituent")
                    (substring 0 80 (json_encode r)))
                failures)
    /\ (forall r,
           In r transform_df ->
           TransformRow.object_id r = Some "OBJ-003" ->
           check_output ObjectTransformSchema.has_artist r = Ok (Some true))
    /\ (forall fc i r,
           In fc (check_failure_cases json_encode
                    ObjectTransformSchema.has_artist transform_df) ->
           FailureCase.index fc = Some i ->
           nth_error transform_df i = Some r ->
           TransformRow.object_id r <> Some "OBJ-003").
Proof.
  intros Ho Hid Hdate Hcst Hall transform_df.
  assert (Hempty : forall r,
             In r transform_df ->
             TransformRow.object_id r = Some "OBJ-003" ->
             TransformRow.constituents r = []).
  { intros r Hr Hrid.
    apply (row_constituents_empty E harvest_terminology harvest_objects r Hr).
    intros o' Ho' Hj. rewrite Hrid in Hj. apply join_key_eq_iff in Hj.
    now apply Hall. }
  set (r := enrich_row E harvest_terminology harvest_objects o).
  assert (Hr : In r transform_df) by now apply enrich_row_in.
  destruct (In_nth_error _ _ Hr) as (i & Hi).
  destruct (failing_check_reported json_encode
              ObjectTransformSchema.has_constituents transform_df i r)
    as (failures & Hfail & Hin).
  { left. reflexivity. }
  { exact Hi. }
  { rewrite has_constituents_output, (Hempty r Hr Hid). reflexivity. }
  exists failures. split; [exact Hfail |]. split; [| split].
  - exists r. repeat split; assumption.
  - intros r' Hr' Hid'. apply has_artist_on_empty. now apply Hempty.
  - intros fc j r' Hfc Hj Hr' Hid'.
    apply in_check_failure_cases in Hfc as (k & r'' & Hk & Hout & ->);
      [| do 8 right; left; reflexivity].
    cbn [FailureCase.index] in Hj. inversion Hj; subst k.
    assert (r'' = r') by congruence. subst r''.
    rewrite has_artist_on_empty in Hout; [discriminate |].
    apply Hempty; [| exact Hid']. eapply nth_error_In; eassumption.
Qed.

Lemma scenario_A_witness :
  In Sample.obj_003 Sample.objects
  /\ HarvestObject.date_made Sample.obj_003 = None
  /\ HarvestObject.constituents Sample.obj_003 = []
  /\ exists failures,
      check_objects_transform Sample.json_encode
        (objects_transform in_order Sample.terminology Sample.objects)
      = (false, failures)
      /\ In (ErrorRecord.mk (Some "ObjectTransformSchema")
               (Some "has_at_least_one_constituent") "OBJ-003")
           failures.
Proof.
  assert (Hin : In Sample.obj_003 Sample.objects)
    by (right; left; reflexivity).
  split; [exact Hin |]. split; [reflexivity |]. split; [reflexivity |].
  destruct (scenario_A in_order Sample.json_encode Sample.terminology
              Sample.objects Sample.obj_003 Hin eq_refl eq_refl eq_refl)
    as (failures & Hfail & (r & Hr & Hid & _ & Hrec) & _).
  - intros o' [<- | [<- | [<- | []]]]; cbn; intros H;
      (reflexivity || discriminate).
  - exists failures. split; [exact Hfail |].
    destruct Hr as [<- | [<- | [<- | []]]]; try discriminate Hid.
    exact Hrec.
Defined.

(** C2 (as stated) fails: on the sample harvest, where [OBJ-003] has no
    [date_made] and no constituent, the report holds no failure of
    [has_at_least_one_artist] at all, whatever the serialisation of the
    failing rows. *)
Lemma scenario_A_reports_no_artist_failure :
  In Sample.obj_003 Sample.objects
  /\ HarvestObject.object_id Sample.obj_003 = Some "OBJ-003"
  /\ HarvestObject.date_made Sample.obj_003 = None
  /\ HarvestObject.constituents Sample.obj_003 = []
  /\ ~ exists json_encode err,
        In err
          (snd (check_objects_transform json_encode
                  (objects_transform in_order Sample.terminology
                     Sample.objects)))
        /\ ErrorRecord.check err = Some "has_at_least_one_artist".
Proof.
  split; [right; left; reflexivity |]. do 3 (split; [reflexivity |]).
  intros (json_encode & err & Hin & Hcheck).
  rewrite (proj1 (check_objects_transform_report json_encode _)) in Hin.
  apply (in_map ErrorRecord.check) in Hin.
  rewrite map_map in Hin.
  change (fun x => ErrorRecord.check (error_record x))
    with FailureCase.check in Hin.
  rewrite (validate_checks json_encode Sample.json_encode) in Hin.
  rewrite Hcheck in Hin. vm_compute in Hin.
  destruct Hin as [H | [H | []]]; discriminate H.
Qed.

(** C6.  When the row of [OBJ-005] in a transform output has the dimension
    [{type: height, value: 0.5, unit: cm}], validation returns
    [passed = False], its report holds the failure of
    [all_dimension_values_gt_1] for that row, and the failure listing of
    the Validate step names the check and lists the offending values of
    [OBJ-005], 0.5 among them.  In every table, the check fails exactly on
    the rows that have a dimension of value at most 1. *)
Theorem scenario_B
    (json_encode : TransformRow.t -> string)
    (transform_df : list TransformRow.t) (i : nat) (r : TransformRow.t) :
  nth_error transform_df i = Some r ->
  TransformRow.object_id r = Some "OBJ-005" ->
  In (Dimension.mk (Some "height") (1 # 2) (Some "cm"))
    (TransformRow.dimensions r) ->
  (exists failures report bad_vals,
      check_objects_transform json_encode transform_df = (false, failures)
      /\ In (ErrorRecord.mk (Some "ObjectTransformSchema")
               (Some "all_dimension_values_gt_1")
               (substring 0 80 (json_encode r)))
           failures
      /\ failure_report transform_df failures = Ok report
      /\ In (FailedCheck (Some "ObjectTransformSchema")
               (Some "all_dimension_values_gt_1"))
           report
      /\ In (BadDimension (Some "OBJ-005") bad_vals) report
      /\ In (1 # 2) bad_vals)
  /\ (forall r',
         check_output ObjectTransformSchema.dimension_values_positive r'
         = Ok (Some false)
         <-> exists d,
             In d (TransformRow.dimensions r')
             /\ (Dimension.value d <= 1)%Q).
Proof.
  intros Hr Hid Hd. split; [| apply dimension_values_positive_fails].
  assert (Hle : (Dimension.value
                   (Dimension.mk (Some "height") (1 # 2) (Some "cm")) <= 1)%Q)
    by (cbn; apply Qle_bool_iff; reflexivity).
  destruct (failing_check_reported json_encode
              ObjectTransformSchema.dimension_values_positive
              transform_df i r)
    as (failures & Hfail & Hin).
  { do 2 right. left. reflexivity. }
  { exact Hr. }
  { apply dimension_values_positive_fails. eexists. split; eassumption. }
  destruct (failure_report_lines transform_df failures)
    as (report & Hrep & _ & Hchecks & Hbad).
  exists failures, report,
    (filter (fun v => Qle_bool v 1)
       (map Dimension.value (TransformRow.dimensions r))).
  split; [exact Hfail |]. split; [exact Hin |]. split; [exact Hrep |].
  split; [| split].
  - apply (Hchecks _ Hin).
  - rewrite <- Hid. exact (Hbad i r _ Hr Hd Hle).
  - apply filter_In. split; [| reflexivity].
    apply (in_map Dimension.value) in Hd. exact Hd.
Qed.

Lemma scenario_B_witness :
  exists failures report,
    check_objects_transform Sample.json_encode
      (objects_transform in_order Sample.terminology Sample.objects)
    = (false, failures)
    /\ In (ErrorRecord.mk (Some "ObjectTransformSchema")
             (Some "all_dimension_values_gt_1") "OBJ-005")
         failures
    /\ failure_report
         (objects_transform in_order Sample.terminology Sample.objects)
         failures
       = Ok report
    /\ In (BadDimension (Some "OBJ-005") [1 # 2]) report.
Proof.
  destruct (proj1 (scenario_B Sample.json_encode
                     (objects_transform in_order Sample.terminology
                        Sample.objects)
                     2
                     (enrich_row in_order Sample.terminology Sample.objects
                        Sample.obj_005)
                     eq_refl eq_refl (or_introl eq_refl)))
    as (failures & report & bad_vals & Hfail & Hin & Hrep & _ & _ & _).
  exists failures, report.
  split; [exact Hfail |]. split; [exact Hin |]. split; [exact Hrep |].
  vm_compute in Hfail. inversion Hfail; subst failures.
  vm_compute in Hrep. inversion Hrep; subst report.
  do 4 right. left. reflexivity.
Defined.

(** C7.  No declared check raises, on any row of any table, an empty list
    column included; and the three checks guarded by a non-empty list,
    [no_empty_constituent_names], [has_at_least_one_artist] and
    [no_null_labels_in_classifications], are true on the rows whose list
    is empty. *)
Theorem guarded_checks_short_circuit
    (transform_df : list TransformRow.t) (r : TransformRow.t) :
  (forall c,
      In c ObjectTransformSchema.checks ->
      (exists outputs, traverse (check_output c) transform_df = Ok outputs)
      /\ (exists output, check_output c r = Ok output))
  /\ (TransformRow.constituents r = [] ->
      check_output ObjectTransformSchema.constituent_names_not_empty r
      = Ok (Some true)
      /\ check_output ObjectTransformSchema.has_artist r = Ok (Some true))
  /\ (TransformRow.classifications r = [] ->
      check_output ObjectTransformSchema.classification_labels_resolved r
      = Ok (Some true)).
Proof.
  split; [| split].
  - intros c Hc. split.
    + apply traverse_forall, Forall_forall. intros r' _.
      now apply check_output_total.
    + now apply check_output_total.
  - intros H. split.
    + now apply constituent_names_not_empty_on_empty.
    + now apply has_artist_on_empty.
  - apply classification_labels_resolved_on_empty.
Qed.

Lemma guarded_checks_short_circuit_witness :
  TransformRow.constituents Sample.bare_row = []
  /\ TransformRow.classifications Sample.bare_row = []
  /\ check_output ObjectTransformSchema.constituent_names_not_empty
       Sample.bare_row = Ok (Some true)
  /\ check_output ObjectTransformSchema.has_artist Sample.bare_row
     = Ok (Some true)
  /\ check_output ObjectTransformSchema.classification_labels_resolved
       Sample.bare_row = Ok (Some true)
  /\ exists output,
      check_output ObjectTransformSchema.has_height Sample.bare_row
      = Ok output.
Proof.
  pose proof (guarded_checks_short_circuit [Sample.bare_row] Sample.bare_row)
    as (Htotal & Hcst & Hcls).
  split; [reflexivity |]. split; [reflexivity |].
  split; [exact (proj1 (Hcst eq_refl)) |].
  split; [exact (proj2 (Hcst eq_refl)) |].
  split; [exact (Hcls eq_refl) |].
  apply (Htotal ObjectTransformSchema.has_height).
  do 3 right. left. reflexivity.
Defined.

(** C8.  On every transform table on which some check fails,
    [check_objects_transform] returns [(False, failures)] with a non-empty
    list, and the [failure_case] of every record is a string of at most 80
    characters: the serialised row is cut, not propagated. *)
Theorem failure_cases_are_bounded
    (json_encode : TransformRow.t -> string)
    (transform_df : list TransformRow.t) :
  some_check_fails transform_df ->
  exists failures,
    check_objects_transform json_encode transform_df = (false, failures)
    /\ failures <> []
    /\ Forall
         (fun err => String.length (ErrorRecord.failure_case err) <= 80)
         failures.
Proof.
  intros Hfails.
  assert (Hfc : exists fc, In fc (validate json_encode transform_df)).
  { destruct Hfails as [(c & r & Hc & Hr & Hout) | (f & Hf & Hne)].
    - destruct (In_nth_error _ _ Hr) as (i & Hi).
      eexists. apply (in_validate_check_case json_encode c); [exact Hc |].
      apply in_check_failure_cases; [exact Hc |].
      exists i, r. repeat split; assumption.
    - destruct (field_failure_cases f transform_df) as [| fc fcs] eqn:Hcases;
        [congruence |].
      exists fc. apply (in_validate_field_case json_encode f); [exact Hf |].
      rewrite Hcases. now left. }
  destruct Hfc as (fc & Hfc).
  rewrite (check_objects_transform_failed json_encode _ _ Hfc).
  eexists. split; [reflexivity |]. split.
  - intros Hnil. apply map_eq_nil in Hnil. rewrite Hnil in Hfc. destruct Hfc.
  - apply Forall_forall. intros err Herr.
    apply in_map_iff in Herr as (fc' & <- & _). apply error_record_bounded.
Qed.

Lemma failure_cases_are_bounded_witness :
  some_check_fails
    (objects_transform in_order Sample.terminology Sample.objects)
  /\ exists failures,
      check_objects_transform Sample.json_encode
        (objects_transform in_order Sample.terminology Sample.objects)
      = (false, failures)
      /\ failures <> []
      /\ Forall
           (fun err => String.length (ErrorRecord.failure_case err) <= 80)
           failures.
Proof.
  assert (H : some_check_fails
                (objects_transform in_order Sample.terminology Sample.objects)).
  { left. exists ObjectTransformSchema.has_constituents,
      (enrich_row in_order Sample.terminology Sample.objects Sample.obj_003).
    split; [left; reflexivity |].
    split; [right; left; reflexivity | reflexivity]. }
  split; [exact H |].
  exact (failure_cases_are_bounded Sample.json_encode _ H).
Defined.

(* ===================================================================== *)
(** * What each check tests *)
(* ===================================================================== *)

Lemma traverse_known_outcomes {A : Type} (p : A -> option bool)
    (l : list A) :
  traverse as_bool (drop_nulls (map (fun x => of_obool (p x)) l))
  = Ok (known_outcomes p l).
Proof.
  unfold drop_nulls, known_outcomes.
  induction l as [| x xs IH]; [reflexivity |].
  cbn [map filter flat_map].
  destruct (p x) as [b |]; cbn [of_obool is_null negb app]; [| exact IH].
  cbn [traverse as_bool bind]. now rewrite IH.
Qed.

Section ListAggregates.

Context {A : Type}.
Variable r : TransformRow.t.
Variable column : string.
Variable f : A -> value.
Variable l : list A.
Hypothesis column_cells :
  lookup_field column (row_value r) = Some (VList (map f l)).

Lemma eval_list_eval (body : expr) (g : A -> value) :
  (forall x, eval (row_value r) (Some (f x)) body = Ok (g x)) ->
  eval (row_value r) None (ListEval (Col column) body) = Ok (VList (map g l)).
Proof.
  intros Hbody. cbn [eval]. rewrite column_cells. cbn [bind on_list].
  rewrite traverse_map, (traverse_all_ok _ g) by (intros; apply Hbody).
  reflexivity.
Qed.

Variable body : expr.
Variable p : A -> option bool.
Hypothesis body_outcome :
  forall x, eval (row_value r) (Some (f x)) body = Ok (of_obool (p x)).

Lemma eval_list_any :
  eval (row_value r) None (ListAny (ListEval (Col column) body))
  = Ok (VBool (existsb (fun b => b) (known_outcomes p l))).
Proof.
  remember (ListEval (Col column) body) as cells eqn:Hcells.
  cbn [eval]. subst cells.
  rewrite (eval_list_eval body (fun x => of_obool (p x)) body_outcome).
  cbn [bind on_list]. now rewrite traverse_known_outcomes.
Qed.

Lemma eval_list_all :
  eval (row_value r) None (ListAll (ListEval (Col column) body))
  = Ok (VBool (forallb (fun b => b) (known_outcomes p l))).
Proof.
  remember (ListEval (Col column) body) as cells eqn:Hcells.
  cbn [eval]. subst cells.
  rewrite (eval_list_eval body (fun x => of_obool (p x)) body_outcome).
  cbn [bind on_list]. now rewrite traverse_known_outcomes.
Qed.

Lemma eval_list_sum :
  eval (row_value r) None (ListSum (ListEval (Col column) body))
  = Ok (VInt
          (Z.of_nat
             (List.length (filter (fun b => b) (known_outcomes p l))))).
Proof.
  remember (ListEval (Col column) body) as cells eqn:Hcells.
  cbn [eval]. subst cells.
  rewrite (eval_list_eval body (fun x => of_obool (p x)) body_outcome).
  cbn [bind on_list]. now rewrite traverse_known_outcomes.
Qed.

Lemma eval_has_items :
  eval (row_value r) None (ObjectTransformSchema.has_items column)
  = Ok (VBool (0 <? List.length l)).
Proof.
  unfold ObjectTransformSchema.has_items. cbn [eval].
  rewrite column_cells. cbn [bind on_list compare_numbers as_number].
  now rewrite length_map, Qlt_bool_inject_Z, Zltb_0_of_nat.
Qed.

End ListAggregates.

Section KnownOutcomes.

Context {A : Type}.
Variable p : A -> option bool.

Lemma known_outcomes_in (l : list A) (b : bool) :
  In b (known_outcomes p l) <-> exists x, In x l /\ p x = Some b.
Proof.
  unfold known_outcomes. rewrite in_flat_map. split.
  - intros (x & Hx & Hb). exists x. split; [exact Hx |].
    destruct (p x) as [b' |]; [| destruct Hb].
    destruct Hb as [-> | []]. reflexivity.
  - intros (x & Hx & Hp). exists x. split; [exact Hx |].
    rewrite Hp. now left.
Qed.

Lemma some_outcome_true (l : list A) :
  existsb (fun b => b) (known_outcomes p l) = true
  <-> exists x, In x l /\ p x = Some true.
Proof.
  rewrite existsb_exists. split.
  - intros (b & Hb & ->). now apply known_outcomes_in.
  - intros H. exists true. split; [now apply known_outcomes_in | reflexivity].
Qed.

Lemma some_outcome_false (l : list A) :
  forallb (fun b => b) (known_outcomes p l) = false
  <-> exists x, In x l /\ p x = Some false.
Proof.
  rewrite <- known_outcomes_in. split.
  - intros H. destruct (in_dec bool_dec false (known_outcomes p l))
      as [Hin | Hnot]; [exact Hin |].
    exfalso. enough (forallb (fun b => b) (known_outcomes p l) = true)
      by congruence.
    apply forallb_forall. intros [] Hb; [reflexivity | now elim Hnot].
  - intros Hin. destruct (forallb _ _) eqn:Hall; [| reflexivity].
    rewrite forallb_forall in Hall. now apply Hall in Hin.
Qed.

End KnownOutcomes.

Section ElementOutcomes.

Variable row : list (string * value).

Lemma dimension_type_equals (d : Dimension.t) (s : string) :
  eval row (Some (dimension_value d))
    (Equal (StructField Element "type") (LitStr s))
  = Ok (of_obool
          (option_map (fun t => String.eqb t s) (Dimension.type d))).
Proof. destruct d as [[t |] v [u |]]; reflexivity. Qed.

Lemma dimension_unit_equals (d : Dimension.t) (s : string) :
  eval row (Some (dimension_value d))
    (Equal (StructField Element "unit") (LitStr s))
  = Ok (of_obool
          (option_map (fun u => String.eqb u s) (Dimension.unit d))).
Proof. destruct d as [[t |] v [u |]]; reflexivity. Qed.

Lemma media_type_equals (m : Media.t) (s : string) :
  eval row (Some (media_value m))
    (Equal (StructField Element "type") (LitStr s))
  = Ok (of_obool (option_map (fun t => String.eqb t s) (Media.type m))).
Proof. destruct m as [[t |] [u |] [c |]]; reflexivity. Qed.

Lemma media_url_starts_with (m : Media.t) (s : string) :
  eval row (Some (media_value m))
    (StrStartsWith (StructField Element "url") s)
  = Ok (of_obool (option_map (String.prefix s) (Media.url m))).
Proof. destruct m as [[t |] [u |] [c |]]; reflexivity. Qed.

Lemma constituent_role_equals (c : EnrichedConstituent.t) (s : string) :
  eval row (Some (constituent_value c))
    (Equal (StructField Element "role") (LitStr s))
  = Ok (of_obool
          (option_map (fun x => String.eqb x s) (EnrichedConstituent.role c))).
Proof. destruct c as [[n |] [x |] [b |] [a |]]; reflexivity. Qed.

Lemma constituent_name_not_empty (c : EnrichedConstituent.t) :
  eval row (Some (constituent_value c))
    (GreaterThan (StrLenChars (StructField Element "name")) (LitInt 0))
  = Ok (of_obool
          (option_map (fun n => 0 <? String.length n)
             (EnrichedConstituent.name c))).
Proof.
  destruct c as [[n |] [x |] [b |] [a |]]; cbn;
    try reflexivity;
    now rewrite (Qlt_bool_inject_Z 0), Zltb_0_of_nat.
Qed.

Lemma classification_term_label_known (c : Classification.t) :
  eval row (Some (classification_value c))
    (IsNotNull (StructField Element "term_label"))
  = Ok (of_obool
          (Some (match Classification.term_label c with
                 | Some _ => true
                 | None => false
                 end))).
Proof. destruct c as [[t |] [u |]]; reflexivity. Qed.

Lemma constituent_birth_year (c : EnrichedConstituent.t) :
  eval row (Some (constituent_value c)) (StructField Element "birth_year")
  = Ok (of_int (EnrichedConstituent.birth_year c)).
Proof. destruct c as [[n |] [x |] [b |] [a |]]; reflexivity. Qed.

End ElementOutcomes.

Section WhatChecksTest.

Variable r : TransformRow.t.

Lemma has_media_output :
  check_output ObjectTransformSchema.has_media r
  = Ok (Some (0 <? List.length (TransformRow.media r))).
Proof.
  unfold check_output.
  cbn [check_expr ObjectTransformSchema.has_media].
  rewrite (eval_has_items r "media" media_value (TransformRow.media r) eq_refl).
  reflexivity.
Qed.

Lemma has_height_output :
  check_output ObjectTransformSchema.has_height r
  = Ok (Some
          (existsb (fun b => b)
             (known_outcomes
                (fun d =>
                   option_map (fun t => String.eqb t "height")
                     (Dimension.type d))
                (TransformRow.dimensions r)))).
Proof.
  unfold check_output.
  cbn [check_expr ObjectTransformSchema.has_height].
  unfold ObjectTransformSchema.field_equals.
  rewrite (eval_list_any r "dimensions" dimension_value
             (TransformRow.dimensions r) eq_refl _ _
             (fun d => dimension_type_equals _ d "height")).
  reflexivity.
Qed.

Lemma units_consistent_output :
  check_output ObjectTransformSchema.units_consistent r
  = Ok (Some
          (forallb (fun b => b)
             (known_outcomes
                (fun d =>
                   option_map (fun u => String.eqb u "cm") (Dimension.unit d))
                (TransformRow.dimensions r)))).
Proof.
  unfold check_output.
  cbn [check_expr ObjectTransformSchema.units_consistent].
  unfold ObjectTransformSchema.field_equals.
  rewrite (eval_list_all r "dimensions" dimension_value
             (TransformRow.dimensions r) eq_refl _ _
             (fun d => dimension_unit_equals _ d "cm")).
  reflexivity.
Qed.

Lemma urls_are_https_output :
  check_output ObjectTransformSchema.urls_are_https r
  = Ok (Some
          (forallb (fun b => b)
             (known_outcomes
                (fun m => option_map (String.prefix "https://") (Media.url m))
                (TransformRow.media r)))).
Proof.
  unfold check_output.
  cbn [check_expr ObjectTransformSchema.urls_are_https].
  rewrite (eval_list_all r "media" media_value
             (TransformRow.media r) eq_refl _ _
             (fun m => media_url_starts_with _ m "https://")).
  reflexivity.
Qed.

End WhatChecksTest.

Section Connectives.

Variable row : list (string * value).
Variable elem : option value.

Lemma eval_not (a : expr) (x : option bool) :
  eval row elem a = Ok (of_obool x) ->
  eval row elem (Not a) = Ok (of_obool (option_map negb x)).
Proof.
  intros Ha. cbn [eval]. rewrite Ha. destruct x as [[] |]; reflexivity.
Qed.

Lemma eval_or (a b : expr) (x y : option bool) :
  eval row elem a = Ok (of_obool x) ->
  eval row elem b = Ok (of_obool y) ->
  eval row elem (Or a b) = Ok (of_obool (kleene_or x y)).
Proof.
  intros Ha Hb. cbn [eval]. rewrite Ha, Hb.
  destruct x as [[] |], y as [[] |]; reflexivity.
Qed.

End Connectives.

Lemma Qeq_bool_inject_Z (a b : Z) :
  Qeq_bool (inject_Z a) (inject_Z b) = (a =? b)%Z.
Proof. unfold Qeq_bool. cbn. now rewrite !Z.mul_1_r. Qed.

Lemma Zeqb_of_nat_1 (n : nat) : (Z.of_nat n =? 1)%Z = (n =? 1).
Proof.
  destruct (Nat.eqb_spec n 1) as [-> | Hne]; [reflexivity |].
  apply Z.eqb_neq. lia.
Qed.

Lemma forallb_known_outcomes_total {A : Type} (q : A -> bool) (l : list A) :
  forallb (fun b => b) (known_outcomes (fun x => Some (q x)) l) = forallb q l.
Proof.
  unfold known_outcomes.
  induction l as [| x l IH]; [reflexivity |].
  cbn [flat_map app forallb]. now rewrite IH.
Qed.

Lemma option_map_comp_negb {A : Type} (f : A -> bool) (x : option A) :
  option_map negb (option_map f x) = option_map (fun a => negb (f a)) x.
Proof. destruct x; reflexivity. Qed.

Lemma check_output_of_eval (c : Check) (r : TransformRow.t)
    (o : option bool) :
  eval (row_value r) None (check_expr c) = Ok (of_obool o) ->
  check_output c r = Ok o.
Proof.
  intros H. unfold check_output. rewrite H. destruct o; reflexivity.
Qed.

Section GuardedChecks.

Variable r : TransformRow.t.

Lemma has_primary_image_output :
  check_output ObjectTransformSchema.has_primary_image r
  = Ok (Some
          (List.length
             (filter (fun b => b)
                (known_outcomes
                   (fun m =>
                      option_map (fun t => String.eqb t "primary")
                        (Media.type m))
                   (TransformRow.media r)))
           =? 1)).
Proof.
  apply check_output_of_eval.
  cbn [check_expr ObjectTransformSchema.has_primary_image].
  unfold ObjectTransformSchema.field_equals.
  remember (ListSum _) as count eqn:Hcount. cbn [eval]. subst count.
  rewrite (eval_list_sum r "media" media_value
             (TransformRow.media r) eq_refl _ _
             (fun m => media_type_equals _ m "primary")).
  cbn [bind equal_values compare_numbers as_number of_obool].
  now rewrite Qeq_bool_inject_Z, Zeqb_of_nat_1.
Qed.

Lemma constituent_names_not_empty_output :
  check_output ObjectTransformSchema.constituent_names_not_empty r
  = Ok (Some
          (negb (0 <? List.length (TransformRow.constituents r))
           || forallb (fun b => b)
                (known_outcomes
                   (fun c =>
                      option_map (fun n => 0 <? String.length n)
                        (EnrichedConstituent.name c))
                   (TransformRow.constituents r)))).
Proof.
  apply check_output_of_eval.
  cbn [check_expr ObjectTransformSchema.constituent_names_not_empty].
  rewrite (eval_or _ _ _ _
             (Some (negb (0 <? List.length (TransformRow.constituents r))))
             (Some
                (forallb (fun b => b)
                   (known_outcomes
                      (fun c =>
                         option_map (fun n => 0 <? String.length n)
                           (EnrichedConstituent.name c))
                      (TransformRow.constituents r))))).
  - destruct (negb _), (forallb _ _); reflexivity.
  - apply (eval_not _ _ _ (Some _)).
    apply (eval_has_items r "constituents" constituent_value
             (TransformRow.constituents r) eq_refl).
  - apply (eval_list_all r "constituents" constituent_value
             (TransformRow.constituents r) eq_refl _ _
             (fun c => constituent_name_not_empty _ c)).
Qed.

Lemma has_artist_output :
  check_output ObjectTransformSchema.has_artist r
  = Ok (Some
          (negb (0 <? List.length (TransformRow.constituents r))
           || existsb (fun b => b)
                (known_outcomes
                   (fun c =>
                      option_map (fun x => String.eqb x "artist")
                        (EnrichedConstituent.role c))
                   (TransformRow.constituents r)))).
Proof.
  apply check_output_of_eval.
  cbn [check_expr ObjectTransformSchema.has_artist].
  unfold ObjectTransformSchema.field_equals.
  rewrite (eval_or _ _ _ _
             (Some (negb (0 <? List.length (TransformRow.constituents r))))
             (Some
                (existsb (fun b => b)
                   (known_outcomes
                      (fun c =>
                         option_map (fun x => String.eqb x "artist")
                           (EnrichedConstituent.role c))
                      (TransformRow.constituents r))))).
  - destruct (negb _), (existsb _ _); reflexivity.
  - apply (eval_not _ _ _ (Some _)).
    apply (eval_has_items r "constituents" constituent_value
             (TransformRow.constituents r) eq_refl).
  - apply (eval_list_any r "constituents" constituent_value
             (TransformRow.constituents r) eq_refl _ _
             (fun c => constituent_role_equals _ c "artist")).
Qed.

Lemma classification_labels_resolved_output :
  check_output ObjectTransformSchema.classification_labels_resolved r
  = Ok (Some
          (negb (0 <? List.length (TransformRow.classifications r))
           || forallb
                (fun c =>
                   match Classification.term_label c with
                   | Some _ => true
                   | None => false
                   end)
                (TransformRow.classifications r))).
Proof.
  apply check_output_of_eval.
  cbn [check_expr ObjectTransformSchema.classification_labels_resolved].
  rewrite (eval_or _ _ _ _
             (Some (negb (0 <? List.length (TransformRow.classifications r))))
             (Some
                (forallb (fun b => b)
                   (known_outcomes
                      (fun c =>
                         Some (match Classification.term_label c with
                               | Some _ => true
                               | None => false
                               end))
                      (TransformRow.classifications r))))).
  - rewrite forallb_known_outcomes_total.
    destruct (negb _), (forallb _ _); reflexivity.
  - apply (eval_not _ _ _ (Some _)).
    apply (eval_has_items r "classifications" classification_value
             (TransformRow.classifications r) eq_refl).
  - apply (eval_list_all r "classifications" classification_value
             (TransformRow.classifications r) eq_refl _ _
             (fun c => classification_term_label_known _ c)).
Qed.

End GuardedChecks.

Section CrossColumnChecks.

Variable r : TransformRow.t.

Lemma eval_is_sculpture :
  eval (row_value r) None (Equal (Col "department") (LitStr "Sculpture"))
  = Ok (of_obool
          (option_map (fun d => String.eqb d "Sculpture")
             (TransformRow.department r))).
Proof.
  cbn [eval].
  change (lookup_field "department" (row_value r))
    with (Some (of_key (TransformRow.department r))).
  destruct (TransformRow.department r); reflexivity.
Qed.

Lemma sculpture_has_depth_output :
  check_output ObjectTransformSchema.sculpture_has_depth r
  = Ok (kleene_or
          (option_map (fun d => negb (String.eqb d "Sculpture"))
             (TransformRow.department r))
          (Some
             (existsb (fun b => b)
                (known_outcomes
                   (fun d =>
                      option_map (fun t => String.eqb t "depth")
                        (Dimension.type d))
                   (TransformRow.dimensions r))))).
Proof.
  apply check_output_of_eval.
  cbn [check_expr ObjectTransformSchema.sculpture_has_depth].
  unfold ObjectTransformSchema.field_equals.
  erewrite eval_or.
  - reflexivity.
  - erewrite eval_not; [| apply eval_is_sculpture].
    rewrite option_map_comp_negb. reflexivity.
  - apply (eval_list_any r "dimensions" dimension_value
             (TransformRow.dimensions r) eq_refl _ _
             (fun d => dimension_type_equals _ d "depth")).
Qed.

Lemma drop_nulls_of_int (l : list (option Z)) :
  drop_nulls (map of_int l)
  = map VInt (flat_map (fun z => match z with Some b => [b] | None => [] end) l).
Proof.
  unfold drop_nulls.
  induction l as [| [z |] l IH]; cbn [map filter flat_map app of_int is_null negb];
    [reflexivity | now rewrite IH | exact IH].
Qed.

Lemma eval_latest_birth :
  eval (row_value r) None
    (ListMax (ListEval (Col "constituents") (StructField Element "birth_year")))
  = Ok (of_int (latest_birth_year r)).
Proof.
  remember (ListEval _ _) as cells eqn:Hcells. cbn [eval]. subst cells.
  rewrite (eval_list_eval r "constituents" constituent_value
             (TransformRow.constituents r) eq_refl _
             (fun c => of_int (EnrichedConstituent.birth_year c))
             (fun c => constituent_birth_year _ c)).
  cbn [bind on_list]. unfold list_extremum, latest_birth_year, known_birth_years.
  rewrite <- (map_map EnrichedConstituent.birth_year of_int).
  rewrite drop_nulls_of_int, flat_map_concat_map, map_map,
    <- flat_map_concat_map.
  destruct (flat_map _ (TransformRow.constituents r)) as [| b bs];
    [reflexivity |].
  cbn [map]. rewrite traverse_map.
  rewrite (traverse_all_ok _ (fun z => z)) by reflexivity.
  now rewrite map_id.
Qed.

Lemma birth_before_creation_output :
  check_output ObjectTransformSchema.birth_before_creation r
  = Ok match TransformRow.date_made r, latest_birth_year r with
       | Some y, Some b => Some (b <? y)%Z
       | _, _ => Some true
       end.
Proof.
  apply check_output_of_eval.
  cbn [check_expr ObjectTransformSchema.birth_before_creation].
  remember (ListMax _) as latest eqn:Hlatest.
  cbn [eval].
  change (lookup_field "date_made" (row_value r))
    with (Some (of_int (TransformRow.date_made r))).
  subst latest. rewrite eval_latest_birth. cbn [bind].
  destruct (TransformRow.date_made r) as [y |],
    (latest_birth_year r) as [b |]; cbn; try reflexivity.
  rewrite Qlt_bool_inject_Z. destruct (b <? y)%Z; reflexivity.
Qed.

End CrossColumnChecks.

Section OutcomeFacts.

Context {A : Type}.

Lemma no_outcome_true (p : A -> option bool) (l : list A) :
  existsb (fun b => b) (known_outcomes p l) = false
  <-> forall x, In x l -> p x <> Some true.
Proof.
  split.
  - intros H x Hx Hp.
    assert (Ht : existsb (fun b => b) (known_outcomes p l) = true)
      by (apply some_outcome_true; now exists x).
    congruence.
  - intros H. destruct (existsb _ _) eqn:He; [| reflexivity].
    apply some_outcome_true in He as (x & Hx & Hp). now elim (H x Hx).
Qed.

Lemma key_equals_true (k : key) (s : string) :
  option_map (fun x => String.eqb x s) k = Some true <-> k = Some s.
Proof.
  destruct k as [x |]; cbn; [| split; discriminate].
  split.
  - intros H. inversion H as [He]. apply String.eqb_eq in He. now subst.
  - intros H. inversion H. now rewrite String.eqb_refl.
Qed.

Lemma key_equals_false (k : key) (s : string) :
  option_map (fun x => String.eqb x s) k = Some false
  <-> exists x, k = Some x /\ x <> s.
Proof.
  destruct k as [x |]; cbn.
  - split.
    + intros H. inversion H as [He]. apply String.eqb_neq in He. now exists x.
    + intros (y & Hy & Hne). inversion Hy; subst y.
      apply String.eqb_neq in Hne. now rewrite Hne.
  - split; [discriminate | intros (x & Hx & _); discriminate].
Qed.

Lemma count_true_outcomes (l : list A) (k : A -> key) (s : string) :
  List.length
    (filter (fun b => b)
       (known_outcomes (fun x => option_map (fun t => String.eqb t s) (k x)) l))
  = List.length (filter (fun x => key_is s (k x)) l).
Proof.
  unfold known_outcomes, key_is.
  induction l as [| x l IH]; [reflexivity |].
  cbn [flat_map filter]. rewrite filter_app, length_app, IH.
  destruct (k x) as [t |]; cbn; [| reflexivity].
  destruct (String.eqb t s); reflexivity.
Qed.

End OutcomeFacts.

Lemma Zmax_list_ge (x : Z) (xs : list Z) (y : Z) :
  (y <= Zmax_list x xs)%Z <-> exists z, In z (x :: xs) /\ (y <= z)%Z.
Proof.
  unfold Zmax_list. revert x.
  induction xs as [| a xs IH]; intros x; cbn [fold_left].
  - split.
    + intros H. exists x. split; [now left | exact H].
    + intros (z & [Hz | []] & H). now subst z.
  - rewrite IH. split.
    + intros (z & [Hz | Hz] & H).
      * subst z.
        destruct (Z.max_spec x a) as [[_ Hm] | [_ Hm]]; rewrite Hm in H.
        -- exists a. split; [right; now left | exact H].
        -- exists x. split; [now left | exact H].
      * exists z. split; [right; now right | exact H].
    + intros (z & [Hz | [Hz | Hz]] & H).
      * exists (Z.max x a). split; [now left | lia].
      * exists (Z.max x a). split; [now left | lia].
      * exists z. split; [now right | exact H].
Qed.

Lemma in_known_birth_years (r : TransformRow.t) (b : Z) :
  In b (known_birth_years r)
  <-> exists c,
      In c (TransformRow.constituents r)
      /\ EnrichedConstituent.birth_year c = Some b.
Proof.
  unfold known_birth_years. rewrite in_flat_map. split.
  - intros (c & Hc & Hb). exists c. split; [exact Hc |].
    destruct (EnrichedConstituent.birth_year c); [| destruct Hb].
    destruct Hb as [-> | []]. reflexivity.
  - intros (c & Hc & Hb). exists c. split; [exact Hc |].
    rewrite Hb. now left.
Qed.

(* ===================================================================== *)
(** * The checks, in terms of the rows *)
(* ===================================================================== *)

(** X1.  [has_at_least_one_constituent] fails exactly on the rows whose
    [constituents] list is empty, and [has_at_least_one_image] exactly on
    the rows whose [media] list is empty. *)
Theorem list_must_have_items (r : TransformRow.t) :
  (check_fails ObjectTransformSchema.has_constituents r
   <-> TransformRow.constituents r = [])
  /\ (check_fails ObjectTransformSchema.has_media r
      <-> TransformRow.media r = []).
Proof.
  unfold check_fails. rewrite has_constituents_output, has_media_output.
  split.
  - destruct (TransformRow.constituents r); cbn; split;
      congruence || discriminate.
  - destruct (TransformRow.media r); cbn; split; congruence || discriminate.
Qed.

(** X2.  [has_height_dimension] fails exactly on the rows none of whose
    dimensions has type ["height"]; it is not guarded, so a row without
    dimensions fails it. *)
Theorem has_height_fails (r : TransformRow.t) :
  (check_fails ObjectTransformSchema.has_height r
   <-> forall d,
       In d (TransformRow.dimensions r) -> Dimension.type d <> Some "height")
  /\ (TransformRow.dimensions r = [] ->
      check_fails ObjectTransformSchema.has_height r).
Proof.
  assert (H : check_fails ObjectTransformSchema.has_height r
              <-> forall d,
                  In d (TransformRow.dimensions r) ->
                  Dimension.type d <> Some "height").
  { unfold check_fails. rewrite has_height_output. split.
    - intros He. injection He as Hb. rewrite no_outcome_true in Hb.
      intros d Hd Ht. apply (Hb d Hd). now apply key_equals_true.
    - intros Hall. do 2 f_equal. apply no_outcome_true.
      intros d Hd Ht. apply (Hall d Hd). now apply key_equals_true. }
  split; [exact H |].
  intros Hnil. apply H. rewrite Hnil. intros d [].
Qed.

Lemma has_height_fails_witness :
  TransformRow.dimensions Sample.bare_row = []
  /\ check_fails ObjectTransformSchema.has_height Sample.bare_row.
Proof.
  split; [reflexivity |].
  exact (proj2 (has_height_fails Sample.bare_row) eq_refl).
Defined.

(** X3.  [all_units_are_cm] fails exactly on the rows that have a
    dimension whose unit is a string other than ["cm"]: a dimension
    without unit does not fail it, nor does a row without dimensions. *)
Theorem units_consistent_fails (r : TransformRow.t) :
  check_fails ObjectTransformSchema.units_consistent r
  <-> exists d u,
      In d (TransformRow.dimensions r)
      /\ Dimension.unit d = Some u /\ u <> "cm".
Proof.
  unfold check_fails. rewrite units_consistent_output. split.
  - intros He. injection He as Hb.
    apply some_outcome_false in Hb as (d & Hd & Hp).
    apply key_equals_false in Hp as (u & Hu & Hne). now exists d, u.
  - intros (d & u & Hd & Hu & Hne). do 2 f_equal.
    apply some_outcome_false. exists d. split; [exact Hd |].
    apply key_equals_false. now exists u.
Qed.

(** X4.  [all_urls_are_https] fails exactly on the rows that have an image
    whose url is a string that does not start with ["https://"]: an image
    without url does not fail it. *)
Theorem urls_are_https_fails (r : TransformRow.t) :
  check_fails ObjectTransformSchema.urls_are_https r
  <-> exists m u,
      In m (TransformRow.media r)
      /\ Media.url m = Some u /\ String.prefix "https://" u = false.
Proof.
  unfold check_fails. rewrite urls_are_https_output. split.
  - intros He. injection He as Hb.
    apply some_outcome_false in Hb as (m & Hm & Hp).
    destruct (Media.url m) as [u |] eqn:Hu; [| discriminate].
    cbn in Hp. injection Hp as Hp. exists m, u. auto.
  - intros (m & u & Hm & Hu & Hp). do 2 f_equal.
    apply some_outcome_false. exists m. split; [exact Hm |].
    rewrite Hu. cbn. now rewrite Hp.
Qed.

(** X5.  [has_primary_image] fails exactly on the rows whose number of
    images of type ["primary"] is not one: none is a failure, and so are
    two. *)
Theorem has_primary_image_fails (r : TransformRow.t) :
  check_fails ObjectTransformSchema.has_primary_image r
  <-> List.length
        (filter (fun m => key_is "primary" (Media.type m))
           (TransformRow.media r))
      <> 1.
Proof.
  unfold check_fails.
  rewrite has_primary_image_output, (count_true_outcomes _ Media.type).
  split.
  - intros He. injection He as Hb. now apply Nat.eqb_neq.
  - intros Hne. do 2 f_equal. now apply Nat.eqb_neq.
Qed.

(** X6.  [no_empty_constituent_names] fails exactly on the rows that have
    a constituent whose name is the empty string; a constituent without
    name does not fail it. *)
Theorem constituent_names_not_empty_fails (r : TransformRow.t) :
  check_fails ObjectTransformSchema.constituent_names_not_empty r
  <-> exists c,
      In c (TransformRow.constituents r)
      /\ EnrichedConstituent.name c = Some "".
Proof.
  unfold check_fails. rewrite constituent_names_not_empty_output. split.
  - intros He. injection He as Hb. apply orb_false_iff in Hb as [_ Hb].
    apply some_outcome_false in Hb as (c & Hc & Hp).
    exists c. split; [exact Hc |].
    destruct (EnrichedConstituent.name c) as [[| a n] |]; try discriminate.
    reflexivity.
  - intros (c & Hc & Hn). do 2 f_equal. apply orb_false_iff. split.
    + destruct (TransformRow.constituents r); [destruct Hc | reflexivity].
    + apply some_outcome_false. exists c. split; [exact Hc |].
      now rewrite Hn.
Qed.

(** X7.  [has_at_least_one_artist] fails exactly on the rows that have
    constituents, none of them with role ["artist"]. *)
Theorem has_artist_fails (r : TransformRow.t) :
  check_fails ObjectTransformSchema.has_artist r
  <-> TransformRow.constituents r <> []
      /\ forall c,
          In c (TransformRow.constituents r) ->
          EnrichedConstituent.role c <> Some "artist".
Proof.
  unfold check_fails. rewrite has_artist_output. split.
  - intros He. injection He as Hb. apply orb_false_iff in Hb as [Hlen Hb].
    split.
    + intros Hnil. rewrite Hnil in Hlen. discriminate.
    + rewrite no_outcome_true in Hb.
      intros c Hc Hr. apply (Hb c Hc). now apply key_equals_true.
  - intros [Hne Hall]. do 2 f_equal. apply orb_false_iff. split.
    + destruct (TransformRow.constituents r); [now elim Hne | reflexivity].
    + apply no_outcome_true. intros c Hc Hr. apply (Hall c Hc).
      now apply key_equals_true.
Qed.

(** X8.  [no_null_labels_in_classifications] fails exactly on the rows
    that have a classification whose [term_label] is null; a null
    [type_label] is not looked at. *)
Theorem classification_labels_resolved_fails (r : TransformRow.t) :
  check_fails ObjectTransformSchema.classification_labels_resolved r
  <-> exists c,
      In c (TransformRow.classifications r)
      /\ Classification.term_label c = None.
Proof.
  unfold check_fails. rewrite classification_labels_resolved_output. split.
  - intros He. injection He as Hb. apply orb_false_iff in Hb as [_ Hb].
    destruct (forallb _ _) eqn:Hall in Hb; [discriminate |].
    clear Hb.
    induction (TransformRow.classifications r) as [| c cs IH];
      [discriminate |].
    cbn [forallb] in Hall. apply andb_false_iff in Hall as [Hc | Hcs].
    + exists c. split; [now left |].
      destruct (Classification.term_label c); [discriminate | reflexivity].
    + destruct (IH Hcs) as (c' & Hc' & Hl). exists c'. split; [now right | exact Hl].
  - intros (c & Hc & Hl). do 2 f_equal. apply orb_false_iff. split.
    + destruct (TransformRow.classifications r); [destruct Hc | reflexivity].
    + destruct (forallb _ _) eqn:Hall; [| reflexivity].
      rewrite forallb_forall in Hall. specialize (Hall c Hc).
      rewrite Hl in Hall. discriminate.
Qed.

(** X9.  [sculpture_must_have_depth] fails exactly on the rows whose
    department is ["Sculpture"] and none of whose dimensions has type
    ["depth"]; a row without department never fails it. *)
Theorem sculpture_has_depth_fails (r : TransformRow.t) :
  check_fails ObjectTransformSchema.sculpture_has_depth r
  <-> TransformRow.department r = Some "Sculpture"
      /\ forall d,
          In d (TransformRow.dimensions r) -> Dimension.type d <> Some "depth".
Proof.
  unfold check_fails. rewrite sculpture_has_depth_output. split.
  - intros He.
    destruct (TransformRow.department r) as [dept |]; cbn in He.
    + destruct (String.eqb dept "Sculpture") eqn:Heq;
        cbn in He; [| discriminate].
      apply String.eqb_eq in Heq.
      destruct (existsb _ _) eqn:Hb in He; [discriminate |].
      split; [now rewrite Heq |].
      rewrite no_outcome_true in Hb.
      intros d Hd Ht. apply (Hb d Hd). now apply key_equals_true.
    + destruct (existsb _ _); discriminate.
  - intros [-> Hall]. cbn.
    replace (existsb _ _) with false; [reflexivity |].
    symmetry. apply no_outcome_true.
    intros d Hd Ht. apply (Hall d Hd). now apply key_equals_true.
Qed.

(** X10.  [constituent_born_before_artwork] fails exactly on the rows that
    have a [date_made] and a constituent whose known birth year is not
    before it; a row without [date_made], or whose constituents have no
    known birth year, does not fail it. *)
Theorem birth_before_creation_fails (r : TransformRow.t) :
  check_fails ObjectTransformSchema.birth_before_creation r
  <-> exists y c b,
      TransformRow.date_made r = Some y
      /\ In c (TransformRow.constituents r)
      /\ EnrichedConstituent.birth_year c = Some b
      /\ (y <= b)%Z.
Proof.
  unfold check_fails. rewrite birth_before_creation_output.
  unfold latest_birth_year. split.
  - intros He.
    destruct (TransformRow.date_made r) as [y |]; [| discriminate].
    destruct (known_birth_years r) as [| b bs] eqn:Hknown; [discriminate |].
    injection He as Hlt. apply Z.ltb_ge in Hlt.
    apply Zmax_list_ge in Hlt as (z & Hz & Hle).
    rewrite <- Hknown in Hz.
    apply in_known_birth_years in Hz as (c & Hc & Hb).
    now exists y, c, z.
  - intros (y & c & b & Hy & Hc & Hb & Hle). rewrite Hy.
    assert (Hin : In b (known_birth_years r))
      by (apply in_known_birth_years; now exists c).
    destruct (known_birth_years r) as [| b0 bs]; [destruct Hin |].
    do 2 f_equal. apply Z.ltb_ge. apply Zmax_list_ge. now exists b.
Qed.

(* ===================================================================== *)
(** * More on the transform *)
(* ===================================================================== *)

Section PassThrough.

Variable E : Engine.
Variable harvest_terminology : list Term.t.
Variable harvest_objects : list HarvestObject.t.

Lemma base_of_enrich_row :
  map (fun o =>
         base_of_row (enrich_row E harvest_terminology harvest_objects o))
    harvest_objects
  = base_rows harvest_objects.
Proof. reflexivity. Qed.

End PassThrough.

(** X11.  The pass-through columns ([object_id], [title], [date_made],
    [credit_line], [department], [dimensions], [media]) of the output rows
    are those of the harvested objects, row for row and untouched: the
    transform never drops, repeats or alters a row, whatever the
    terminology table (ambiguous keys included) and whatever the engine's
    row order; the rows come in the harvest's order when the two
    assembling joins keep the left-row order. *)
Theorem rows_pass_through
    (E : Engine) (harvest_terminology : list Term.t)
    (harvest_objects : list HarvestObject.t) :
  Permutation
    (map base_of_row
       (objects_transform E harvest_terminology harvest_objects))
    (base_rows harvest_objects)
  /\ List.length (objects_transform E harvest_terminology harvest_objects)
     = List.length harvest_objects
  /\ (keeps_order E 6 -> keeps_order E 7 ->
      map base_of_row
        (objects_transform E harvest_terminology harvest_objects)
      = base_rows harvest_objects).
Proof.
  assert (Hperm : Permutation
            (map base_of_row
               (objects_transform E harvest_terminology harvest_objects))
            (base_rows harvest_objects)).
  { rewrite <- (base_of_enrich_row E harvest_terminology harvest_objects).
    rewrite <- (map_map
                  (enrich_row E harvest_terminology harvest_objects)
                  base_of_row).
    apply Permutation_map, objects_transform_perm. }
  split; [exact Hperm |]. split.
  - apply Permutation_length in Hperm.
    unfold base_rows in Hperm. now rewrite !length_map in Hperm.
  - intros H6 H7. rewrite objects_transform_ordered by assumption.
    rewrite map_map. apply base_of_enrich_row.
Qed.

Lemma rows_pass_through_witness :
  keeps_order (last_first_at 3) 6
  /\ keeps_order (last_first_at 3) 7
  /\ map base_of_row
       (objects_transform (last_first_at 3) Sample.ambiguous_terminology
          Sample.objects)
     = base_rows Sample.objects.
Proof.
  assert (H6 : keeps_order (last_first_at 3) 6) by (intros A l; reflexivity).
  assert (H7 : keeps_order (last_first_at 3) 7) by (intros A l; reflexivity).
  split; [exact H6 |]. split; [exact H7 |].
  exact (proj2 (proj2 (rows_pass_through (last_first_at 3)
                         Sample.ambiguous_terminology Sample.objects)) H6 H7).
Defined.

(** X12.  A harvested object without [object_id] loses its nested
    elements: a null key joins nothing, so its output row has
    [classifications = []] and [constituents = []] whatever its
    [classification_ids] and [constituents] were; and every output row
    without [object_id] is such a row. *)
Theorem null_object_id_loses_elements
    (E : Engine) (harvest_terminology : list Term.t)
    (harvest_objects : list HarvestObject.t) :
  (forall o,
      In o harvest_objects ->
      HarvestObject.object_id o = None ->
      In (TransformRow.mk None
            (HarvestObject.title o) (HarvestObject.date_made o)
            (HarvestObject.credit_line o) (HarvestObject.department o)
            (HarvestObject.dimensions o) (HarvestObject.media o) [] [])
        (objects_transform E harvest_terminology harvest_objects))
  /\ (forall r,
         In r (objects_transform E harvest_terminology harvest_objects) ->
         TransformRow.object_id r = None ->
         TransformRow.classifications r = []
         /\ TransformRow.constituents r = []).
Proof.
  assert (Hrows : forall r,
             In r (objects_transform E harvest_terminology harvest_objects) ->
             TransformRow.object_id r = None ->
             TransformRow.classifications r = []
             /\ TransformRow.constituents r = []).
  { intros r Hr Hid. split.
    - apply (row_classifications_empty E harvest_terminology harvest_objects
               r Hr).
      intros o _ Hj. rewrite Hid in Hj. discriminate.
    - apply (row_constituents_empty E harvest_terminology harvest_objects
               r Hr).
      intros o _ Hj. rewrite Hid in Hj. discriminate. }
  split; [| exact Hrows].
  intros o Ho Hid.
  pose proof (enrich_row_in E harvest_terminology harvest_objects o Ho) as Hin.
  destruct (Hrows _ Hin Hid) as [Hc Hk].
  replace (TransformRow.mk None _ _ _ _ _ _ [] [])
    with (enrich_row E harvest_terminology harvest_objects o); [exact Hin |].
  unfold enrich_row in *. cbn [TransformRow.classifications
    TransformRow.constituents] in Hc, Hk. now rewrite Hc, Hk, Hid.
Qed.

Lemma null_object_id_loses_elements_witness :
  HarvestObject.object_id Sample.obj_anonymous = None
  /\ HarvestObject.constituents Sample.obj_anonymous <> []
  /\ forall r,
      In r (objects_transform in_order Sample.terminology
              [Sample.obj_001; Sample.obj_anonymous]) ->
      TransformRow.object_id r = None ->
      TransformRow.classifications r = []
      /\ TransformRow.constituents r = [].
Proof.
  split; [reflexivity |]. split; [discriminate |].
  exact (proj2 (null_object_id_loses_elements in_order Sample.terminology
                  [Sample.obj_001; Sample.obj_anonymous])).
Defined.

Section ClassificationResolution.

Variable harvest_terminology : list Term.t.

Lemma joined_label_resolved (k : key) (m : option (key * key)) :
  In m
    (join_matches fst
       (map (fun t => (Term.term_id t, Term.label t)) harvest_terminology) k) ->
  label_resolved harvest_terminology k (joined_label m).
Proof.
  intros Hm.
  apply join_matches_in in Hm as [[-> Hnone] | (row & -> & Hrow & Hk)].
  - right. split; [reflexivity |].
    intros tm x Htm Hx Hid.
    specialize (Hnone (Term.term_id tm, Term.label tm)).
    rewrite Hx, Hid in Hnone. cbn [fst] in Hnone.
    rewrite join_key_eq_refl in Hnone.
    enough (true = false) by discriminate. apply Hnone.
    apply in_map_iff. exists tm. split; [now rewrite Hid | exact Htm].
  - left. apply in_map_iff in Hrow as (tm & <- & Htm).
    cbn [fst] in Hk. apply join_key_eq_true in Hk as (x & Hx & Hid).
    exists tm, x. repeat split; assumption.
Qed.

Lemma enrich_classification_resolved (c : ClassificationRef.t)
    (e : Classification.t) :
  In e (enrich_classification harvest_terminology c) ->
  label_resolved harvest_terminology (ClassificationRef.type_id c)
    (Classification.type_label e)
  /\ label_resolved harvest_terminology (ClassificationRef.term_id c)
       (Classification.term_label e).
Proof.
  unfold enrich_classification. intros He.
  apply in_flat_map in He as (m1 & Hm1 & He).
  apply in_map_iff in He as (m2 & <- & Hm2).
  cbn [Classification.type_label Classification.term_label].
  split; now apply joined_label_resolved.
Qed.

Lemma enrich_classification_nonempty (c : ClassificationRef.t) :
  exists e, In e (enrich_classification harvest_terminology c).
Proof.
  unfold enrich_classification.
  assert (Hne : forall (tbl : list (key * key)) k,
             exists m, In m (join_matches fst tbl k)).
  { intros tbl k. unfold join_matches.
    destruct (filter _ tbl); eexists; left; reflexivity. }
  destruct (Hne (type_labels harvest_terminology)
              (ClassificationRef.type_id c)) as (m1 & Hm1).
  destruct (Hne (term_labels harvest_terminology)
              (ClassificationRef.term_id c)) as (m2 & Hm2).
  eexists. apply in_flat_map. exists m1. split; [exact Hm1 |].
  apply in_map_iff. exists m2. split; [reflexivity | exact Hm2].
Qed.

End ClassificationResolution.

(** X13.  Classification labels are resolved against the whole terminology
    table, without regard for [term_type].  Every classification of an
    output row comes from a reference of a source row with the same
    [object_id]; its [type_label] is the label of a terminology row whose
    [term_id] is the reference's [type_id], its [term_label] that of a row
    whose [term_id] is the reference's [term_id], each null when no row
    has the key.  Every reference of a source row with a non-null
    [object_id] has such an element: an unmatched reference is kept, with
    null labels. *)
Theorem classification_resolution
    (E : Engine) (harvest_terminology : list Term.t)
    (harvest_objects : list HarvestObject.t) :
  (forall r e,
      In r (objects_transform E harvest_terminology harvest_objects) ->
      In e (TransformRow.classifications r) ->
      exists o c,
        In o harvest_objects
        /\ HarvestObject.object_id o = TransformRow.object_id r
        /\ In c (HarvestObject.classification_ids o)
        /\ label_resolved harvest_terminology (ClassificationRef.type_id c)
             (Classification.type_label e)
        /\ label_resolved harvest_terminology (ClassificationRef.term_id c)
             (Classification.term_label e))
  /\ (forall o c x,
         In o harvest_objects ->
         HarvestObject.object_id o = Some x ->
         In c (HarvestObject.classification_ids o) ->
         exists r e,
           In r (objects_transform E harvest_terminology harvest_objects)
           /\ TransformRow.object_id r = Some x
           /\ In e (TransformRow.classifications r)
           /\ label_resolved harvest_terminology (ClassificationRef.type_id c)
                (Classification.type_label e)
           /\ label_resolved harvest_terminology (ClassificationRef.term_id c)
                (Classification.term_label e)).
Proof.
  split.
  - intros r e Hr He.
    destruct (row_nested_columns E harvest_terminology harvest_objects r Hr)
      as [Hc _].
    apply (Permutation_in _ Hc) in He.
    apply in_flat_map in He as (o & Ho & He).
    destruct (join_key_eq _ _) eqn:Hj; [| destruct He].
    apply join_key_eq_true in Hj as (x & Hrx & Hox).
    apply in_flat_map in He as (c & Hcin & He).
    apply enrich_classification_resolved in He as [Hty Htm].
    exists o, c. repeat split; auto. congruence.
  - intros o c x Ho Hx Hc.
    destruct (enrich_classification_nonempty harvest_terminology c)
      as (e & He).
    set (r := enrich_row E harvest_terminology harvest_objects o).
    assert (Hr : In r (objects_transform E harvest_terminology harvest_objects))
      by now apply enrich_row_in.
    exists r, e.
    destruct (row_nested_columns E harvest_terminology harvest_objects r Hr)
      as [Hperm _].
    destruct (enrich_classification_resolved harvest_terminology c e He)
      as [Hty Htm].
    repeat split; auto.
    apply (Permutation_in _ (Permutation_sym Hperm)).
    apply in_flat_map. exists o. split; [exact Ho |].
    subst r. cbn [enrich_row TransformRow.object_id].
    rewrite Hx, join_key_eq_refl.
    apply in_flat_map. now exists c.
Qed.

Lemma classification_resolution_witness :
  exists r e,
    In r (objects_transform in_order Sample.terminology
            [Sample.obj_unresolved])
    /\ TransformRow.object_id r = Some "OBJ-010"
    /\ In e (TransformRow.classifications r)
    /\ label_resolved Sample.terminology (Some "NAT-1")
         (Classification.type_label e)
    /\ label_resolved Sample.terminology (Some "TERM-404")
         (Classification.term_label e).
Proof.
  exact (proj2 (classification_resolution in_order Sample.terminology
                  [Sample.obj_unresolved])
           Sample.obj_unresolved
           (ClassificationRef.mk (Some "NAT-1") (Some "TERM-404"))
           "OBJ-010" (or_introl eq_refl) eq_refl (or_introl eq_refl)).
Defined.

(** The type id [NAT-1] is the id of the nationality row, and is resolved
    to its label; the unknown term [TERM-404] is kept, with a null
    label. *)
Example classification_join_is_not_typed :
  map TransformRow.classifications
    (objects_transform in_order Sample.terminology [Sample.obj_unresolved])
  = [[Classification.mk (Some "Dutch") None]].
Proof. vm_compute. reflexivity. Qed.


Lemma null_term_label_fails (r : TransformRow.t) (e : Classification.t) :
  In e (TransformRow.classifications r) ->
  Classification.term_label e = None ->
  check_output ObjectTransformSchema.classification_labels_resolved r
  = Ok (Some false).
Proof.
  intros He Hnull. rewrite classification_labels_resolved_output.
  do 2 f_equal.
  destruct (TransformRow.classifications r) as [| e0 l] eqn:Hl;
    [destruct He |].
  cbn [List.length Nat.ltb Nat.leb negb orb].
  destruct (forallb _ (e0 :: l)) eqn:Hall; [| reflexivity].
  rewrite forallb_forall in Hall. specialize (Hall e He).
  now rewrite Hnull in Hall.
Qed.

Lemma unmatched_term_label (harvest_terminology : list Term.t)
    (c : ClassificationRef.t) (e : Classification.t) :
  term_matches harvest_terminology (ClassificationRef.term_id c) = 0 ->
  In e (enrich_classification harvest_terminology c) ->
  Classification.term_label e = None.
Proof.
  intros H0 He.
  apply enrich_classification_resolved in He as [_ [Hres | [Hnull _]]];
    [| exact Hnull].
  destruct Hres as (tm & x & Htm & Hk & Hid & _).
  unfold term_matches in H0. apply length_zero_iff_nil in H0.
  assert (Hin :
    In tm
      (filter
         (fun t => join_key_eq (ClassificationRef.term_id c) (Term.term_id t))
         harvest_terminology)).
  { apply filter_In. split; [exact Htm |].
    rewrite Hk, Hid. apply join_key_eq_refl. }
  rewrite H0 in Hin. destruct Hin.
Qed.

(** X14.  A reference to a term the terminology table does not have makes
    the validation fail.  When a harvested object with a non-null
    [object_id] has a classification reference whose [term_id] is the
    [term_id] of no terminology row (a null [term_id] is such a
    reference), its output row fails [no_null_labels_in_classifications],
    and [check_objects_transform] returns [False] with an error of that
    check carrying the first 80 characters of the row's JSON. *)
Theorem unresolved_term_fails_validation
    (E : Engine) (json_encode : TransformRow.t -> string)
    (harvest_terminology : list Term.t)
    (harvest_objects : list HarvestObject.t)
    (o : HarvestObject.t) (c : ClassificationRef.t) (x : string) :
  In o harvest_objects ->
  HarvestObject.object_id o = Some x ->
  In c (HarvestObject.classification_ids o) ->
  term_matches harvest_terminology (ClassificationRef.term_id c) = 0 ->
  exists r failures,
    In r (objects_transform E harvest_terminology harvest_objects)
    /\ TransformRow.object_id r = Some x
    /\ check_fails ObjectTransformSchema.classification_labels_resolved r
    /\ check_objects_transform json_encode
         (objects_transform E harvest_terminology harvest_objects)
       = (false, failures)
    /\ In (ErrorRecord.mk (Some ObjectTransformSchema.name)
             (Some "no_null_labels_in_classifications")
             (substring 0 80 (json_encode r)))
         failures.
Proof.
  intros Ho Hx Hc H0.
  set (out := objects_transform E harvest_terminology harvest_objects).
  set (r := enrich_row E harvest_terminology harvest_objects o).
  assert (Hr : In r out) by now apply enrich_row_in.
  destruct (enrich_classification_nonempty harvest_terminology c) as (e & He).
  assert (Hnull := unmatched_term_label harvest_terminology c e H0 He).
  assert (Hin : In e (TransformRow.classifications r)).
  { destruct (row_nested_columns E harvest_terminology harvest_objects r Hr)
      as [Hperm _].
    apply (Permutation_in _ (Permutation_sym Hperm)).
    apply in_flat_map. exists o. split; [exact Ho |].
    subst r. cbn [enrich_row TransformRow.object_id].
    rewrite Hx, join_key_eq_refl.
    apply in_flat_map. now exists c. }
  assert (Hfail := null_term_label_fails r e Hin Hnull).
  destruct (In_nth_error _ _ Hr) as (i & Hi).
  destruct (failing_check_reported json_encode
              ObjectTransformSchema.classification_labels_resolved
              out i r) as (failures & Hv & Hrec); auto.
  { cbn. intuition. }
  exists r, failures. repeat split; auto.
Qed.

Lemma unresolved_term_fails_validation_witness :
  exists r failures,
    In r (objects_transform in_order Sample.terminology
            [Sample.obj_unresolved])
    /\ TransformRow.object_id r = Some "OBJ-010"
    /\ check_fails ObjectTransformSchema.classification_labels_resolved r
    /\ check_objects_transform Sample.json_encode
         (objects_transform in_order Sample.terminology
            [Sample.obj_unresolved])
       = (false, failures)
    /\ In (ErrorRecord.mk (Some ObjectTransformSchema.name)
             (Some "no_null_labels_in_classifications")
             (substring 0 80 (Sample.json_encode r)))
         failures.
Proof.
  exact (unresolved_term_fails_validation in_order Sample.json_encode
           Sample.terminology [Sample.obj_unresolved] Sample.obj_unresolved
           (ClassificationRef.mk (Some "NAT-1") (Some "TERM-404"))
           "OBJ-010" (or_introl eq_refl) eq_refl (or_introl eq_refl) eq_refl).
Defined.


Section ElementWise.

Variable E : Engine.
Variable harvest_terminology : list Term.t.
Variable harvest_objects : list HarvestObject.t.

Lemma classifications_joined_ordered :
  keeps_order E 1 -> keeps_order E 2 ->
  classifications_joined E harvest_terminology harvest_objects
  = flat_map
      (fun o =>
         map (pair (HarvestObject.object_id o))
           (flat_map (enrich_classification harvest_terminology)
              (HarvestObject.classification_ids o)))
      harvest_objects.
Proof.
  intros H1 H2. unfold classifications_joined, join_left.
  rewrite H2, H1, classifications_flat_rows.
  rewrite !flat_map_flat_map, map_flat_map.
  apply flat_map_ext. intros o.
  induction (HarvestObject.classification_ids o) as [| c cs IH];
    [reflexivity |].
  cbn [map flat_map]. rewrite !map_app, IH. f_equal.
  unfold enrich_classification. cbn [FlatClassification.type_id].
  induction (join_matches fst (type_labels harvest_terminology)
               (ClassificationRef.type_id c)) as [| m ms IHm];
    [reflexivity |].
  cbn [map flat_map]. rewrite !map_app, IHm. f_equal.
  cbn [fst FlatClassification.term_id].
  rewrite !map_map. reflexivity.
Qed.

Lemma constituents_joined_ordered :
  keeps_order E 4 ->
  constituents_joined E harvest_terminology harvest_objects
  = flat_map
      (fun o =>
         map (pair (HarvestObject.object_id o))
           (flat_map (enrich_constituent harvest_terminology)
              (HarvestObject.constituents o)))
      harvest_objects.
Proof.
  intros H4. unfold constituents_joined, join_left.
  rewrite H4, constituents_flat_rows.
  rewrite !flat_map_flat_map, map_flat_map.
  apply flat_map_ext. intros o.
  induction (HarvestObject.constituents o) as [| c cs IH]; [reflexivity |].
  cbn [map flat_map]. rewrite !map_app, IH. f_equal.
  unfold enrich_constituent. cbn [FlatConstituent.nationality_id].
  rewrite !map_map. reflexivity.
Qed.

End ElementWise.

Lemma join_matches_unique {R : Type} (rk : R -> key) (right : list R)
    (k : key) :
  List.length (filter (fun r => join_key_eq k (rk r)) right) <= 1 ->
  join_matches rk right k = [find (fun r => join_key_eq k (rk r)) right].
Proof.
  unfold join_matches. induction right as [| a l IH]; [reflexivity |].
  cbn [filter find].
  destruct (join_key_eq k (rk a)).
  - cbn [List.length map]. intros Hle.
    destruct (filter (fun r => join_key_eq k (rk r)) l); [reflexivity |].
    cbn [List.length] in Hle. lia.
  - exact IH.
Qed.

Lemma flat_map_singletons {A B : Type} (f : A -> list B) (g : A -> B)
    (l : list A) :
  (forall x, In x l -> f x = [g x]) -> flat_map f l = map g l.
Proof.
  induction l as [| x l IH]; intros H; [reflexivity |].
  cbn [flat_map map]. rewrite (H x (or_introl eq_refl)), IH; [reflexivity |].
  intros y Hy. apply H. now right.
Qed.

Section UniqueLookup.

Variable harvest_terminology : list Term.t.
Hypothesis unique_term_id : term_id_unique harvest_terminology.

Lemma enrich_classification_unique (c : ClassificationRef.t) :
  enrich_classification harvest_terminology c
  = [ Classification.mk
        (lookup_label (type_labels harvest_terminology)
           (ClassificationRef.type_id c))
        (lookup_label (term_labels harvest_terminology)
           (ClassificationRef.term_id c)) ].
Proof.
  unfold enrich_classification.
  rewrite (join_matches_unique fst (type_labels harvest_terminology)),
    (join_matches_unique fst (term_labels harvest_terminology)).
  - reflexivity.
  - rewrite term_labels_matches. apply unique_term_id.
  - rewrite type_labels_matches. apply unique_term_id.
Qed.

Lemma enrich_constituent_unique (c : Constituent.t) :
  enrich_constituent harvest_terminology c
  = [ EnrichedConstituent.mk
        (Constituent.name c) (Constituent.role c) (Constituent.birth_year c)
        (lookup_label (nationality_lookup harvest_terminology)
           (Constituent.nationality_id c)) ].
Proof.
  unfold enrich_constituent.
  rewrite (join_matches_unique fst (nationality_lookup harvest_terminology)).
  - reflexivity.
  - rewrite nationality_lookup_matches.
    etransitivity; [apply nationality_matches_le | apply unique_term_id].
Qed.

End UniqueLookup.

Lemma flat_map_null_object {V : Type} (f : HarvestObject.t -> list V)
    (l : list HarvestObject.t) :
  flat_map
    (fun o' => if join_key_eq None (HarvestObject.object_id o') then f o' else [])
    l
  = [].
Proof. apply flat_map_all_nil. intros o' _. reflexivity. Qed.

(** X15.  With a unique [term_id] in the terminology, unique [object_id]s
    in the harvest and an engine that keeps the left-row order in the five
    joins, the whole plan (explode, unnest, joins, [group_by], joins back,
    [fill_null]) is an element-wise lookup: the output is the harvest, row
    for row, each reference and each constituent replaced in place by its
    enriched struct, the labels being those of the terminology row of the
    key (null when there is none).  The order of the two [group_by]s does
    not matter.  A row without [object_id] gets empty lists. *)
Theorem objects_transform_elementwise
    (E : Engine) (harvest_terminology : list Term.t)
    (harvest_objects : list HarvestObject.t) :
  term_id_unique harvest_terminology ->
  NoDup (map HarvestObject.object_id harvest_objects) ->
  keeps_order E 1 -> keeps_order E 2 -> keeps_order E 4 ->
  keeps_order E 6 -> keeps_order E 7 ->
  objects_transform E harvest_terminology harvest_objects
  = map (enrich_object harvest_terminology) harvest_objects.
Proof.
  intros Hu Hnd H1 H2 H4 H6 H7.
  rewrite objects_transform_ordered by assumption.
  apply map_ext_in. intros o Ho.
  unfold enrich_row, enrich_object, joined_back.
  rewrite classifications_joined_ordered, constituents_joined_ordered
    by assumption.
  rewrite !nested_for_object_rows.
  destruct (HarvestObject.object_id o) as [x |] eqn:Hx.
  - rewrite !(flat_map_unique_object harvest_objects _ o x Hnd Ho Hx).
    f_equal.
    + apply flat_map_singletons. intros c _.
      now apply enrich_classification_unique.
    + apply flat_map_singletons. intros c _.
      now apply enrich_constituent_unique.
  - now rewrite !flat_map_null_object.
Qed.

Lemma objects_transform_elementwise_witness :
  objects_transform in_order Sample.terminology Sample.objects
  = map (enrich_object Sample.terminology) Sample.objects.
Proof.
  apply objects_transform_elementwise.
  - apply term_id_unique_of_NoDup. cbn.
    repeat constructor; cbn; intuition discriminate.
  - cbn. repeat constructor; cbn; intuition discriminate.
  - intros A l; reflexivity.
  - intros A l; reflexivity.
  - intros A l; reflexivity.
  - intros A l; reflexivity.
  - intros A l; reflexivity.
Defined.

(* ===================================================================== *)
(** * More on the run: the sample lookup and the listing of bad records *)
(* ===================================================================== *)

Lemma filter_by_mask {A : Type} (p : A -> bool) (l : list A) :
  map fst (filter snd (combine l (map p l))) = filter p l.
Proof.
  induction l as [| x l IH]; [reflexivity |].
  cbn [map combine filter snd]. destruct (p x); cbn [map fst]; now rewrite IH.
Qed.

(** [df.filter(e)] keeps the rows on which [e] is true: a null drops the
    row. *)
Lemma filter_rows_exact (e : expr) (p : TransformRow.t -> bool)
    (rows : list TransformRow.t) :
  (forall r,
      In r rows ->
      eval (row_value r) None e = Ok (VBool (p r))
      \/ (eval (row_value r) None e = Ok VNull /\ p r = false)) ->
  filter_rows e rows = Ok (filter p rows).
Proof.
  intros H. unfold filter_rows.
  rewrite (traverse_all_ok _ p).
  - cbn [bind]. now rewrite filter_by_mask.
  - intros r Hr. destruct (H r Hr) as [-> | [-> Hp]]; cbn [bind];
      [reflexivity | now rewrite Hp].
Qed.

Lemma eval_object_id_equals (s : string) (r : TransformRow.t) :
  eval (row_value r) None (Equal (Col "object_id") (LitStr s))
  = Ok (of_obool
          (option_map (fun x => String.eqb x s) (TransformRow.object_id r))).
Proof. cbn. destruct (TransformRow.object_id r); reflexivity. Qed.

Lemma filter_rows_object_id (s : string) (rows : list TransformRow.t) :
  filter_rows (Equal (Col "object_id") (LitStr s)) rows
  = Ok (filter (fun r => key_is s (TransformRow.object_id r)) rows).
Proof.
  apply filter_rows_exact. intros r _. rewrite eval_object_id_equals.
  destruct (TransformRow.object_id r); cbn; auto.
Qed.

Lemma Zeqb_of_nat_0 (n : nat) : (Z.of_nat n =? 0)%Z = (n =? 0).
Proof. destruct n; reflexivity. Qed.

Lemma filter_rows_missing_constituents (rows : list TransformRow.t) :
  filter_rows (Equal (ListLen (Col "constituents")) (LitInt 0)) rows
  = Ok (missing_constituents_rows rows).
Proof.
  apply filter_rows_exact. intros r _. left. cbn.
  now rewrite length_map, Qeq_bool_inject_Z, Zeqb_of_nat_0.
Qed.

Lemma Qle_bool_min_list (x : Q) (xs : list Q) (b : Q) :
  Qle_bool (Qmin_list x xs) b = existsb (fun y => Qle_bool y b) (x :: xs).
Proof.
  destruct (existsb _ (x :: xs)) eqn:Hex.
  - apply existsb_exists in Hex as (y & Hy & Hle).
    apply Qle_bool_iff, Qmin_list_le_iff. exists y. split; [exact Hy |].
    now apply Qle_bool_iff.
  - destruct (Qle_bool (Qmin_list x xs) b) eqn:Hle; [| reflexivity].
    apply Qle_bool_iff, Qmin_list_le_iff in Hle as (y & Hy & Hle).
    rewrite <- Hex. symmetry. apply existsb_exists. exists y.
    split; [exact Hy | now apply Qle_bool_iff].
Qed.

Lemma existsb_map_comp {A B : Type} (f : B -> bool) (g : A -> B)
    (l : list A) :
  existsb f (map g l) = existsb (fun x => f (g x)) l.
Proof. induction l as [| x l IH]; [reflexivity |]. cbn. now rewrite IH. Qed.

Lemma filter_rows_bad_dimensions (rows : list TransformRow.t) :
  filter_rows
    (LessEq
       (ListMin (ListEval (Col "dimensions") (StructField Element "value")))
       (LitInt 1))
    rows
  = Ok (bad_dimension_rows rows).
Proof.
  apply filter_rows_exact. intros r _.
  remember (ListMin (ListEval (Col "dimensions") (StructField Element "value")))
    as least eqn:Hleast.
  cbn [eval]. subst least. rewrite eval_least_dimension.
  unfold least_dimension.
  destruct (TransformRow.dimensions r) as [| d ds]; [right; now split |].
  left. cbn [bind]. cbn -[Qmin_list Qle_bool existsb].
  do 2 f_equal. rewrite Qle_bool_min_list.
  change (Dimension.value d :: map Dimension.value ds)
    with (map Dimension.value (d :: ds)).
  rewrite existsb_map_comp. reflexivity.
Qed.

Section MainFacts.

Variable E : Engine.
Variable json_encode : TransformRow.t -> string.

(** No step of the modelled run raises a Polars error, and the sample
    lookup decides how the run ends. *)
Lemma materialise_raised (output_path : string)
    (terminology_df : list Term.t) (objects_df : list HarvestObject.t) :
  raised (materialise E json_encode output_path terminology_df objects_df)
  = match
      filter (fun r => key_is "OBJ-004" (TransformRow.object_id r))
        (objects_transform E terminology_df objects_df)
    with
    | [] => Some IndexError
    | _ :: _ => None
    end.
Proof.
  unfold materialise.
  destruct (check_objects_transform json_encode _) as [passed errors].
  rewrite filter_rows_object_id.
  destruct passed.
  - destruct (filter _ _); reflexivity.
  - destruct (failure_report_lines
                (objects_transform E terminology_df objects_df) errors)
      as (report & -> & _).
    destruct (filter _ _); reflexivity.
Qed.

Lemma sample_rows_of_objects (s : string)
    (terminology_df : list Term.t) (objects_df : list HarvestObject.t) :
  filter (fun r => key_is s (TransformRow.object_id r))
    (objects_transform E terminology_df objects_df) = []
  <-> existsb (fun o => key_is s (HarvestObject.object_id o)) objects_df
      = false.
Proof.
  split.
  - intros Hnil.
    destruct (existsb _ objects_df) eqn:Hex; [| reflexivity].
    apply existsb_exists in Hex as (o & Ho & Hk).
    assert (Hin :
      In (enrich_row E terminology_df objects_df o)
        (filter (fun r => key_is s (TransformRow.object_id r))
           (objects_transform E terminology_df objects_df))).
    { apply filter_In. split; [now apply enrich_row_in | exact Hk]. }
    rewrite Hnil in Hin. destruct Hin.
  - intros Hex.
    destruct (filter _ _) as [| r l] eqn:Hf; [reflexivity |].
    assert (Hin : In r (r :: l)) by now left.
    rewrite <- Hf in Hin. apply filter_In in Hin as [Hr Hk].
    apply in_objects_transform in Hr as (o & Ho & ->).
    cbn [enrich_row TransformRow.object_id] in Hk.
    enough (existsb (fun o => key_is s (HarvestObject.object_id o)) objects_df
            = true) by congruence.
    apply existsb_exists. now exists o.
Qed.

End MainFacts.

(** X16.  [main] ends with the [IndexError] of [...to_dicts()[0]] exactly
    when no harvested object has [object_id] ["OBJ-004"], whatever the
    verdict of the check; otherwise it ends normally.  Neither the
    validation report nor the sample lookup raises a Polars error. *)
Theorem sample_lookup_needs_OBJ_004
    (E : Engine) (json_encode : TransformRow.t -> string)
    (harvest_terminology : list Term.t)
    (harvest_objects : list HarvestObject.t) :
  raised (pipeline_xml.main E json_encode harvest_terminology harvest_objects)
  = if existsb (fun o => key_is "OBJ-004" (HarvestObject.object_id o))
         harvest_objects
    then None
    else Some IndexError.
Proof.
  unfold pipeline_xml.main. rewrite materialise_raised.
  pose proof (sample_rows_of_objects E "OBJ-004" harvest_terminology
                harvest_objects) as Hiff.
  destruct (existsb _ harvest_objects).
  - destruct (filter _ _); [| reflexivity].
    destruct Hiff as [Hiff _]. discriminate (Hiff eq_refl).
  - destruct Hiff as [_ Hiff]. now rewrite (Hiff eq_refl).
Qed.


Lemma has_constituents_fails_iff (r : TransformRow.t) :
  check_fails ObjectTransformSchema.has_constituents r
  <-> (List.length (TransformRow.constituents r) =? 0) = true.
Proof.
  unfold check_fails. rewrite has_constituents_output.
  destruct (TransformRow.constituents r); cbn; split;
    (reflexivity || discriminate).
Qed.

Lemma bad_dimension_iff (r : TransformRow.t) :
  existsb (fun d => Qle_bool (Dimension.value d) 1) (TransformRow.dimensions r)
  = true
  <-> exists d,
      In d (TransformRow.dimensions r) /\ (Dimension.value d <= 1)%Q.
Proof.
  rewrite existsb_exists.
  split; intros (d & Hd & Hle); exists d; (split; [exact Hd |]);
    now apply Qle_bool_iff.
Qed.

(** X17.  The listing of bad records [main] prints after a failed check
    agrees with the schema.  The report is: the number of distinct failed
    checks and one line for each; one "Missing constituents" line, when
    some row has no constituent, with the [object_id]s of the rows that
    fail [has_at_least_one_constituent], in table order; one "Bad
    dimension" line for each row that fails [all_dimension_values_gt_1],
    in table order, with the values of at most 1, of which there is at
    least one; and the note on blocking.  None of its filters raises. *)
Theorem failure_report_agrees_with_checks
    (transform_df : list TransformRow.t) (errors : list ErrorRecord.t) :
  failure_report transform_df errors
  = Ok ([FailedChecks (List.length (unique_errors [] errors))]
        ++ map
             (fun err =>
                FailedCheck (ErrorRecord.column err) (ErrorRecord.check err))
             (unique_errors [] errors)
        ++ match missing_constituents_rows transform_df with
           | [] => []
           | missing => [MissingConstituents (map TransformRow.object_id missing)]
           end
        ++ map
             (fun row => BadDimension (TransformRow.object_id row) (bad_values row))
             (bad_dimension_rows transform_df)
        ++ [BlockingNote])
  /\ (forall r,
         In r (missing_constituents_rows transform_df)
         <-> In r transform_df
             /\ check_fails ObjectTransformSchema.has_constituents r)
  /\ (forall r,
         In r (bad_dimension_rows transform_df)
         <-> In r transform_df
             /\ check_fails ObjectTransformSchema.dimension_values_positive r)
  /\ (forall r, In r (bad_dimension_rows transform_df) -> bad_values r <> []).
Proof.
  split; [| split; [| split]].
  - unfold failure_report.
    rewrite filter_rows_missing_constituents. cbn [bind].
    rewrite filter_rows_bad_dimensions. cbn [bind].
    destruct (missing_constituents_rows transform_df); reflexivity.
  - intros r. unfold missing_constituents_rows.
    now rewrite filter_In, has_constituents_fails_iff.
  - intros r. unfold bad_dimension_rows, check_fails.
    now rewrite filter_In, bad_dimension_iff, dimension_values_positive_fails.
  - intros r Hr. unfold bad_dimension_rows in Hr.
    apply filter_In in Hr as [_ Hex].
    apply bad_dimension_iff in Hex as (d & Hd & Hle).
    assert (Hin : In (Dimension.value d) (bad_values r)).
    { apply filter_In. split; [now apply in_map | now apply Qle_bool_iff]. }
    intros Hnil. rewrite Hnil in Hin. destruct Hin.
Qed.


Section UniqueErrors.

Lemma seen_iff (seen : list (key * key)) (k : key * key) :
  existsb
    (fun s => group_key_eq (fst s) (fst k) && group_key_eq (snd s) (snd k))
    seen
  = true
  <-> In k seen.
Proof.
  rewrite existsb_exists. split.
  - intros ([a b] & Hs & Heq). cbn [fst snd] in Heq.
    apply andb_prop in Heq as [Ha Hb].
    apply group_key_eq_iff in Ha, Hb. destruct k. cbn [fst snd] in *.
    now subst.
  - intros Hin. exists k. split; [exact Hin |].
    apply andb_true_intro. split; now apply group_key_eq_iff.
Qed.

Lemma unique_errors_step (seen : list (key * key)) (err : ErrorRecord.t)
    (rest : list ErrorRecord.t) :
  (In (error_key err) seen
   /\ unique_errors seen (err :: rest) = unique_errors seen rest)
  \/ (~ In (error_key err) seen
      /\ unique_errors seen (err :: rest)
         = err :: unique_errors (error_key err :: seen) rest).
Proof.
  cbn [unique_errors].
  fold (error_key err).
  destruct (existsb _ seen) eqn:Hseen.
  - left. split; [now apply seen_iff | reflexivity].
  - right. split; [| reflexivity].
    intros Hin. apply seen_iff in Hin. congruence.
Qed.

Lemma unique_errors_fresh (errors : list ErrorRecord.t) :
  forall (seen : list (key * key)) (err : ErrorRecord.t),
    In err (unique_errors seen errors) ->
    exists before after,
      errors = before ++ err :: after
      /\ ~ In (error_key err) (map error_key before)
      /\ ~ In (error_key err) seen.
Proof.
  induction errors as [| e rest IH]; intros seen err Hin; [destruct Hin |].
  destruct (unique_errors_step seen e rest) as [[Hseen Heq] | [Hnew Heq]];
    rewrite Heq in Hin.
  - destruct (IH seen err Hin) as (before & after & -> & Hb & Hs).
    exists (e :: before), after. split; [reflexivity |]. split; [| exact Hs].
    cbn [map]. intros [Hk | H]; [| now apply Hb].
    apply Hs. now rewrite <- Hk.
  - destruct Hin as [-> | Hin].
    + exists [], rest. split; [reflexivity |]. split; [intros [] | exact Hnew].
    + destruct (IH _ err Hin) as (before & after & -> & Hb & Hs).
      exists (e :: before), after. split; [reflexivity |]. split.
      * cbn [map]. intros [Hk | H]; [| now apply Hb].
        apply Hs. left. exact Hk.
      * intros H. apply Hs. now right.
Qed.

Lemma unique_errors_NoDup (errors : list ErrorRecord.t) :
  forall seen : list (key * key),
    NoDup (map error_key (unique_errors seen errors)).
Proof.
  induction errors as [| e rest IH]; intros seen; [constructor |].
  destruct (unique_errors_step seen e rest) as [[_ ->] | [_ ->]];
    [apply IH |].
  cbn [map]. constructor; [| apply IH].
  intros Hin. apply in_map_iff in Hin as (err & Hk & Hin).
  apply unique_errors_fresh in Hin as (_ & _ & _ & _ & Hs).
  apply Hs. left. now rewrite Hk.
Qed.

End UniqueErrors.

(** X18.  The deduplication loop of [main] keeps the first error of every
    [(column, check)] pair and nothing else: the kept errors have pairwise
    distinct pairs, every pair of the input has its error, and every kept
    error is an input error with no earlier error of its pair.  So the
    number printed in "FAILED - n check(s)" is the number of distinct
    pairs, not the number of failure cases. *)
Theorem unique_errors_keeps_the_first (errors : list ErrorRecord.t) :
  NoDup (map error_key (unique_errors [] errors))
  /\ (forall k,
         In k (map error_key (unique_errors [] errors))
         <-> In k (map error_key errors))
  /\ (forall err,
         In err (unique_errors [] errors) ->
         exists before after,
           errors = before ++ err :: after
           /\ ~ In (error_key err) (map error_key before)).
Proof.
  split; [apply unique_errors_NoDup |]. split.
  - intros k. rewrite !in_map_iff. split.
    + intros (err & Hk & Hin).
      apply unique_errors_fresh in Hin as (before & after & -> & _).
      exists err. split; [exact Hk |]. apply in_or_app. right. now left.
    + intros (err & Hk & Hin).
      destruct (unique_errors_covers [] errors err Hin)
        as [[] | (err' & Hin' & Hc & Hch)].
      exists err'. split; [| exact Hin'].
      rewrite <- Hk. unfold error_key. now rewrite Hc, Hch.
  - intros err Hin.
    apply unique_errors_fresh in Hin as (before & after & Heq & Hb & _).
    now exists before, after.
Qed.


(* ===================================================================== *)
(** * When the check passes *)
(* ===================================================================== *)

Lemma nil_iff_no_member {A : Type} (l : list A) :
  l = [] <-> forall x, ~ In x l.
Proof.
  split.
  - intros -> x [].
  - destruct l as [| a l]; [reflexivity |].
    intros H. destruct (H a). now left.
Qed.

Lemma app_nil_iff {A : Type} (l l' : list A) :
  l ++ l' = [] <-> l = [] /\ l' = [].
Proof.
  split; [apply app_eq_nil | now intros [-> ->]].
Qed.

Lemma flat_map_nil_iff {A B : Type} (f : A -> list B) (l : list A) :
  flat_map f l = [] <-> forall x, In x l -> f x = [].
Proof.
  split.
  - intros H x Hx. apply nil_iff_no_member. intros y Hy.
    rewrite nil_iff_no_member in H. apply (H y).
    apply in_flat_map. now exists x.
  - apply flat_map_all_nil.
Qed.

Lemma filter_enumerate_nil {A : Type} (p : A -> bool) (l : list A) :
  filter (fun ir : nat * A => p (snd ir)) (enumerate l) = []
  <-> forall x, In x l -> p x = false.
Proof.
  split.
  - intros H x Hx. destruct (p x) eqn:Hp; [| reflexivity].
    destruct (In_nth_error _ _ Hx) as (i & Hi).
    rewrite nil_iff_no_member in H. destruct (H (i, x)).
    apply filter_In. split; [now apply in_enumerate | exact Hp].
  - intros H. apply filter_all_false. intros [i x] Hin.
    apply in_enumerate, nth_error_In in Hin. now apply H.
Qed.

Lemma map_nil_iff {A B : Type} (f : A -> B) (l : list A) :
  map f l = [] <-> l = [].
Proof. split; [apply map_eq_nil | now intros ->]. Qed.

(** A column declaration has no failure case exactly when no cell is null
    (unless the column is nullable), no cell is repeated (when the column
    is unique) and every non-null cell passes the built-in checks. *)
Lemma field_failure_cases_nil (f : Field) (rows : list TransformRow.t) :
  field_failure_cases f rows = []
  <-> (nullable f = false ->
       forall r, In r rows -> is_null (field_get f r) = false)
      /\ (unique f = true ->
          forall r,
            In r rows ->
            (1 <? List.length
                    (filter (scalar_eqb (field_get f r))
                       (map (field_get f) rows)))
            = false)
      /\ (forall c,
             In c (field_checks f) ->
             forall r,
               In r rows ->
               negb (is_null (field_get f r))
               && negb (field_check_holds c (field_get f r))
               = false).
Proof.
  unfold field_failure_cases.
  rewrite !app_nil_iff, flat_map_nil_iff.
  assert (Hcells : forall p : value -> bool,
             (forall v, In v (map (field_get f) rows) -> p v = false)
             <-> (forall r, In r rows -> p (field_get f r) = false)).
  { intros p. split.
    - intros H r Hr. apply H. now apply in_map.
    - intros H v Hv. apply in_map_iff in Hv as (r & <- & Hr). now apply H. }
  split.
  - intros (Hnull & Huniq & Hchecks). split; [| split].
    + intros Hn. rewrite Hn in Hnull.
      apply map_nil_iff in Hnull.
      apply (Hcells is_null).
      now apply (filter_enumerate_nil is_null).
    + intros Hu. rewrite Hu in Huniq.
      apply map_nil_iff in Huniq.
      apply (Hcells
               (fun v =>
                  1 <? List.length
                         (filter (scalar_eqb v) (map (field_get f) rows)))).
      now apply (filter_enumerate_nil
                   (fun v =>
                      1 <? List.length
                             (filter (scalar_eqb v) (map (field_get f) rows)))).
    + intros c Hc. specialize (Hchecks c Hc).
      apply map_nil_iff in Hchecks.
      apply (Hcells
               (fun v => negb (is_null v) && negb (field_check_holds c v))).
      now apply (filter_enumerate_nil
                   (fun v => negb (is_null v) && negb (field_check_holds c v))).
  - intros (Hnull & Huniq & Hchecks). split; [| split].
    + destruct (nullable f); [reflexivity |].
      apply map_nil_iff.
      apply (filter_enumerate_nil is_null).
      apply (Hcells is_null). now apply Hnull.
    + destruct (unique f); [| reflexivity].
      apply map_nil_iff.
      apply (filter_enumerate_nil
               (fun v =>
                  1 <? List.length
                         (filter (scalar_eqb v) (map (field_get f) rows)))).
      apply (Hcells
               (fun v =>
                  1 <? List.length
                         (filter (scalar_eqb v) (map (field_get f) rows)))).
      now apply Huniq.
    + intros c Hc. apply map_nil_iff.
      apply (filter_enumerate_nil
               (fun v => negb (is_null v) && negb (field_check_holds c v))).
      apply (Hcells
               (fun v => negb (is_null v) && negb (field_check_holds c v))).
      now apply Hchecks.
Qed.

Lemma scalar_eqb_of_key (a b : key) :
  scalar_eqb (of_key a) (of_key b) = true <-> a = b.
Proof.
  destruct a as [x |], b as [y |]; cbn;
    try (split; [discriminate | congruence]); try tauto.
  rewrite String.eqb_eq. split; congruence.
Qed.

Lemma equal_cells_count (k : key) (ks : list key) :
  List.length (filter (scalar_eqb (of_key k)) (map of_key ks))
  = count_occ key_eq_dec ks k.
Proof.
  induction ks as [| a ks IH]; [reflexivity |].
  cbn [map filter count_occ].
  destruct (key_eq_dec a k) as [-> | Hne].
  - rewrite (proj2 (scalar_eqb_of_key k k) eq_refl).
    cbn [List.length]. now rewrite IH.
  - destruct (scalar_eqb (of_key k) (of_key a)) eqn:Heq; [| exact IH].
    apply scalar_eqb_of_key in Heq. congruence.
Qed.

(** No cell of a column of string keys is repeated exactly when the keys
    are pairwise distinct, null included. *)
Lemma unique_cells_NoDup (ks : list key) :
  (forall k,
      In k ks ->
      (1 <? List.length (filter (scalar_eqb (of_key k)) (map of_key ks)))
      = false)
  <-> NoDup ks.
Proof.
  rewrite (NoDup_count_occ key_eq_dec). split.
  - intros H k. destruct (in_dec key_eq_dec k ks) as [Hin | Hout].
    + specialize (H k Hin). rewrite equal_cells_count in H.
      apply Nat.ltb_ge in H. exact H.
    + apply (count_occ_not_In key_eq_dec) in Hout. lia.
  - intros H k _. rewrite equal_cells_count. apply Nat.ltb_ge, H.
Qed.

Section PassingTable.

Variable json_encode : TransformRow.t -> string.

Lemma validate_nil (rows : list TransformRow.t) :
  validate json_encode rows = []
  <-> (forall f,
          In f ObjectTransformSchema.fields -> field_failure_cases f rows = [])
      /\ (forall c r,
             In c ObjectTransformSchema.checks -> In r rows ->
             ~ check_fails c r).
Proof.
  unfold validate. rewrite app_nil_iff, !flat_map_nil_iff.
  apply and_iff_compat_l. split.
  - intros H c r Hc Hr Hfail.
    specialize (H c Hc). rewrite nil_iff_no_member in H.
    destruct (In_nth_error _ _ Hr) as (i & Hi).
    eapply H. apply in_check_failure_cases; [exact Hc |].
    exists i, r. repeat split; [exact Hi | exact Hfail].
  - intros H c Hc. apply nil_iff_no_member. intros fc Hfc.
    apply in_check_failure_cases in Hfc as (i & r & Hi & Hfail & _);
      [| exact Hc].
    apply (H c r Hc); [eapply nth_error_In; exact Hi | exact Hfail].
Qed.

End PassingTable.

(** The column declarations hold on a table. *)
Lemma fields_hold_iff (rows : list TransformRow.t) :
  (forall f,
      In f ObjectTransformSchema.fields -> field_failure_cases f rows = [])
  <-> columns_valid rows.
Proof.
  unfold columns_valid. split.
  - intros H.
    assert (Hid := H ObjectTransformSchema.object_id).
    assert (Htitle := H ObjectTransformSchema.title).
    assert (Hdate := H ObjectTransformSchema.date_made).
    assert (Hcredit := H ObjectTransformSchema.credit_line).
    assert (Hdept := H ObjectTransformSchema.department).
    clear H.
    rewrite field_failure_cases_nil in Hid, Htitle, Hdate, Hcredit, Hdept.
    destruct Hid as (Hid & Huniq & _); [cbn; tauto |].
    destruct Htitle as (Htitle & _ & Hlen); [cbn; tauto |].
    destruct Hdate as (_ & _ & Hrange); [cbn; tauto |].
    destruct Hcredit as (Hcredit & _ & _); [cbn; tauto |].
    destruct Hdept as (Hdept & _ & _); [cbn; tauto |].
    split.
    + intros r Hr.
      specialize (Hid eq_refl r Hr). specialize (Htitle eq_refl r Hr).
      specialize (Hcredit eq_refl r Hr). specialize (Hdept eq_refl r Hr).
      pose proof (Hlen (StrLengthMin 1) (or_introl eq_refl) r Hr) as Hlen1.
      pose proof (Hrange (Ge 0) (or_introl eq_refl) r Hr) as Hge.
      pose proof (Hrange (Le 2100) (or_intror (or_introl eq_refl)) r Hr)
        as Hle.
      cbn in Hid, Htitle, Hcredit, Hdept, Hlen1, Hge, Hle.
      unfold row_valid.
      destruct (TransformRow.object_id r) as [oid |]; [| discriminate].
      destruct (TransformRow.title r) as [ttl |]; [| discriminate].
      destruct (TransformRow.credit_line r) as [credit |]; [| discriminate].
      destruct (TransformRow.department r) as [dept |]; [| discriminate].
      cbn in Hlen1. apply negb_false_iff in Hlen1.
      split; [discriminate |]. split; [| split; [| split; discriminate]].
      * exists ttl. split; [reflexivity |].
        destruct (String.length ttl); [discriminate | lia].
      * intros y Hy. rewrite Hy in Hge, Hle. cbn in Hge, Hle.
        apply negb_false_iff in Hge, Hle. lia.
    + specialize (Huniq eq_refl). cbn [field_get ObjectTransformSchema.object_id]
        in Huniq.
      apply unique_cells_NoDup. intros k Hk.
      apply in_map_iff in Hk as (r & <- & Hr).
      specialize (Huniq r Hr). now rewrite map_map.
  - intros [Hrows Hnd] f Hf.
    apply field_failure_cases_nil.
    cbn in Hf.
    destruct Hf
      as [<- | [<- | [<- | [<- | [<- | [<- | [<- | [<- | [<- | []]]]]]]]]].
    + split; [| split].
      * intros _ r Hr. cbn. destruct (Hrows r Hr) as (Hid & _).
        destruct (TransformRow.object_id r); [reflexivity | congruence].
      * intros _ r Hr. cbn [field_get ObjectTransformSchema.object_id].
        rewrite <- (map_map TransformRow.object_id of_key).
        apply (proj2 (unique_cells_NoDup (map TransformRow.object_id rows))
                 Hnd).
        now apply in_map.
      * intros c [].
    + split; [| split].
      * intros _ r Hr. cbn.
        destruct (Hrows r Hr) as (_ & (s & -> & _) & _). reflexivity.
      * cbn. discriminate.
      * intros c [<- | []] r Hr.
        destruct (Hrows r Hr) as (_ & (s & Hs & Hlen) & _).
        cbn. rewrite Hs. cbn.
        destruct (String.length s); [lia | reflexivity].
    + split; [| split].
      * cbn. discriminate.
      * cbn. discriminate.
      * intros c Hc r Hr. destruct (Hrows r Hr) as (_ & _ & Hdate & _).
        cbn [field_get ObjectTransformSchema.date_made].
        destruct (TransformRow.date_made r) as [y |]; [| reflexivity].
        specialize (Hdate y eq_refl).
        destruct Hc as [<- | [<- | []]]; cbn; apply negb_false_iff; lia.
    + split; [| split].
      * intros _ r Hr. cbn. destruct (Hrows r Hr) as (_ & _ & _ & Hc & _).
        destruct (TransformRow.credit_line r); [reflexivity | congruence].
      * cbn. discriminate.
      * intros c [].
    + split; [| split].
      * intros _ r Hr. cbn. destruct (Hrows r Hr) as (_ & _ & _ & _ & Hd).
        destruct (TransformRow.department r); [reflexivity | congruence].
      * cbn. discriminate.
      * intros c [].
    + split; [| split];
        [intros _ r Hr; reflexivity | cbn; discriminate | intros c []].
    + split; [| split];
        [intros _ r Hr; reflexivity | cbn; discriminate | intros c []].
    + split; [| split];
        [intros _ r Hr; reflexivity | cbn; discriminate | intros c []].
    + split; [| split];
        [intros _ r Hr; reflexivity | cbn; discriminate | intros c []].
Qed.

(** X19.  [check_objects_transform] returns [True] exactly on the tables
    whose column declarations hold and on which no dataframe check is
    [False] on any row.  The column declarations are: [object_id],
    [title], [credit_line] and [department] are not null, [title] has at
    least one character, [date_made] is null or between 0 and 2100, and no
    two rows have the same [object_id].  A check whose output is null on a
    row does not fail, and no check raises.  The empty table passes. *)
Theorem check_passes_iff
    (json_encode : TransformRow.t -> string)
    (transform_df : list TransformRow.t) :
  fst (check_objects_transform json_encode transform_df) = true
  <-> columns_valid transform_df
      /\ forall c r,
          In c ObjectTransformSchema.checks -> In r transform_df ->
          ~ check_fails c r.
Proof.
  destruct (check_objects_transform_report json_encode transform_df)
    as [_ Hpass].
  now rewrite Hpass, validate_nil, fields_hold_iff.
Qed.

(** The sample object [OBJ-001], enriched with the sample terminology,
    passes the check. *)
Example clean_harvest_passes :
  check_objects_transform Sample.json_encode
    (objects_transform in_order Sample.terminology [Sample.obj_001])
  = (true, []).
Proof. vm_compute. reflexivity. Qed.


(* ===================================================================== *)
(** * What the check does not look at *)
(* ===================================================================== *)

Lemma known_outcomes_map {A B : Type} (p : B -> option bool) (g : A -> B)
    (l : list A) :
  known_outcomes p (map g l) = known_outcomes (fun x => p (g x)) l.
Proof.
  unfold known_outcomes.
  induction l as [| x l IH]; [reflexivity |].
  cbn [map flat_map]. now rewrite IH.
Qed.

Lemma forallb_map_comp {A B : Type} (f : B -> bool) (g : A -> B)
    (l : list A) :
  forallb f (map g l) = forallb (fun x => f (g x)) l.
Proof. induction l as [| x l IH]; [reflexivity |]. cbn. now rewrite IH. Qed.

Lemma known_birth_years_unchecked (r : TransformRow.t) :
  known_birth_years (without_unchecked_labels r) = known_birth_years r.
Proof.
  unfold known_birth_years, without_unchecked_labels.
  cbn [TransformRow.constituents].
  induction (TransformRow.constituents r) as [| c cs IH]; [reflexivity |].
  cbn [map flat_map EnrichedConstituent.birth_year]. now rewrite IH.
Qed.

(** No dataframe check reads [type_label] or [nationality]. *)
Lemma check_output_unchecked (c : Check) (r : TransformRow.t) :
  In c ObjectTransformSchema.checks ->
  check_output c (without_unchecked_labels r) = check_output c r.
Proof.
  revert c. apply Forall_forall.
  unfold ObjectTransformSchema.checks. repeat apply Forall_cons;
    [.. | apply Forall_nil].
  - rewrite !has_constituents_output. cbn [without_unchecked_labels
      TransformRow.constituents]. now rewrite length_map.
  - now rewrite !has_media_output.
  - now rewrite !dimension_values_positive_output.
  - now rewrite !has_height_output.
  - now rewrite !units_consistent_output.
  - now rewrite !urls_are_https_output.
  - now rewrite !has_primary_image_output.
  - rewrite !constituent_names_not_empty_output.
    cbn [without_unchecked_labels TransformRow.constituents].
    now rewrite length_map, known_outcomes_map.
  - rewrite !has_artist_output.
    cbn [without_unchecked_labels TransformRow.constituents].
    now rewrite length_map, known_outcomes_map.
  - rewrite !classification_labels_resolved_output.
    cbn [without_unchecked_labels TransformRow.classifications].
    now rewrite length_map, forallb_map_comp.
  - now rewrite !sculpture_has_depth_output.
  - rewrite !birth_before_creation_output.
    unfold latest_birth_year. now rewrite known_birth_years_unchecked.
Qed.

Lemma columns_valid_unchecked (rows : list TransformRow.t) :
  columns_valid (map without_unchecked_labels rows) <-> columns_valid rows.
Proof.
  unfold columns_valid. rewrite map_map. cbn [without_unchecked_labels
    TransformRow.object_id].
  apply and_iff_compat_r. split.
  - intros H r Hr. exact (H _ (in_map without_unchecked_labels _ _ Hr)).
  - intros H r' Hr'. apply in_map_iff in Hr' as (r & <- & Hr).
    exact (H r Hr).
Qed.

Lemma passes_unchecked (json_encode json_encode' : TransformRow.t -> string)
    (rows : list TransformRow.t) :
  fst (check_objects_transform json_encode
         (map without_unchecked_labels rows))
  = fst (check_objects_transform json_encode' rows).
Proof.
  apply Bool.eq_true_iff_eq.
  destruct (check_objects_transform_report json_encode
              (map without_unchecked_labels rows)) as [_ ->].
  destruct (check_objects_transform_report json_encode' rows) as [_ ->].
  rewrite !validate_nil, !fields_hold_iff, columns_valid_unchecked.
  apply and_iff_compat_l. unfold check_fails. split.
  - intros H c r Hc Hr.
    rewrite <- (check_output_unchecked c r Hc).
    apply (H c _ Hc). now apply in_map.
  - intros H c r' Hc Hr'. apply in_map_iff in Hr' as (r & <- & Hr).
    rewrite (check_output_unchecked c r Hc). now apply H.
Qed.

(** X20.  The verdict of [check_objects_transform] does not depend on the
    [type_label] of the classifications nor on the [nationality] of the
    constituents: two tables that differ in these labels only pass or fail
    together.  So a type or a nationality that the joins left unresolved
    (or resolved to the wrong term) is never what blocks the output, and
    the verdict does not depend on how the failing rows are serialised. *)
Theorem verdict_ignores_type_label_and_nationality
    (json_encode json_encode' : TransformRow.t -> string)
    (rows rows' : list TransformRow.t) :
  map without_unchecked_labels rows = map without_unchecked_labels rows' ->
  fst (check_objects_transform json_encode rows)
  = fst (check_objects_transform json_encode' rows').
Proof.
  intros Heq.
  rewrite <- (passes_unchecked json_encode json_encode rows).
  rewrite Heq. apply passes_unchecked.
Qed.

(** Without the nationality row of the sample terminology the constituent
    of [OBJ-001] has no nationality, and the verdict is the same. *)
Lemma verdict_ignores_type_label_and_nationality_witness :
  fst (check_objects_transform Sample.json_encode
         (objects_transform in_order Sample.terminology [Sample.obj_001]))
  = fst (check_objects_transform Sample.json_encode
           (objects_transform in_order
              [ Sample.term "TYPE-1" "classification_type" "Medium";
                Sample.term "TERM-1" "medium" "Oil on canvas" ]
              [Sample.obj_001])).
Proof.
  apply verdict_ignores_type_label_and_nationality.
  vm_compute. reflexivity.
Defined.


(* ===================================================================== *)
(** * What a passed check says about the harvest *)
(* ===================================================================== *)

Lemma has_media_fails_iff (r : TransformRow.t) :
  check_fails ObjectTransformSchema.has_media r
  <-> TransformRow.media r = [].
Proof.
  unfold check_fails. rewrite has_media_output.
  destruct (TransformRow.media r); cbn; split;
    (reflexivity || discriminate).
Qed.

Lemma output_object_ids_perm (E : Engine) (harvest_terminology : list Term.t)
    (harvest_objects : list HarvestObject.t) :
  Permutation
    (map TransformRow.object_id
       (objects_transform E harvest_terminology harvest_objects))
    (map HarvestObject.object_id harvest_objects).
Proof.
  rewrite <- (map_ext _ _
                (fun o : HarvestObject.t =>
                   eq_refl
                     (TransformRow.object_id
                        (enrich_row E harvest_terminology harvest_objects o)))).
  rewrite <- (map_map (enrich_row E harvest_terminology harvest_objects)
                TransformRow.object_id).
  apply Permutation_map, objects_transform_perm.
Qed.

(** X21.  A passed check enforces the referential integrity of the term
    references, and of nothing else in the terminology.  When
    [check_objects_transform] returns [True] on the output of
    [objects_transform], the harvested objects have pairwise distinct,
    non-null [object_id]s, each has at least one constituent and one
    image, and every classification reference has a non-null [term_id]
    that is the [term_id] of a terminology row with a label. *)
Theorem passed_check_means_resolved_terms
    (E : Engine) (json_encode : TransformRow.t -> string)
    (harvest_terminology : list Term.t)
    (harvest_objects : list HarvestObject.t) :
  fst (check_objects_transform json_encode
         (objects_transform E harvest_terminology harvest_objects))
  = true ->
  NoDup (map HarvestObject.object_id harvest_objects)
  /\ forall o,
      In o harvest_objects ->
      HarvestObject.object_id o <> None
      /\ HarvestObject.constituents o <> []
      /\ HarvestObject.media o <> []
      /\ forall c,
          In c (HarvestObject.classification_ids o) ->
          exists tm x lbl,
            In tm harvest_terminology
            /\ ClassificationRef.term_id c = Some x
            /\ Term.term_id tm = Some x
            /\ Term.label tm = Some lbl.
Proof.
  intros Hpass.
  set (out := objects_transform E harvest_terminology harvest_objects) in *.
  destruct (check_objects_transform_report json_encode out) as [_ Hiff].
  apply Hiff in Hpass. apply validate_nil in Hpass as [Hfields Hchecks].
  apply fields_hold_iff in Hfields as [Hrows Hnd].
  assert (Hnd' : NoDup (map HarvestObject.object_id harvest_objects)).
  { eapply Permutation_NoDup; [| exact Hnd]. apply output_object_ids_perm. }
  split; [exact Hnd' |].
  intros o Ho.
  set (r := enrich_row E harvest_terminology harvest_objects o).
  assert (Hr : In r out) by now apply enrich_row_in.
  destruct (Hrows r Hr) as (Hid & _).
  change (TransformRow.object_id r) with (HarvestObject.object_id o) in Hid.
  destruct (HarvestObject.object_id o) as [x |] eqn:Hx; [| congruence].
  destruct (unique_row_nested_columns E harvest_terminology harvest_objects
              o x r Hnd' Ho Hx Hr) as [Hcls Hcst].
  { subst r. cbn [enrich_row TransformRow.object_id]. exact Hx. }
  split; [discriminate |]. split; [| split].
  - intros Hnil. rewrite Hnil in Hcst. cbn [flat_map] in Hcst.
    apply Permutation_sym, Permutation_nil in Hcst.
    apply (Hchecks ObjectTransformSchema.has_constituents r);
      [cbn; tauto | exact Hr |].
    apply has_constituents_fails_iff. now rewrite Hcst.
  - intros Hnil.
    apply (Hchecks ObjectTransformSchema.has_media r);
      [cbn; tauto | exact Hr |].
    apply has_media_fails_iff. exact Hnil.
  - intros c Hc.
    destruct (enrich_classification_nonempty harvest_terminology c)
      as (e & He).
    assert (Hin : In e (TransformRow.classifications r)).
    { apply (Permutation_in _ (Permutation_sym Hcls)).
      apply in_flat_map. now exists c. }
    destruct (enrich_classification_resolved harvest_terminology c e He)
      as [_ [(tm & y & Htm & Hk & Htid & Hlbl) | [Hnull _]]].
    + destruct (Term.label tm) as [lbl |] eqn:Hl.
      * exists tm, y, lbl. repeat split; assumption.
      * exfalso.
        apply (Hchecks ObjectTransformSchema.classification_labels_resolved r);
          [cbn; tauto | exact Hr |].
        now apply (null_term_label_fails r e).
    + exfalso.
      apply (Hchecks ObjectTransformSchema.classification_labels_resolved r);
        [cbn; tauto | exact Hr |].
      now apply (null_term_label_fails r e).
Qed.

Lemma passed_check_means_resolved_terms_witness :
  NoDup (map HarvestObject.object_id [Sample.obj_001])
  /\ forall o,
      In o [Sample.obj_001] ->
      HarvestObject.object_id o <> None
      /\ HarvestObject.constituents o <> []
      /\ HarvestObject.media o <> []
      /\ forall c,
          In c (HarvestObject.classification_ids o) ->
          exists tm x lbl,
            In tm Sample.terminology
            /\ ClassificationRef.term_id c = Some x
            /\ Term.term_id tm = Some x
            /\ Term.label tm = Some lbl.
Proof.
  apply (passed_check_means_resolved_terms in_order Sample.json_encode).
  vm_compute. reflexivity.
Defined.


(* ===================================================================== *)
(** * The harness of the test script *)
(* ===================================================================== *)

Section TestHarness.

Import test_pandera_nested.

Section HarnessFacts.

Variable format_exc : string -> string -> string.

Lemma run_test_appends (name : string) (fn : unit -> outcome)
    (results : list result_row) :
  run_test format_exc name fn results
  = results ++ [result_of format_exc name fn].
Proof. unfold run_test, result_of. destruct (fn tt); reflexivity. Qed.

Lemma run_tests_from (tests : list (string * (unit -> outcome))) :
  forall results,
    fold_left (fun results t => run_test format_exc (fst t) (snd t) results)
      tests results
    = results ++ map (fun t => result_of format_exc (fst t) (snd t)) tests.
Proof.
  induction tests as [| t tests IH]; intros results.
  - cbn. now rewrite app_nil_r.
  - cbn [fold_left map]. rewrite IH, run_test_appends, <- app_assoc.
    reflexivity.
Qed.

(** The results are one row per test, in the order of the calls. *)
Lemma run_tests_rows (tests : list (string * (unit -> outcome))) :
  run_tests format_exc tests
  = map (fun t => result_of format_exc (fst t) (snd t)) tests.
Proof. unfold run_tests. now rewrite run_tests_from. Qed.

Lemma result_of_name (name : string) (fn : unit -> outcome) :
  fst (fst (result_of format_exc name fn)) = name.
Proof. unfold result_of. destruct (fn tt); reflexivity. Qed.

Lemma result_of_icon (name : string) (fn : unit -> outcome) :
  known_status fn
  = match icon (row_status (result_of format_exc name fn)) with
    | Some _ => true
    | None => false
    end.
Proof. unfold known_status, result_of. destruct (fn tt); reflexivity. Qed.

Lemma result_of_error (name : string) (fn : unit -> outcome) :
  String.eqb (row_status (result_of format_exc name fn)) ERROR = is_error fn.
Proof. unfold is_error, result_of. destruct (fn tt); reflexivity. Qed.

Lemma error_rows (tests : list (string * (unit -> outcome))) :
  existsb (fun row => String.eqb (row_status row) ERROR)
    (map (fun t => result_of format_exc (fst t) (snd t)) tests)
  = existsb (fun t => is_error (snd t)) tests.
Proof.
  induction tests as [| t tests IH]; [reflexivity |].
  cbn [map existsb]. now rewrite IH, result_of_error.
Qed.

End HarnessFacts.

Lemma print_results_known (results : list result_row) :
  forallb
    (fun row =>
       match icon (row_status row) with Some _ => true | None => false end)
    results
  = true ->
  exists lines,
    print_results results = (lines, None)
    /\ List.length lines = List.length results.
Proof.
  induction results as [| [[name status] detail] rest IH]; intros Hall.
  - exists []. split; reflexivity.
  - cbn [forallb] in Hall. apply andb_prop in Hall as [Hicon Hrest].
    destruct (IH Hrest) as (lines & Hprint & Hlen).
    unfold row_status in Hicon. cbn [fst snd] in Hicon.
    cbn [print_results]. destruct (icon status) as [i |]; [| discriminate].
    rewrite Hprint. eexists. split; [reflexivity |].
    cbn [List.length]. now rewrite Hlen.
Qed.

Lemma print_results_unknown (results : list result_row) :
  forallb
    (fun row =>
       match icon (row_status row) with Some _ => true | None => false end)
    results
  = false ->
  exists lines before row after,
    print_results results = (lines, Some (row_status row))
    /\ results = before ++ row :: after
    /\ List.length lines = List.length before
    /\ icon (row_status row) = None.
Proof.
  induction results as [| [[name status] detail] rest IH]; intros Hall;
    [discriminate |].
  cbn [forallb] in Hall. unfold row_status at 1 in Hall. cbn [fst snd] in Hall.
  cbn [print_results].
  destruct (icon status) as [i |] eqn:Hicon.
  - cbn [andb] in Hall.
    destruct (IH Hall) as (lines & before & row & after & Hp & -> & Hlen & Hi).
    rewrite Hp.
    exists (ResultLine i name detail :: lines), ((name, status, detail) :: before),
      row, after.
    repeat split; [| exact Hi]. cbn [List.length]. now rewrite Hlen.
  - exists [], [], (name, status, detail), rest. repeat split. exact Hicon.
Qed.

Lemma icon_cases (status : string) :
  icon status <> None -> status = PASS \/ status = FAIL \/ status = ERROR.
Proof.
  unfold icon, PASS, FAIL, ERROR.
  destruct (String.eqb_spec status "PASS"); [auto |].
  destruct (String.eqb_spec status "FAIL"); [auto |].
  destruct (String.eqb_spec status "ERROR"); [auto |].
  intros H. now destruct H.
Qed.

Lemma count_known (results : list result_row) :
  forallb
    (fun row =>
       match icon (row_status row) with Some _ => true | None => false end)
    results
  = true ->
  count_status PASS results + count_status FAIL results
  + count_status ERROR results
  = List.length results.
Proof.
  unfold count_status.
  induction results as [| row rest IH]; intros Hall; [reflexivity |].
  cbn [forallb] in Hall. apply andb_prop in Hall as [Hicon Hrest].
  specialize (IH Hrest). cbn [filter].
  assert (Hcase : icon (row_status row) <> None)
    by (destruct (icon (row_status row)); [discriminate | discriminate]).
  apply icon_cases in Hcase as [-> | [-> | ->]]; cbn; lia.
Qed.

Lemma count_error_positive (results : list result_row) :
  (0 <? count_status ERROR results)
  = existsb (fun row => String.eqb (row_status row) ERROR) results.
Proof.
  unfold count_status.
  induction results as [| row rest IH]; [reflexivity |].
  cbn [filter existsb].
  destruct (String.eqb (row_status row) ERROR); [reflexivity | exact IH].
Qed.

(** X22.  The harness of the test script.  The calls of [run_test] leave
    one result per test, in the order of the calls: a test that raises is
    recorded with status ["ERROR"] and does not stop the run.  When every
    returned status is ["PASS"], ["FAIL"] or ["ERROR"], [main] prints one
    line per result and the summary, whose three counts add up to the
    number of tests, and exits with status 1 exactly when some test raised
    or returned ["ERROR"]: a ["FAIL"] leaves the exit status at 0.
    Otherwise [main] stops with a [KeyError] for the first status that has
    no icon, after the lines of the results before it and without
    summary. *)
Theorem test_run_exit_status
    (format_exc : string -> string -> string)
    (tests : list (string * (unit -> outcome))) :
  let results := run_tests format_exc tests in
  map (fun row : result_row => fst (fst row)) results = map fst tests
  /\ (forallb (fun t => known_status (snd t)) tests = true ->
      exists lines,
        main results
        = (lines
           ++ [Summary (count_status PASS results) (count_status FAIL results)
                 (count_status ERROR results)],
           SystemExit
             (if existsb (fun t => is_error (snd t)) tests then 1 else 0))
        /\ List.length lines = List.length tests
        /\ count_status PASS results + count_status FAIL results
           + count_status ERROR results
           = List.length tests)
  /\ (forallb (fun t => known_status (snd t)) tests = false ->
      exists lines before row after,
        main results = (lines, KeyError (row_status row))
        /\ results = before ++ row :: after
        /\ List.length lines = List.length before
        /\ icon (row_status row) = None).
Proof.
  intros results. subst results. rewrite run_tests_rows.
  set (rows := map (fun t => result_of format_exc (fst t) (snd t)) tests).
  assert (Hknown :
    forallb
      (fun row =>
         match icon (row_status row) with Some _ => true | None => false end)
      rows
    = forallb (fun t => known_status (snd t)) tests).
  { subst rows. induction tests as [| t tests IH]; [reflexivity |].
    cbn [map forallb]. now rewrite IH, <- result_of_icon. }
  split; [| split].
  - subst rows. rewrite map_map. apply map_ext. intros t.
    apply result_of_name.
  - intros Hall. rewrite <- Hknown in Hall.
    destruct (print_results_known rows Hall) as (lines & Hprint & Hlen).
    exists lines. unfold main. rewrite Hprint, count_error_positive.
    assert (Hrows : List.length rows = List.length tests)
      by (subst rows; apply length_map).
    split; [| split].
    + subst rows. now rewrite error_rows.
    + now rewrite Hlen.
    + now rewrite count_known.
  - intros Hall. rewrite <- Hknown in Hall.
    destruct (print_results_unknown rows Hall)
      as (lines & before & row & after & Hprint & Hsplit & Hlen & Hicon).
    exists lines, before, row, after. unfold main. rewrite Hprint.
    repeat split; assumption.
Qed.

(** A run of three tests: one passes, one gives an unexpected result, one
    raises.  The exit status is 1, for the test that raised. *)
Lemma test_run_exit_status_witness :
  let tests :=
    [ ("1a", fun _ : unit => Returns PASS "accepted");
      ("3a", fun _ : unit => Returns FAIL "validation passed");
      ("3c", fun _ : unit => Raises "InvalidOperationError" "not supported") ]
  in
  let results := run_tests (fun _ _ => "Traceback") tests in
  exists lines,
    main results
    = (lines
       ++ [Summary (count_status PASS results) (count_status FAIL results)
             (count_status ERROR results)],
       SystemExit 1)
    /\ List.length lines = 3
    /\ count_status PASS results + count_status FAIL results
       + count_status ERROR results
       = 3.
Proof.
  intros tests results.
  exact (proj1 (proj2 (test_run_exit_status (fun _ _ => "Traceback") tests))
           eq_refl).
Defined.

End TestHarness.
